(** * A shallow embedding of the visonic_decoder protocol decoder

    The development follows the Python sources

    - [visonic_decoder/helpers.py]                  (byte helpers, checksum)
    - [visonic_decoder/const.py]                    (lookup enums, EVENTS)
    - [visonic_decoder/refs.py]                     (zone types, system status)
    - [visonic_decoder/decoders/standard_message.py]
    - [visonic_decoder/decoders/b0_message.py]
    - [visonic_decoder/decoders/b0_35_command.py]   (settings of command 35)
    - [visonic_decoder/decoders/b0_42_command.py]   (settings of command 42)
    - [visonic_decoder/manager.py]                  (the message queue)

    Python [bytes]/[bytearray] values are lists of [Byte.byte]; Python
    integers are [Z]; exceptions are the [Raise] branch of [result];
    the mutable [PagedMessageManager] is threaded explicitly. *)

From Stdlib Require Import List ZArith String Ascii Strings.Byte Bool Lia QArith.
From Stdlib Require Import DecimalString Permutation Sorted.
Import ListNotations.

Local Open Scope string_scope.
Local Open Scope Z_scope.

(** ** Exceptions *)

Inductive exn : Set :=
| IndexError
| ValueError
| TypeError
| AttributeError
| KeyError.

Inductive result (A : Type) : Type :=
| Ok (a : A)
| Raise (e : exn).

Arguments Ok {A} a.
Arguments Raise {A} e.

Definition bind {A B : Type} (r : result A) (k : A -> result B) : result B :=
  match r with
  | Ok a => k a
  | Raise e => Raise e
  end.

Notation "x <- r ;; k" := (bind r (fun x => k))
  (at level 61, r at next level, right associativity).

(** [try: body except e: handler] for a single exception class. *)
Definition try_except {A : Type} (body : result A) (e : exn) (handler : result A)
  : result A :=
  match body with
  | Ok a => Ok a
  | Raise e' => match e, e' with
                | IndexError, IndexError
                | ValueError, ValueError
                | TypeError, TypeError
                | AttributeError, AttributeError
                | KeyError, KeyError => handler
                | _, _ => Raise e'
                end
  end.

Fixpoint mapM {A B : Type} (f : A -> result B) (l : list A) : result (list B) :=
  match l with
  | [] => Ok []
  | a :: l' => b <- f a ;; bs <- mapM f l' ;; Ok (b :: bs)
  end.

(** ** Bytes, slices and hex rendering *)

Definition bytes := list byte.

Definition b2z (b : byte) : Z := Z.of_N (Byte.to_N b).

(** The byte of an integer in [0, 256); [x00] stands in outside that range,
    which [calculate_message_checksum] never reaches ([checksum_value_range]). *)
Definition byte_of_Z (z : Z) : byte :=
  match Byte.of_N (Z.to_N z) with
  | Some b => b
  | None => x00
  end.

(** Python's index normalisation for a slice bound over a sequence of
    length [n]: negative bounds count from the end, and both are clamped. *)
Definition norm (n i : Z) : Z :=
  if i <? 0 then Z.max (i + n) 0 else Z.min i n.

Definition len {A : Type} (l : list A) : Z := Z.of_nat (List.length l).

(** [l[lo:hi]] *)
Definition slice {A : Type} (l : list A) (lo hi : Z) : list A :=
  let a := norm (len l) lo in
  let b := norm (len l) hi in
  firstn (Z.to_nat (b - a)) (skipn (Z.to_nat a) l).

(** [l[lo:]] *)
Definition slice_from {A : Type} (l : list A) (lo : Z) : list A :=
  skipn (Z.to_nat (norm (len l) lo)) l.

(** [l[:hi]] *)
Definition slice_to {A : Type} (l : list A) (hi : Z) : list A :=
  firstn (Z.to_nat (norm (len l) hi)) l.

(** [l[i]] for a non-negative index. *)
Definition item {A : Type} (l : list A) (i : nat) : result A :=
  match nth_error l i with
  | Some a => Ok a
  | None => Raise IndexError
  end.

Definition hex_digit (n : N) : ascii :=
  match n with
  | 0%N => "0" | 1%N => "1" | 2%N => "2" | 3%N => "3"
  | 4%N => "4" | 5%N => "5" | 6%N => "6" | 7%N => "7"
  | 8%N => "8" | 9%N => "9" | 10%N => "a" | 11%N => "b"
  | 12%N => "c" | 13%N => "d" | 14%N => "e" | _ => "f"
  end%char.

Definition hex_byte (b : byte) : string :=
  let n := Byte.to_N b in
  String (hex_digit (N.div n 16)) (String (hex_digit (N.modulo n 16)) EmptyString).

(** [data.hex()] *)
Fixpoint hex (data : bytes) : string :=
  match data with
  | [] => ""
  | b :: rest => hex_byte b ++ hex rest
  end.

(** [data.hex(" ")] *)
Fixpoint hex_sep (data : bytes) : string :=
  match data with
  | [] => ""
  | [b] => hex_byte b
  | b :: rest => hex_byte b ++ " " ++ hex_sep rest
  end.

(** [f"{n}"] for an integer. *)
Definition str_of_int (n : Z) : string := NilZero.string_of_int (Z.to_int n).

(** ** helpers.py *)

Definition TEXT_UNKNOWN : string := "UNKNOWN".

(** [int.from_bytes(byte, "big")] *)
Definition from_bytes_big (data : bytes) : Z :=
  fold_left (fun acc b => acc * 256 + b2z b) data 0.

(** [b2i(byte, big_endian)] *)
Definition b2i (data : bytes) (big_endian : bool) : Z :=
  if big_endian then from_bytes_big data else from_bytes_big (rev data).

(** An enum class is the partial map from a value to the member's name;
    [lookup_enum(value)] raises [ValueError] where the map is undefined. *)
Definition enum (V : Type) := V -> option string.

Definition enum_name {V : Type} (e : enum V) (value : V) : result string :=
  match e value with
  | Some name => Ok name
  | None => Raise ValueError
  end.

(** [get_lookup_value]: the argument is always an enum class, for which
    [isinstance(lookup_enum, Enum)] is false, so the fallback is
    [TEXT_UNKNOWN]. *)
Definition get_lookup_value {V : Type} (lookup_enum : enum V) (value : V) : string :=
  match try_except (enum_name lookup_enum value) ValueError (Ok TEXT_UNKNOWN) with
  | Ok name => name
  | Raise _ => TEXT_UNKNOWN
  end.

Fixpoint assoc_str (table : list (string * string)) (value : string) : option string :=
  match table with
  | [] => None
  | (v, name) :: rest => if String.eqb v value then Some name else assoc_str rest value
  end.

Fixpoint assoc_Z (table : list (Z * string)) (value : Z) : option string :=
  match table with
  | [] => None
  | (v, name) :: rest => if v =? value then Some name else assoc_Z rest value
  end.

(** [decode_hex_timestamp]: the reversed bytes folded with
    [reduce(lambda s, x: s * 256 + x, ...)], which raises [TypeError] on an
    empty sequence.  The result is kept as the number of seconds that
    [datetime.fromtimestamp] receives.  The decoders pass at most four
    bytes, a number below 2^32 that [fromtimestamp] accepts; beyond the
    year 9999, which takes five bytes and more, [fromtimestamp] raises,
    and that is not part of this definition. *)
Definition decode_hex_timestamp (data : bytes) : result Z :=
  match rev data with
  | [] => Raise TypeError
  | x :: ts => Ok (fold_left (fun s x => s * 256 + b2z x) ts (b2z x))
  end.

Fixpoint chunk_fuel {A : Type} (fuel size : nat) (data : list A) : list (list A) :=
  match fuel with
  | O => []
  | S fuel' =>
      match data with
      | [] => []
      | _ => firstn size data :: chunk_fuel fuel' size (skipn size data)
      end
  end.

(** [chunk_bytearray(data, size)]: [range(0, len(data), size)] raises
    [ValueError] for a zero step and is empty for a negative one. *)
Definition chunk_bytearray {A : Type} (data : list A) (size : Z) : result (list (list A)) :=
  if size =? 0 then Raise ValueError
  else if size <? 0 then Ok []
  else Ok (chunk_fuel (List.length data) (Z.to_nat size) data).

Definition checksum_value (msg : bytes) : Z :=
  let checksum := fold_left (fun checksum char => checksum + b2z char) msg 0 in
  let checksum := 0xFF - (checksum mod 0xFF) in
  if checksum =? 0xFF then 0x00 else checksum.

(** [calculate_message_checksum] *)
Definition calculate_message_checksum (msg : bytes) : bytes :=
  [byte_of_Z (checksum_value msg)].

(** ** const.py *)

Definition MessageType : enum Z :=
  assoc_Z [(0, "ADD"); (1, "REQUEST"); (2, "PAGED_RESPONSE");
           (3, "RESPONSE"); (4, "REMOVE"); (5, "UNKNOWN")].

Definition MessageType_ADD : Z := 0.
Definition MessageType_REQUEST : Z := 1.
Definition MessageType_PAGED_RESPONSE : Z := 2.
Definition MessageType_RESPONSE : Z := 3.
Definition MessageType_REMOVE : Z := 4.
Definition MessageType_UNKNOWN : Z := 5.

Definition DataTypes : enum Z :=
  assoc_Z [(0, "UNKNOWN"); (1, "BITS"); (4, "NIBBLE"); (8, "BYTES");
           (16, "WORD16"); (24, "WORD24"); (32, "WORD32"); (40, "WORD40");
           (48, "WORD48"); (56, "WORD56"); (64, "WORD64"); (72, "WORD72");
           (80, "WORD80"); (88, "WORD88"); (96, "WORD96"); (104, "WORD104");
           (112, "WORD112")].

Definition IndexName_table : list (Z * string) :=
  [(0, "REPEATERS"); (1, "X10"); (2, "SIRENS"); (3, "ZONES"); (4, "KEYPADS");
   (5, "KEYFOBS"); (6, "USERCODES"); (7, "CAMERASA"); (8, "UNK8");
   (9, "POWERLINK"); (10, "TAGS"); (11, "CAMERASB"); (12, "PANEL");
   (13, "UNK13"); (14, "PARTITIONS"); (15, "UNK15"); (16, "UNK16");
   (17, "EVENTS"); (18, "UKN18"); (19, "UNK19"); (20, "UNK20"); (255, "NA")].

Definition IndexName : enum Z := assoc_Z IndexName_table.

Definition ZoneStatus : enum Z :=
  assoc_Z [(0, "NA"); (1, "OPEN"); (2, "CLOSED"); (3, "MOTION"); (4, "CHECKIN")].

Definition ZoneBrightness : enum Z :=
  assoc_Z [(0, "DARKNESS"); (1, "PARTIAL_LIGHT"); (2, "DAYLIGHT")].

Definition EVENTS : list string :=
  ["None";
   "Interior Alarm"; "Perimeter Alarm"; "Delay Alarm"; "24h Silent Alarm";
   "24h Audible Alarm"; "Tamper"; "Control Panel Tamper"; "Tamper Alarm";
   "Tamper Alarm"; "Communication Loss"; "Panic From Keyfob";
   "Panic From Control Panel"; "Duress"; "Confirm Alarm"; "General Trouble";
   "General Trouble Restore"; "Interior Restore"; "Perimeter Restore";
   "Delay Restore"; "24h Silent Restore";
   "24h Audible Restore"; "Tamper Restore"; "Control Panel Tamper Restore";
   "Tamper Restore"; "Tamper Restore"; "Communication Restore"; "Cancel Alarm";
   "General Restore"; "Trouble Restore"; "Not used"; "Recent Close"; "Fire";
   "Fire Restore"; "Not Active"; "Emergency"; "Remove User"; "Disarm Latchkey";
   "Confirm Alarm Emergency"; "Supervision (Inactive)";
   "Supervision Restore (Active)"; "Low Battery"; "Low Battery Restore";
   "AC Fail"; "AC Restore"; "Control Panel Low Battery";
   "Control Panel Low Battery Restore"; "RF Jamming"; "RF Jamming Restore";
   "Communications Failure"; "Communications Restore";
   "Telephone Line Failure"; "Telephone Line Restore"; "Auto Test";
   "Fuse Failure"; "Fuse Restore"; "Keyfob Low Battery";
   "Keyfob Low Battery Restore"; "Engineer Reset"; "Battery Disconnect";
   "1-Way Keypad Low Battery"; "1-Way Keypad Low Battery Restore";
   "1-Way Keypad Inactive"; "1-Way Keypad Restore Active"; "Low Battery Ack";
   "Clean Me"; "Fire Trouble"; "Low Battery"; "Battery Restore"; "AC Fail";
   "AC Restore"; "Supervision (Inactive)"; "Supervision Restore (Active)";
   "Gas Alert"; "Gas Alert Restore"; "Gas Trouble"; "Gas Trouble Restore";
   "Flood Alert"; "Flood Alert Restore"; "X-10 Trouble";
   "X-10 Trouble Restore";
   "Arm Home"; "Arm Away"; "Quick Arm Home"; "Quick Arm Away"; "Disarm";
   "Fail To Auto-Arm"; "Enter To Test Mode"; "Exit From Test Mode";
   "Force Arm"; "Auto Arm"; "Instant Arm"; "Bypass"; "Fail To Arm";
   "Door Open"; "Communication Established By Control Panel"; "System Reset";
   "Installer Programming"; "Wrong Password"; "Not Sys Event"; "Not Sys Event";
   "Extreme Hot Alert"; "Extreme Hot Alert Restore"; "Freeze Alert";
   "Freeze Alert Restore"; "Human Cold Alert"; "Human Cold Alert Restore";
   "Human Hot Alert"; "Human Hot Alert Restore"; "Temperature Sensor Trouble";
   "Temperature Sensor Trouble Restore";
   "PIR Mask"; "PIR Mask Restore"; "Repeater low battery";
   "Repeater low battery restore"; "Repeater inactive";
   "Repeater inactive restore"; "Repeater tamper"; "Repeater tamper restore";
   "Siren test end"; "Devices test end";
   "One way comm. trouble"; "One way comm. trouble restore";
   "Sensor outdoor alarm"; "Sensor outdoor restore"; "Guard sensor alarmed";
   "Guard sensor alarmed restore"; "Date time change"; "System shutdown";
   "System power up"; "Missed Reminder"; "Pendant test fail";
   "Basic KP inactive"; "Basic KP inactive restore"; "Basic KP tamper";
   "Basic KP tamper Restore"; "Heat"; "Heat restore"; "LE Heat Trouble";
   "CO alarm"; "CO alarm restore";
   "CO trouble"; "CO trouble restore"; "Exit Installer"; "Enter Installer";
   "Self test trouble"; "Self test restore"; "Confirm panic event"; "n/a";
   "Soak test fail"; "Fire Soak test fail"; "Gas Soak test fail"]
  ++ repeat "n/a" 25%nat.

(** ** decoders/standard_message.py *)

Definition StandardCommand : enum string :=
  assoc_str [("02", "ACK"); ("06", "HELLO"); ("08", "ACCESS_DENIED");
             ("09", "EPROM_RW_MODE"); ("0f", "EXIT_RW_MODE"); ("a1", "ARM_ALARM");
             ("a2", "REQ_STATUS"); ("a5", "STATUS_UPDATE"); ("a6", "ZONE_TYPE");
             ("ab", "SET_DATETIME"); ("3c", "EPROM_INFO"); ("3d", "WRITE_CONFIG");
             ("3e", "READ_CONFIG"); ("3f", "CONFIG_VALUE")].

Module STD.

Record STDMessage : Type := {
  command : string;
  command_str : string;
  data : string;
  checksum : string;
  verified : bool
}.

End STD.

(** [STDMessageDecoder] defines no [handle_std_*_message] method, so the
    [hasattr] test fails for every command and the data is rendered as hex. *)
Definition decode_standard_message (msg : bytes) : STD.STDMessage :=
  let command := hex (slice msg 1 2) in
  let command_str := get_lookup_value StandardCommand command in
  let data := slice msg 2 (-2) in
  let checksum := hex (slice msg (-2) (-1)) in
  let verified :=
    if String.eqb checksum (hex (calculate_message_checksum (slice msg 1 (-2))))
    then true else false in
  let data := hex_sep data in
  {| STD.command := command;
     STD.command_str := command_str;
     STD.data := data;
     STD.checksum := checksum;
     STD.verified := verified |}.

(** ** decoders/b0_message.py: data model *)

Definition FINAL_PAGE : Z := 255.

Definition B0Command : enum string :=
  assoc_str [("01", "ZONE01"); ("02", "ZONE02"); ("04", "ZONE04"); ("05", "ZONE05");
             ("06", "INVALID_COMMAND"); ("07", "ZONE07"); ("0f", "UNKNOWN0F");
             ("11", "ZONES11"); ("12", "ZONES12"); ("13", "ZONES13");
             ("14", "ZONES14"); ("15", "ZONES15"); ("16", "ZONES16");
             ("17", "REQUEST_LIST"); ("18", "SENSOR_DETECTION"); ("19", "BYPASSES");
             ("1d", "ENROLLED"); ("1f", "DEVICE_TYPES"); ("21", "ASSIGNED_NAMES");
             ("22", "SYSTEM_CAPABILITIES"); ("24", "PANEL_STATUS");
             ("27", "CAMERA_SOMETING"); ("2a", "STANDARD_EVENT_LOG");
             ("2b", "UNKNOWN2B"); ("2d", "ASSIGNED_ZONE_TYPES"); ("35", "SETTINGS");
             ("36", "LEGACY_EVENT_LOG"); ("37", "SOME_EVENT37"); ("3a", "ZONE3A");
             ("3d", "ZONE_TEMPS"); ("40", "ZONE40"); ("42", "SETTINGS2");
             ("43", "ZONE43"); ("49", "ZONE49"); ("4b", "ZONE_LAST_EVENT");
             ("4e", "ZONE4E"); ("4f", "ZONE4F"); ("50", "ZONE50"); ("51", "ASK_ME");
             ("52", "DEVICE_COUNTS"); ("53", "CAMERA_SOMETHING"); ("59", "GSM_STATUS");
             ("64", "PANEL_SOFTWARE_VERSION"); ("69", "PANEL_EPROM_AND_SW_VERSION");
             ("6a", "KEEP_ALIVE"); ("75", "SOME_LOG"); ("77", "ZONE_BRIGHTNESS")].

(** An element met when iterating [chunk.data]: the structural decoder
    stores [bytes] slices; iterating a flat [bytearray], or a list that
    [list.extend] was fed a [bytearray], yields integers. *)
Inductive elem : Type :=
| EBytes (b : bytes)
| EInt (n : Z).

Module Chunk.

(** [data: bytearray | list[bytearray]] *)
Inductive payload : Type :=
| Flat (b : bytes)
| Elems (l : list elem).

(** [hex: str | list[str]] *)
Inductive rendering : Type :=
| HexStr (s : string)
| HexList (l : list string).

(** The fields [B042DataChunk] adds to [B0DataChunk]. *)
Record B042 : Type := {
  max_entries : Z;
  entries : Z;
  start_entry : Z;
  chunk_size : Z
}.

Record B0DataChunk : Type := {
  data_type : Z;
  index : Z;
  length : Z;
  data : payload;
  hex : rendering;
  b042 : option B042
}.

End Chunk.

Definition B0DataChunk : Type := Chunk.B0DataChunk.

Module Response.

Record B0StructuredResponseMessage : Type := {
  message_start_marker : string;
  b0_message : bool;
  message_type : Z;
  command : string;
  length_all_data : Z;
  has_params : bool;
  params : string;
  page : Z;
  data : list B0DataChunk;
  message_counter : Z;
  end_data_marker : string;
  checksum : string;
  message_end_marker : string;
  message : bytes
}.

Definition with_data (m : B0StructuredResponseMessage) (d : list B0DataChunk) :=
  {| message_start_marker := message_start_marker m;
     b0_message := b0_message m;
     message_type := message_type m;
     command := command m;
     length_all_data := length_all_data m;
     has_params := has_params m;
     params := params m;
     page := page m;
     data := d;
     message_counter := message_counter m;
     end_data_marker := end_data_marker m;
     checksum := checksum m;
     message_end_marker := message_end_marker m;
     message := message m |}.

End Response.

Module Request.

(** [data: bytearray], or the [B0DataChunk] the ADD/REMOVE layout stores. *)
Inductive payload : Type :=
| Bytes (b : bytes)
| OneChunk (c : B0DataChunk).

Record B0StructuredRequestMessage : Type := {
  message_start_marker : string;
  b0_message : bool;
  message_type : Z;
  command : string;
  length_all_data : Z;
  has_params : bool;
  param_size : Z;
  data_type : Z;
  start_of_data_pos : Z;
  data_length : Z;
  data : payload;
  hex : option string;
  end_data_marker : string;
  checksum : string;
  message_end_marker : string;
  message : bytes
}.

End Request.

Inductive structured : Type :=
| SRequest (m : Request.B0StructuredRequestMessage)
| SResponse (m : Response.B0StructuredResponseMessage).

Definition message_start_marker (s : structured) : string :=
  match s with
  | SRequest m => Request.message_start_marker m
  | SResponse m => Response.message_start_marker m
  end.

Definition end_data_marker (s : structured) : string :=
  match s with
  | SRequest m => Request.end_data_marker m
  | SResponse m => Response.end_data_marker m
  end.

Definition checksum (s : structured) : string :=
  match s with
  | SRequest m => Request.checksum m
  | SResponse m => Response.checksum m
  end.

Definition message_end_marker (s : structured) : string :=
  match s with
  | SRequest m => Request.message_end_marker m
  | SResponse m => Response.message_end_marker m
  end.

Definition message (s : structured) : bytes :=
  match s with
  | SRequest m => Request.message m
  | SResponse m => Response.message m
  end.

Definition message_type (s : structured) : Z :=
  match s with
  | SRequest m => Request.message_type m
  | SResponse m => Response.message_type m
  end.

(** ** decoders/b0_message.py: [decode_b0_message_structure] *)

(** The [while i <= length_all_data - 1] loop of the default response
    layout.  Every turn advances [i] by at least 4, so
    [Z.to_nat (length_all_data - i)] turns are enough
    ([split_chunks_enough_fuel]). *)
Fixpoint split_chunks (fuel : nat) (msg : bytes) (length_all_data i : Z) : list bytes :=
  match fuel with
  | O => []
  | S fuel' =>
      if i <=? length_all_data - 1 then
        let chunk_data_length := b2i (slice msg (i + 3) (i + 4)) true in
        let chunk_data := slice msg (i + 1) (i + 4 + chunk_data_length) in
        chunk_data :: split_chunks fuel' msg length_all_data (i + 4 + chunk_data_length)
      else []
  end.

(** One chunk of the default layout.  [int(data_type / 8)] is taken on a
    non-negative integer below 2^16, where it is the floor quotient. *)
Definition default_chunk (chunk : bytes) : result B0DataChunk :=
  let data_type := b2i (slice_to chunk 1) true in
  let data_size_bytes := Z.max 1 (data_type / 8) in
  data <- chunk_bytearray (slice_from chunk 3) data_size_bytes ;;
  Ok {| Chunk.data_type := b2i (slice_to chunk 1) true;
        Chunk.index := b2i (slice chunk 1 2) true;
        Chunk.length := b2i (slice chunk 2 3) true;
        Chunk.data := Chunk.Elems (map EBytes data);
        Chunk.hex := Chunk.HexList (map hex_sep data);
        Chunk.b042 := None |}.

Definition response_chunks (msg : bytes) (command : string) (length_all_data : Z)
  : result (bool * string * list B0DataChunk) :=
  if b2i (slice msg 6 7) true =? 0 then
    let data_length := b2i (slice msg 11 12) true in
    let data := slice msg 12 (12 + data_length) in
    Ok (false, "",
        [ {| Chunk.data_type := b2i (slice msg 6 7) true;
             Chunk.index := 255;
             Chunk.length := data_length;
             Chunk.data := Chunk.Flat data;
             Chunk.hex := Chunk.HexStr (hex_sep data);
             Chunk.b042 := None |} ])
  else if String.eqb command "0f" then
    let data_type := b2i (slice msg 6 7) true in
    let index := 255 in
    let data_length := b2i (slice msg 4 5) true - 4 in
    let data_size_bytes := Z.max 1 (data_type / 8) in
    data <- chunk_bytearray (slice msg 8 (8 + data_length)) data_size_bytes ;;
    Ok (false, "",
        [ {| Chunk.data_type := data_type;
             Chunk.index := index;
             Chunk.length := data_length;
             Chunk.data := Chunk.Elems (map EBytes data);
             Chunk.hex := Chunk.HexList (map hex data);
             Chunk.b042 := None |} ])
  else if String.eqb command "35" then
    let params := hex_sep (slice msg 9 11) in
    let data_type := b2i (slice msg 11 12) true in
    let data_length := b2i (slice msg 8 9) true - 3 in
    let data_size_bytes := Z.max 1 (data_type / 8) in
    data <- chunk_bytearray (slice msg 12 (12 + data_length)) data_size_bytes ;;
    Ok (true, params,
        [ {| Chunk.data_type := data_type;
             Chunk.index := 255;
             Chunk.length := data_length;
             Chunk.data := Chunk.Elems (map EBytes data);
             Chunk.hex := Chunk.HexList (map hex data);
             Chunk.b042 := None |} ])
  else if String.eqb command "42" then
    let data_length := b2i (slice msg 8 9) true - 14 in
    let params := hex_sep (slice msg 9 11) in
    let max_entries := b2i (slice msg 11 13) false in
    let data_chunk_size := b2i (slice msg 13 15) false / 8 in
    let data_type := b2i (slice msg 17 18) true in
    let start_entry := b2i (slice msg 19 21) false in
    let entries := b2i (slice msg 21 23) false in
    data <- (if data_chunk_size =? 0 then Ok []
             else chunk_bytearray (slice msg 23 (23 + data_length)) data_chunk_size) ;;
    Ok (true, params,
        [ {| Chunk.data_type := data_type;
             Chunk.index := 255;
             Chunk.length := data_length;
             Chunk.data := Chunk.Elems (map EBytes data);
             Chunk.hex := Chunk.HexList (map hex data);
             Chunk.b042 := Some {| Chunk.max_entries := max_entries;
                                   Chunk.entries := entries;
                                   Chunk.start_entry := start_entry;
                                   Chunk.chunk_size := data_chunk_size |} |} ])
  else
    let i := 5 in
    let chunks := split_chunks (Z.to_nat (length_all_data - i)) msg length_all_data i in
    struct_chunks <- mapM default_chunk chunks ;;
    Ok (false, "", struct_chunks).

(** [None] is the value Python returns when no branch of the
    [if]/[elif] chain over the message type is taken. *)
Definition decode_b0_message_structure (msg : bytes) : result (option structured) :=
  let message_start_marker := hex (slice_to msg 1) in
  let b0_message := String.eqb (hex (slice msg 1 2)) "b0" in
  let message_type := b2i (slice msg 2 3) true in
  let command := hex (slice msg 3 4) in
  let length_all_data := b2i (slice msg 4 5) true in
  let message_counter := b2i (slice msg (-4) (-3)) true in
  let end_data_marker := hex (slice msg (-3) (-2)) in
  let checksum := hex (slice msg (-2) (-1)) in
  let message_end_marker := hex (slice_from msg (-1)) in
  if (message_type =? MessageType_ADD) || (message_type =? MessageType_REMOVE) then
    let '(data_type, data_length, start_of_data, data) :=
      if list_eq_dec Byte.byte_eq_dec (slice msg 10 11) [xff] then
        let data_type := b2i (slice msg 9 10) true in
        let data_length := b2i (slice msg 11 12) true in
        let start_of_data := 12 in
        (data_type, data_length, start_of_data,
         Request.Bytes (slice msg start_of_data (start_of_data + data_length)))
      else
        let data_type := b2i (slice msg 9 10) true in
        let data_length := length_all_data - 4 in
        let start_of_data := 12 in
        let chunk_length := b2i (slice msg 11 12) true in
        (data_type, data_length, start_of_data,
         Request.OneChunk
           {| Chunk.data_type := b2i (slice msg 9 10) true;
              Chunk.index := b2i (slice msg 10 11) true;
              Chunk.length := chunk_length;
              Chunk.data := Chunk.Flat (slice msg start_of_data (start_of_data + chunk_length));
              Chunk.hex := Chunk.HexStr
                             (hex_sep (slice msg start_of_data (start_of_data + chunk_length)));
              Chunk.b042 := None |}) in
    Ok (Some (SRequest
      {| Request.message_start_marker := message_start_marker;
         Request.b0_message := b0_message;
         Request.message_type := message_type;
         Request.command := command;
         Request.length_all_data := length_all_data;
         Request.has_params := false;
         Request.param_size := 0;
         Request.data_type := data_type;
         Request.start_of_data_pos := start_of_data;
         Request.data_length := data_length;
         Request.data := data;
         Request.hex := match data with
                        | Request.Bytes b => Some (hex_sep b)
                        | Request.OneChunk _ => None
                        end;
         Request.end_data_marker := end_data_marker;
         Request.checksum := checksum;
         Request.message_end_marker := message_end_marker;
         Request.message := slice msg 1 (-1) |}))
  else if message_type =? MessageType_REQUEST then
    let '(has_params, param_size, data_type, data_length, start_of_data) :=
      if length_all_data >? 1 then
        (true, b2i (slice msg 5 6) true, b2i (slice msg 7 8) true,
         b2i (slice msg 9 10) true, 10)
      else
        (false, 0, -1, b2i (slice msg 4 5) true, 5) in
    let data := slice msg start_of_data (start_of_data + data_length) in
    Ok (Some (SRequest
      {| Request.message_start_marker := message_start_marker;
         Request.b0_message := b0_message;
         Request.message_type := message_type;
         Request.command := command;
         Request.length_all_data := length_all_data;
         Request.has_params := has_params;
         Request.param_size := param_size;
         Request.data_type := data_type;
         Request.start_of_data_pos := start_of_data;
         Request.data_length := data_length;
         Request.data := Request.Bytes data;
         Request.hex := Some (hex_sep data);
         Request.end_data_marker := end_data_marker;
         Request.checksum := checksum;
         Request.message_end_marker := message_end_marker;
         Request.message := slice msg 1 (-1) |}))
  else if (message_type =? MessageType_PAGED_RESPONSE)
          || (message_type =? MessageType_RESPONSE)
          || (message_type =? MessageType_UNKNOWN) then
    let page := b2i (slice msg 5 6) true in
    r <- response_chunks msg command length_all_data ;;
    let '(has_params, params, struct_chunks) := r in
    Ok (Some (SResponse
      {| Response.message_start_marker := message_start_marker;
         Response.b0_message := b0_message;
         Response.message_type := message_type;
         Response.command := command;
         Response.length_all_data := length_all_data;
         Response.has_params := has_params;
         Response.params := params;
         Response.page := page;
         Response.data := struct_chunks;
         Response.message_counter := message_counter;
         Response.end_data_marker := end_data_marker;
         Response.checksum := checksum;
         Response.message_end_marker := message_end_marker;
         Response.message := slice msg 1 (-1) |}))
  else Ok None.

(** [validate_b0_message] *)
Definition validate_b0_message (struct_msg : structured) : bool :=
  if String.eqb (message_start_marker struct_msg) "0d"
     && String.eqb (end_data_marker struct_msg) "43"
     && String.eqb (hex (calculate_message_checksum (slice_to (message struct_msg) (-1))))
                   (checksum struct_msg)
     && String.eqb (message_end_marker struct_msg) "0a"
  then true else false.

(** ** decoders/b0_message.py: [PagedMessageManager] *)

(** A Python [dict] keeps insertion order, and assigning to a key that is
    present replaces the value where it stands. *)
Fixpoint dict_set {K V : Type} (eqb : K -> K -> bool) (d : list (K * V)) (k : K) (v : V)
  : list (K * V) :=
  match d with
  | [] => [(k, v)]
  | (k', v') :: rest =>
      if eqb k' k then (k', v) :: rest else (k', v') :: dict_set eqb rest k v
  end.

Fixpoint dict_get {K V : Type} (eqb : K -> K -> bool) (d : list (K * V)) (k : K)
  : option V :=
  match d with
  | [] => None
  | (k', v') :: rest => if eqb k' k then Some v' else dict_get eqb rest k
  end.

(** The key [f"{command}_{page_no}"].  A command is the hex of one byte, so
    [page_id.split("_")] gives back exactly the two components, which is
    how the key is kept here. *)
Definition page_id : Type := string * Z.

Definition page_id_eqb (a b : page_id) : bool :=
  String.eqb (fst a) (fst b) && (snd a =? snd b).

Record PagedMessageManager : Type := {
  pm_command : option string;
  last_page : Z;
  pages : list (page_id * Response.B0StructuredResponseMessage)
}.

Definition PagedMessageManager_init : PagedMessageManager :=
  {| pm_command := None; last_page := 0; pages := [] |}.

Definition has_active_paged_response (self : PagedMessageManager) (command : string) : bool :=
  match pages self with
  | [] => false
  | _ => match dict_get page_id_eqb (pages self) (command, 1) with
         | Some _ => true
         | None => false
         end
  end.

Definition reset (self : PagedMessageManager) : PagedMessageManager :=
  {| pm_command := pm_command self; last_page := last_page self; pages := [] |}.

Definition add_page (self : PagedMessageManager) (command : string) (page_no : Z)
  (message : Response.B0StructuredResponseMessage) : PagedMessageManager :=
  let self := if page_no =? 1 then reset self else self in
  {| pm_command := pm_command self;
     last_page := last_page self;
     pages := dict_set page_id_eqb (pages self) (command, page_no) message |}.

(** [int(x)] for a list [x]: always a [TypeError]. *)
Definition int_of_list {A : Type} (x : list A) : result Z := Raise TypeError.

(** [get_highest_page_for_command].  [page_ids.sort()] only reorders the
    list whose slice [page_ids[:-1]] is then handed to [int]. *)
Definition get_highest_page_for_command (self : PagedMessageManager) (command : string)
  : result Z :=
  let page_ids :=
    map (fun p => snd (fst p))
        (filter (fun p => String.eqb (fst (fst p)) command) (pages self)) in
  match page_ids with
  | [] => Ok 0
  | _ => int_of_list (slice_to page_ids (-1))
  end.

(** The keys of the dictionary handed to [rebuild_paged_data_chunks]:
    [get_pages] keys by the page string, [update] adds the final message
    under the integer [message.page]. *)
Inductive page_key : Type :=
| PageStr (page_no : Z)
| PageInt (page : Z).

Definition page_key_eqb (a b : page_key) : bool :=
  match a, b with
  | PageStr x, PageStr y => x =? y
  | PageInt x, PageInt y => x =? y
  | _, _ => false
  end.

Definition get_pages (self : PagedMessageManager) (command : string)
  : list (page_key * Response.B0StructuredResponseMessage) :=
  fold_left
    (fun response p =>
       if String.eqb (fst (fst p)) command
       then dict_set page_key_eqb response (PageStr (snd (fst p))) (snd p)
       else response)
    (pages self) [].

(** ** decoders/b0_message.py: reassembly *)

(** [have_partial_chunk] *)
Definition have_partial_chunk (chunks : list B0DataChunk) (chunk : B0DataChunk) : bool :=
  existsb (fun existing_chunk => Chunk.index existing_chunk =? Chunk.index chunk) chunks.

Definition chars (s : string) : list string :=
  map (fun c => String c EmptyString) (list_ascii_of_string s).

(** [existing.data.extend(chunk.data)]: a [bytearray] takes integers only,
    a list takes whatever iterating the argument yields. *)
Definition data_extend (existing incoming : Chunk.payload) : result Chunk.payload :=
  match existing, incoming with
  | Chunk.Flat a, Chunk.Flat b => Ok (Chunk.Flat (a ++ b)%list)
  | Chunk.Flat a, Chunk.Elems [] => Ok (Chunk.Flat a)
  | Chunk.Flat a, Chunk.Elems (_ :: _) => Raise TypeError
  | Chunk.Elems a, Chunk.Flat b => Ok (Chunk.Elems (a ++ map (fun x => EInt (b2z x)) b)%list)
  | Chunk.Elems a, Chunk.Elems b => Ok (Chunk.Elems (a ++ b)%list)
  end.

(** [existing.hex.extend(chunk.hex)]: [str] has no [extend]. *)
Definition hex_extend (existing incoming : Chunk.rendering) : result Chunk.rendering :=
  match existing, incoming with
  | Chunk.HexStr _, _ => Raise AttributeError
  | Chunk.HexList a, Chunk.HexStr s => Ok (Chunk.HexList (a ++ chars s)%list)
  | Chunk.HexList a, Chunk.HexList b => Ok (Chunk.HexList (a ++ b)%list)
  end.

(** [add_chunk_data_to_exisitng_chunk] *)
Fixpoint add_chunk_data_to_exisitng_chunk (chunks : list B0DataChunk) (chunk : B0DataChunk)
  : result (list B0DataChunk) :=
  match chunks with
  | [] => Ok []
  | existing_chunk :: rest =>
      if Chunk.index existing_chunk =? Chunk.index chunk then
        d <- data_extend (Chunk.data existing_chunk) (Chunk.data chunk) ;;
        h <- hex_extend (Chunk.hex existing_chunk) (Chunk.hex chunk) ;;
        let merged :=
          {| Chunk.data_type := Chunk.data_type existing_chunk;
             Chunk.index := Chunk.index existing_chunk;
             Chunk.length := Chunk.length existing_chunk + Chunk.length chunk;
             Chunk.data := d;
             Chunk.hex := h;
             Chunk.b042 := Chunk.b042 existing_chunk |} in
        rest' <- add_chunk_data_to_exisitng_chunk rest chunk ;;
        Ok (merged :: rest')
      else
        rest' <- add_chunk_data_to_exisitng_chunk rest chunk ;;
        Ok (existing_chunk :: rest')
  end.

(** The body of the inner loop: merge into the chunk of the same index,
    or append. *)
Definition place_chunk (chunks : list B0DataChunk) (chunk : B0DataChunk)
  : result (list B0DataChunk) :=
  if have_partial_chunk chunks chunk
  then add_chunk_data_to_exisitng_chunk chunks chunk
  else Ok (chunks ++ [chunk])%list.

Fixpoint place_chunks (chunks : list B0DataChunk) (incoming : list B0DataChunk)
  : result (list B0DataChunk) :=
  match incoming with
  | [] => Ok chunks
  | chunk :: rest => chunks' <- place_chunk chunks chunk ;; place_chunks chunks' rest
  end.

Fixpoint rebuild_from {K : Type} (chunks : list B0DataChunk)
  (messages : list (K * Response.B0StructuredResponseMessage))
  : result (list B0DataChunk) :=
  match messages with
  | [] => Ok chunks
  | (_, message) :: rest =>
      chunks' <- place_chunks chunks (Response.data message) ;;
      rebuild_from chunks' rest
  end.

(** [rebuild_paged_data_chunks] *)
Definition rebuild_paged_data_chunks {K : Type}
  (messages : list (K * Response.B0StructuredResponseMessage))
  : result (list B0DataChunk) :=
  rebuild_from [] messages.

(** [create_message_from_paged_messages] *)
Definition create_message_from_paged_messages
  (message : Response.B0StructuredResponseMessage)
  (paged_messages : list (page_key * Response.B0StructuredResponseMessage))
  : result Response.B0StructuredResponseMessage :=
  let paged_messages :=
    dict_set page_key_eqb paged_messages (PageInt (Response.page message)) message in
  all_data <- rebuild_paged_data_chunks paged_messages ;;
  Ok (Response.with_data message all_data).

(** ** decoders/b0_message.py: semantic decoders *)

(** Python floats.  The only float arithmetic modelled is
    [b2i(btemp) / 2 - 40.5] on integers far below 2^53, where every
    intermediate value is a multiple of one half and IEEE arithmetic is
    exact, so rationals give the same numbers. *)
Definition float : Type := Q.

Inductive key : Type :=
| KStr (s : string)
| KInt (n : Z).

Definition key_eqb (a b : key) : bool :=
  match a, b with
  | KStr x, KStr y => String.eqb x y
  | KInt x, KInt y => x =? y
  | _, _ => false
  end.

#[local] Set Warnings "-register-all".

(** The values the decoders put in a payload.  [VTime ts] is the text
    [datetime.fromtimestamp(ts, utc).strftime("%Y-%m-%d %H:%M:%S")]. *)
Inductive value : Type :=
| VNone
| VStr (s : string)
| VInt (n : Z)
| VFloat (x : float)
| VTime (timestamp : Z)
| VChunk (c : B0DataChunk)
| VList (l : list value)
| VDict (d : list (key * value)).

Inductive decoded : Type :=
| B0DecodedData (data : value)
| B0GenDecodedData (length : Z) (data : list value)
| InvalidDataSet
| ReturnsNone
| NotModelled (decoder : string) (message : Response.B0StructuredResponseMessage).

(** What a [for] loop over [chunk.data] sees. *)
Definition elems_of (p : Chunk.payload) : list elem :=
  match p with
  | Chunk.Flat b => map (fun x => EInt (b2z x)) b
  | Chunk.Elems l => l
  end.

(** [d.hex(" ")] on an element: integers have no [hex] method. *)
Definition elem_hex_sep (d : elem) : result string :=
  match d with
  | EBytes b => Ok (hex_sep b)
  | EInt _ => Raise AttributeError
  end.

(** [b2i(d, big_endian)] on an element: [int.from_bytes] rejects an integer. *)
Definition elem_b2i (d : elem) (big_endian : bool) : result Z :=
  match d with
  | EBytes b => Ok (b2i b big_endian)
  | EInt _ => Raise TypeError
  end.

(** [d[lo:hi]] on an element: an integer is not subscriptable. *)
Definition elem_slice (d : elem) (lo hi : Z) : result bytes :=
  match d with
  | EBytes b => Ok (slice b lo hi)
  | EInt _ => Raise TypeError
  end.

Definition elem_slice_to (d : elem) (hi : Z) : result bytes :=
  match d with
  | EBytes b => Ok (slice_to b hi)
  | EInt _ => Raise TypeError
  end.

Definition elem_slice_from (d : elem) (lo : Z) : result bytes :=
  match d with
  | EBytes b => Ok (slice_from b lo)
  | EInt _ => Raise TypeError
  end.

(** [btemp != b"\xff"] *)
Definition elem_neq_ff (d : elem) : bool :=
  match d with
  | EBytes b => if list_eq_dec Byte.byte_eq_dec b [xff] then false else true
  | EInt _ => true
  end.

(** [b0_gen_data_decoder] *)
Definition gen_chunk (chunk : B0DataChunk) : result value :=
  hex_data <- match Chunk.data chunk with
              | Chunk.Elems l => ds <- mapM elem_hex_sep l ;; Ok (VList (map VStr ds))
              | Chunk.Flat b => Ok (VStr (hex_sep b))
              end ;;
  type_name <- enum_name DataTypes (Chunk.data_type chunk) ;;
  idx_name <- enum_name IndexName (Chunk.index chunk) ;;
  Ok (VDict [(KStr "type", VStr type_name);
             (KStr "idx", VInt (Chunk.index chunk));
             (KStr "idx_name", VStr idx_name);
             (KStr "len", VInt (Chunk.length chunk));
             (KStr "data", hex_data)]).

Definition b0_gen_data_decoder (message : Response.B0StructuredResponseMessage)
  : result decoded :=
  decoded_chunks <- mapM gen_chunk (Response.data message) ;;
  Ok (B0GenDecodedData (Response.length_all_data message) decoded_chunks).

(** [b0_0f_data_decoder] *)
Definition b0_0f_data_decoder (message : Response.B0StructuredResponseMessage)
  : result decoded :=
  chunk <- item (Response.data message) 0 ;;
  Ok (B0DecodedData (VChunk chunk)).

(** One turn of the loop of [b0_22_data_decoder]: the handler is attached
    to [KeyError], while a failed enum lookup raises [ValueError]. *)
Definition capability_step (capabilities : list (key * value)) (idx : Z) (data : elem)
  : result (list (key * value)) :=
  try_except
    (capability_name <- enum_name IndexName idx ;;
     n <- elem_b2i data false ;;
     Ok (dict_set key_eqb capabilities (KStr capability_name) (VInt n)))
    KeyError
    (n <- elem_b2i data false ;;
     Ok (dict_set key_eqb capabilities (KStr ("Unknown-" ++ str_of_int idx))
           (VInt n))).

Fixpoint capability_loop (capabilities : list (key * value)) (idx : Z) (l : list elem)
  : result (list (key * value)) :=
  match l with
  | [] => Ok capabilities
  | data :: rest =>
      capabilities' <- capability_step capabilities idx data ;;
      capability_loop capabilities' (idx + 1) rest
  end.

(** [b0_22_data_decoder] *)
Definition b0_22_data_decoder (message : Response.B0StructuredResponseMessage)
  : result decoded :=
  chunk <- item (Response.data message) 0 ;;
  capabilities <- capability_loop [] 0 (elems_of (Chunk.data chunk)) ;;
  Ok (B0DecodedData (VDict capabilities)).

(** One turn of the loop of [b0_2a_data_decoder]. *)
Definition event_entry (event : elem) : result value :=
  stamp <- elem_slice_to event 4 ;;
  date <- decode_hex_timestamp stamp ;;
  d <- elem_slice event 4 5 ;;
  let device_type := b2i d true in
  z <- elem_slice event 5 6 ;;
  let zone_id := b2i z true in
  e <- elem_slice event 7 8 ;;
  let event_type := b2i e true in
  let device_name := get_lookup_value IndexName device_type in
  let zone_id := if device_type =? 3 then zone_id + 1 else zone_id in
  event_name <- item EVENTS (Z.to_nat event_type) ;;
  Ok (VDict [(KStr "dt", VTime date);
             (KStr "device", VStr device_name);
             (KStr "zone", VInt zone_id);
             (KStr "event", VStr event_name)]).

(** [b0_2a_data_decoder] *)
Definition b0_2a_data_decoder (message : Response.B0StructuredResponseMessage)
  : result decoded :=
  try_except
    (chunk <- item (Response.data message) 0 ;;
     events <- mapM event_entry (elems_of (Chunk.data chunk)) ;;
     Ok (B0DecodedData (VList events)))
    IndexError
    (Ok (B0DecodedData (VStr "Invalid Data"))).

(** [b0_36_data_decoder] *)
Definition b0_36_data_decoder (message : Response.B0StructuredResponseMessage)
  : result decoded :=
  b0_2a_data_decoder message.

Fixpoint zone_temps_loop (zone_temps : list (key * value)) (zone : Z) (l : list elem)
  : result (list (key * value)) :=
  match l with
  | [] => Ok zone_temps
  | btemp :: rest =>
      zone_temps' <-
        (if elem_neq_ff btemp then
           n <- elem_b2i btemp true ;;
           Ok (dict_set key_eqb zone_temps (KInt (zone + 1))
                 (VFloat (inject_Z n / 2 - 40.5)%Q))
         else Ok zone_temps) ;;
      zone_temps_loop zone_temps' (zone + 1) rest
  end.

(** [b0_3d_data_decoder] *)
Definition b0_3d_data_decoder (message : Response.B0StructuredResponseMessage)
  : result decoded :=
  try_except
    (chunk <- item (Response.data message) 0 ;;
     let index := get_lookup_value IndexName (Chunk.index chunk) in
     zone_temps <- zone_temps_loop [] 0 (elems_of (Chunk.data chunk)) ;;
     Ok (B0DecodedData (VDict [(KStr index, VDict zone_temps)])))
    IndexError
    (Ok (B0DecodedData (VStr "Invalid Data"))).

Fixpoint last_event_loop (events : list (key * value)) (idx : Z) (l : list elem)
  : result (list (key * value)) :=
  match l with
  | [] => Ok events
  | event :: rest =>
      stamp <- elem_slice_to event 4 ;;
      date <- decode_hex_timestamp stamp ;;
      code <- elem_slice event 4 5 ;;
      let events' :=
        dict_set key_eqb events (KInt (idx + 1))
          (VDict [(KStr "datetime", VTime date);
                  (KStr "code", VStr (get_lookup_value ZoneStatus (b2i code true)))]) in
      last_event_loop events' (idx + 1) rest
  end.

Fixpoint last_event_chunks (events : list (key * value)) (chunks : list B0DataChunk)
  : result (list (key * value)) :=
  match chunks with
  | [] => Ok events
  | chunk :: rest =>
      events' <- last_event_loop events 0 (elems_of (Chunk.data chunk)) ;;
      last_event_chunks events' rest
  end.

(** [b0_4b_data_decoder] *)
Definition b0_4b_data_decoder (message : Response.B0StructuredResponseMessage)
  : result decoded :=
  events <- last_event_chunks [] (Response.data message) ;;
  Ok (B0DecodedData (VDict events)).

(** [b0_51_data_decoder]: nothing is returned for an empty chunk list. *)
Definition b0_51_data_decoder (message : Response.B0StructuredResponseMessage)
  : result decoded :=
  try_except
    (match Response.data message with
     | [] => Ok ReturnsNone
     | _ =>
         chunk <- item (Response.data message) 0 ;;
         ds <- mapM elem_hex_sep (elems_of (Chunk.data chunk)) ;;
         Ok (B0DecodedData (VList (map VStr ds)))
     end)
    IndexError
    (Ok (B0DecodedData (VStr "Invalid Data"))).

(** [b2i(data[i])] *)
Definition count_at (data : Chunk.payload) (i : nat) : result value :=
  d <- item (elems_of data) i ;;
  n <- elem_b2i d true ;;
  Ok (VInt n).

(** [b0_52_data_decoder] *)
Definition b0_52_data_decoder (message : Response.B0StructuredResponseMessage)
  : result decoded :=
  try_except
    (chunk <- item (Response.data message) 0 ;;
     let data := Chunk.data chunk in
     c0 <- count_at data 0 ;;
     c1 <- count_at data 1 ;;
     c2 <- count_at data 2 ;;
     c3 <- count_at data 3 ;;
     c4 <- count_at data 4 ;;
     c5 <- count_at data 5 ;;
     Ok (B0DecodedData
           (VDict [(KStr "Unknown", c0); (KStr "Sensors", c1); (KStr "Keypads", c2);
                   (KStr "Keyfobs", c3); (KStr "Sirens", c4); (KStr "PGMs", c5)])))
    IndexError
    (Ok (B0DecodedData (VStr "Invalid Data"))).

(** [data.decode("ascii", errors="ignore")] *)
Definition decode_ascii_ignore (data : bytes) : string :=
  string_of_list_ascii
    (map ascii_of_byte (filter (fun b => b2z b <? 128) data)).

(** [b0_64_data_decoder]: a list has no [decode] method. *)
Definition b0_64_data_decoder (message : Response.B0StructuredResponseMessage)
  : result decoded :=
  try_except
    (chunk <- item (Response.data message) 0 ;;
     match Chunk.data chunk with
     | Chunk.Flat b => Ok (B0DecodedData (VStr (decode_ascii_ignore b)))
     | Chunk.Elems _ => Raise AttributeError
     end)
    IndexError
    (Ok (B0DecodedData (VStr "Invalid Data"))).

Definition log_entry (event : elem) : result value :=
  stamp <- elem_slice_to event 4 ;;
  date <- decode_hex_timestamp stamp ;;
  code <- elem_slice_from event 4 ;;
  Ok (VDict [(KStr "dt", VTime date); (KStr "rest", VStr (hex_sep code))]).

Fixpoint log_chunks (chunks : list B0DataChunk) : result (list value) :=
  match chunks with
  | [] => Ok []
  | chunk :: rest =>
      events <- mapM log_entry (elems_of (Chunk.data chunk)) ;;
      events' <- log_chunks rest ;;
      Ok (events ++ events')%list
  end.

(** [b0_75_data_decoder] *)
Definition b0_75_data_decoder (message : Response.B0StructuredResponseMessage)
  : result decoded :=
  events <- log_chunks (Response.data message) ;;
  Ok (B0DecodedData (VList events)).

Fixpoint zone_brightness_loop (zone_brightness : list (key * value)) (zone : Z)
  (l : list elem) : result (list (key * value)) :=
  match l with
  | [] => Ok zone_brightness
  | bbrightness :: rest =>
      zone_brightness' <-
        (if elem_neq_ff bbrightness then
           n <- elem_b2i bbrightness true ;;
           Ok (dict_set key_eqb zone_brightness (KInt (zone + 1))
                 (VStr (get_lookup_value ZoneBrightness n)))
         else Ok zone_brightness) ;;
      zone_brightness_loop zone_brightness' (zone + 1) rest
  end.

(** [b0_77_data_decoder] *)
Definition b0_77_data_decoder (message : Response.B0StructuredResponseMessage)
  : result decoded :=
  try_except
    (chunk <- item (Response.data message) 0 ;;
     let index := get_lookup_value IndexName (Chunk.index chunk) in
     zone_brightness <- zone_brightness_loop [] 0 (elems_of (Chunk.data chunk)) ;;
     Ok (B0DecodedData (VDict [(KStr index, VDict zone_brightness)])))
    IndexError
    (Ok (B0DecodedData (VStr "Invalid Data"))).

(** [getattr(self, f"b0_{command}_data_decoder")] where [hasattr] finds the
    method.  The decoders for 24, 35 and 42 (calendar parsing and the
    per-setting tables of two further files) are left as the unevaluated
    call [NotModelled], also where the decoder would raise.  The
    statements about [decode_b0_message] are about requests, about frames
    that raise before a decoder is reached, or leave these three commands
    out; [b0_35_data_decoder] and [b0_42_data_decoder] are given on their
    own further down. *)
Definition specific_data_decoder (command : string)
  : option (Response.B0StructuredResponseMessage -> result decoded) :=
  if String.eqb command "0f" then Some b0_0f_data_decoder
  else if String.eqb command "22" then Some b0_22_data_decoder
  else if String.eqb command "24" then Some (fun m => Ok (NotModelled "b0_24_data_decoder" m))
  else if String.eqb command "2a" then Some b0_2a_data_decoder
  else if String.eqb command "35" then Some (fun m => Ok (NotModelled "b0_35_data_decoder" m))
  else if String.eqb command "36" then Some b0_36_data_decoder
  else if String.eqb command "3d" then Some b0_3d_data_decoder
  else if String.eqb command "42" then Some (fun m => Ok (NotModelled "b0_42_data_decoder" m))
  else if String.eqb command "4b" then Some b0_4b_data_decoder
  else if String.eqb command "51" then Some b0_51_data_decoder
  else if String.eqb command "52" then Some b0_52_data_decoder
  else if String.eqb command "64" then Some b0_64_data_decoder
  else if String.eqb command "75" then Some b0_75_data_decoder
  else if String.eqb command "77" then Some b0_77_data_decoder
  else None.

(** ** decoders/b0_message.py: [decode_b0_message] *)

Module B0Request.

(** [data]: the chunk, the list of hex strings, or one hex string. *)
Inductive payload : Type :=
| OneChunk (c : B0DataChunk)
| HexList (l : list string)
| Hex (s : string).

Record t : Type := {
  type : string;
  command : string;
  cmd_name : string;
  length : Z;
  data : payload;
  checksum : string;
  verified : bool
}.

End B0Request.

Module B0Response.

(** [data]: the raw chunk list of a paged response, or the decoded payload. *)
Inductive payload : Type :=
| PagedChunks (l : list B0DataChunk)
| Decoded (d : decoded).

Record t : Type := {
  type : string;
  command : string;
  cmd_name : string;
  params : string;
  page : Z;
  length : Z;
  data : payload;
  checksum : string;
  verified : bool
}.

End B0Response.

Inductive b0_result : Type :=
| IsRequest (r : B0Request.t)
| IsResponse (r : B0Response.t).

Definition request_payload (message : Request.B0StructuredRequestMessage)
  : result B0Request.payload :=
  match Request.data message with
  | Request.OneChunk c => Ok (B0Request.OneChunk c)
  | Request.Bytes b =>
      if Request.has_params message then
        chunks <- chunk_bytearray b (Request.param_size message) ;;
        Ok (B0Request.HexList (map hex_sep chunks))
      else Ok (B0Request.Hex (hex_sep b))
  end.

(** [decode_b0_message].  The manager is returned with the outcome.  When
    reassembly raises, the manager is returned as it was before the call:
    the partial in-place growth of a stored chunk is not tracked.  A field
    read on a message of the other class is the [AttributeError] Python
    gives; the structural decoder never produces such a pairing. *)
Definition decode_b0_message (self : PagedMessageManager) (msg : bytes)
  : PagedMessageManager * result b0_result :=
  match decode_b0_message_structure msg with
  | Raise e => (self, Raise e)
  | Ok None => (self, Raise AttributeError)
  | Ok (Some message) =>
      let verified := validate_b0_message message in
      let mt := message_type message in
      if (mt =? MessageType_ADD) || (mt =? MessageType_REQUEST) || (mt =? MessageType_REMOVE)
      then
        match message with
        | SResponse _ => (self, Raise AttributeError)
        | SRequest message =>
            (self,
             data <- request_payload message ;;
             Ok (IsRequest
                   {| B0Request.type :=
                        get_lookup_value MessageType (Request.message_type message);
                      B0Request.command := Request.command message;
                      B0Request.cmd_name :=
                        get_lookup_value B0Command (Request.command message);
                      B0Request.length := Request.data_length message;
                      B0Request.data := data;
                      B0Request.checksum := Request.checksum message;
                      B0Request.verified := verified |}))
        end
      else if mt =? MessageType_PAGED_RESPONSE then
        match message with
        | SRequest _ => (self, Raise AttributeError)
        | SResponse message =>
            let page_no := Response.page message in
            match (if page_no =? 255 then
                     last_page <- get_highest_page_for_command self (Response.command message) ;;
                     Ok (last_page + 1)
                   else Ok page_no) with
            | Raise e => (self, Raise e)
            | Ok page_no =>
                (add_page self (Response.command message) page_no message,
                 Ok (IsResponse
                       {| B0Response.type :=
                            get_lookup_value MessageType (Response.message_type message);
                          B0Response.command := Response.command message;
                          B0Response.cmd_name :=
                            get_lookup_value B0Command (Response.command message);
                          B0Response.params := Response.params message;
                          B0Response.length := Response.length_all_data message;
                          B0Response.page := Response.page message;
                          B0Response.data := B0Response.PagedChunks (Response.data message);
                          B0Response.checksum := Response.checksum message;
                          B0Response.verified := verified |}))
            end
        end
      else
        match message with
        | SRequest _ => (self, Raise AttributeError)
        | SResponse message =>
            match (if has_active_paged_response self (Response.command message) then
                     let paged_messages := get_pages self (Response.command message) in
                     message' <- create_message_from_paged_messages message paged_messages ;;
                     Ok (reset self, message')
                   else Ok (self, message)) with
            | Raise e => (self, Raise e)
            | Ok (self, message) =>
                (self,
                 decoded_data <-
                   match specific_data_decoder (Response.command message) with
                   | Some data_decoder => data_decoder message
                   | None => b0_gen_data_decoder message
                   end ;;
                 Ok (IsResponse
                       {| B0Response.type :=
                            get_lookup_value MessageType (Response.message_type message);
                          B0Response.command := Response.command message;
                          B0Response.cmd_name :=
                            get_lookup_value B0Command (Response.command message);
                          B0Response.params := Response.params message;
                          B0Response.length := Response.length_all_data message;
                          B0Response.page := Response.page message;
                          B0Response.data := B0Response.Decoded decoded_data;
                          B0Response.checksum := Response.checksum message;
                          B0Response.verified := verified |}))
            end
        end
  end.

(** ** helpers.py: integers to bytes *)

(** The outcome of [int.to_bytes]: the bytes, the [OverflowError] for a
    negative number or one that does not fit, or the [ValueError] for a
    negative length. *)
Inductive to_bytes (A : Type) : Type :=
| Converted (a : A)
| OverflowError
| NegativeLength.

Arguments Converted {A} a.
Arguments OverflowError {A}.
Arguments NegativeLength {A}.

Fixpoint to_bytes_big (size : nat) (number : Z) : bytes :=
  match size with
  | O => []
  | S size' => (to_bytes_big size' (number / 256) ++ [byte_of_Z (number mod 256)])%list
  end.

(** [i2b]: [number.to_bytes(size, "big")] *)
Definition i2b (number size : Z) : to_bytes bytes :=
  if size <? 0 then NegativeLength
  else if (number <? 0) || (256 ^ size <=? number) then OverflowError
  else Converted (to_bytes_big (Z.to_nat size) number).

(** [i2h] *)
Definition i2h (number size : Z) : to_bytes string :=
  match i2b number size with
  | Converted b => Converted (hex_sep b)
  | OverflowError => OverflowError
  | NegativeLength => NegativeLength
  end.

(** ** helpers.py: hex text *)

(** [Py_ISSPACE]: tab, line feed, vertical tab, form feed, carriage
    return and space. *)
Definition is_space (c : ascii) : bool :=
  let n := N_of_ascii c in
  ((9 <=? n) && (n <=? 13) || (n =? 32))%N.

(** The value of a hexadecimal digit, of either case. *)
Definition digit_value (c : ascii) : option N :=
  let n := N_of_ascii c in
  (if (48 <=? n) && (n <=? 57) then Some (n - 48)
   else if (97 <=? n) && (n <=? 102) then Some (n - 87)
   else if (65 <=? n) && (n <=? 70) then Some (n - 55)
   else None)%N.

(** [bytearray.fromhex]: white space is skipped between bytes, each byte
    is two adjacent hexadecimal digits, anything else is a [ValueError]. *)
Fixpoint bytearray_fromhex (s : string) : result bytes :=
  match s with
  | EmptyString => Ok []
  | String c rest =>
      if is_space c then bytearray_fromhex rest
      else
        match digit_value c, rest with
        | Some top, String d rest' =>
            match digit_value d with
            | Some bot =>
                bs <- bytearray_fromhex rest' ;;
                Ok (byte_of_Z (Z.of_N (16 * top + bot)) :: bs)
            | None => Raise ValueError
            end
        | _, _ => Raise ValueError
        end
  end.

(** [chunk_hex_string] *)
Definition chunk_hex_string (data : string) (size : Z) : result (list string) :=
  data <- bytearray_fromhex data ;;
  chunked <- chunk_bytearray data size ;;
  Ok (map hex_sep chunked).

(** ** refs.py, decoders/b0_35_command.py, decoders/b0_42_command.py:
       the settings of commands 35 and 42 *)

(** ** Strings and ranges *)

(** [s.rstrip(c)] for a single character [c]. *)
Fixpoint rstrip (c : ascii) (s : string) : string :=
  match s with
  | EmptyString => EmptyString
  | String x rest =>
      match rstrip c rest with
      | EmptyString => if Ascii.eqb x c then EmptyString else String x EmptyString
      | kept => String x kept
      end
  end.

(** [s.replace(c, "")] for a single character [c]. *)
Fixpoint remove_char (c : ascii) (s : string) : string :=
  match s with
  | EmptyString => EmptyString
  | String x rest => if Ascii.eqb x c then remove_char c rest else String x (remove_char c rest)
  end.

(** [s.replace("ff", "")]: occurrences are taken from the left and do
    not overlap. *)
Fixpoint remove_ff (s : string) : string :=
  match s with
  | EmptyString => EmptyString
  | String x rest =>
      if Ascii.eqb x "f" then
        match rest with
        | String y rest' =>
            if Ascii.eqb y "f" then remove_ff rest' else String x (remove_ff rest)
        | EmptyString => String x EmptyString
        end
      else String x (remove_ff rest)
  end.

(** [s.split(sep)] for a single character [sep]. *)
Fixpoint split_on (sep : ascii) (s : string) : list string :=
  match s with
  | EmptyString => [EmptyString]
  | String x rest =>
      if Ascii.eqb x sep then EmptyString :: split_on sep rest
      else
        match split_on sep rest with
        | first :: others => String x first :: others
        | [] => [String x EmptyString]
        end
  end.

(** [s[lo:hi]] on a string. *)
Definition str_slice (s : string) (lo hi : Z) : string :=
  string_of_list_ascii (slice (list_ascii_of_string s) lo hi).

Definition str_len (s : string) : Z := Z.of_nat (String.length s).

(** [data.decode("ascii")]: a byte above 127 is a [UnicodeDecodeError],
    which is a [ValueError]. *)
Definition decode_ascii (data : bytes) : result string :=
  if forallb (fun b => b2z b <? 128) data
  then Ok (string_of_list_ascii (map ascii_of_byte data))
  else Raise ValueError.

(** [range(start, stop, step)] for a positive [step]. *)
Definition range (start stop step : Z) : list Z :=
  map (fun k => start + Z.of_nat k * step)
      (seq 0 (Z.to_nat ((stop - start + step - 1) / step))).

(** [enumerate(l)] *)
Definition enumerate {A : Type} (l : list A) : list (Z * A) :=
  combine (map Z.of_nat (seq 0 (List.length l))) l.

(** [slugify] *)
Fixpoint slugify (value : string) : string :=
  match value with
  | EmptyString => EmptyString
  | String x rest => String (if Ascii.eqb x " " then "_"%char else x) (slugify rest)
  end.

(** ** refs.py *)

Definition ZONE_TYPES : list string :=
  ["Non-Alarm"; "Emergency"; "Flood"; "Gas"; "Delay 1"; "Delay 2"; "Interior-Follow";
   "Perimeter"; "Perimeter-Follow"; "24 Hours Silent"; "24 Hours Audible"; "Fire";
   "Interior"; "Home Delay"; "Temperature"; "Outdoor"; "16"].

Definition SYSTEM_STATUS : list string :=
  ["Disarmed"; "ExitDelay_ArmHome"; "ExitDelay_ArmAway"; "EntryDelay"; "Stay"; "Armed";
   "UserTest"; "Downloading"; "Programming"; "Installer"; "Home Bypass"; "Away Bypass";
   "Ready"; "NotReady"; "??"; "??"; "Disarm"; "ExitDelay"; "ExitDelay"; "EntryDelay";
   "StayInstant"; "ArmedInstant"; "??"; "??"; "??"; "??"; "??"; "??"; "??"; "??"; "??";
   "??"].

(** ** const.py: [DataType] *)

Definition DataType : enum Z :=
  assoc_Z [(0, "ZERO_PADDED_STRING"); (1, "DIRECT_MAP_STRING"); (2, "FF_PADDED_STRING");
           (3, "DOUBLE_LE_INT"); (4, "INTEGER"); (6, "STRING");
           (8, "SPACE_PADDED_STRING"); (10, "SPACE_PADDED_STRING_LIST")].

(** ** decoders/b0_35_command.py *)

Definition Command35Settings : enum string :=
  assoc_str
   [("00 00", "COMMS_CS_REC1_ACCT"); ("01 00", "COMMS_CS_REC2_ACCT");
    ("02 00", "PANEL_SERIAL_NO"); ("03 00", "COMMS_CS_REC1_IP");
    ("04 00", "COMMS_CS_REC1_PORT"); ("05 00", "COMMS_CS_REC2_IP");
    ("06 00", "COMMS_CS_REC2_PORT"); ("07 00", "CAPABILITIES"); ("08 00", "USER_CODES");
    ("0d 00", "ZONE_NAMES"); ("0f 00", "DOWNLOAD_CODE");
    ("15 01", "POWERLINK_SW_VERSION"); ("18 01", "EMAIL_REPORTED_EVENTS");
    ("19 01", "SMS_REPORTED_EVENTS"); ("1a 01", "MMS_REPORTED_EVENTS");
    ("24 00", "PANEL_EPROM_VERSION"); ("27 00", "TYPE_OFFSETS");
    ("28 00", "CAPABILITIES2"); ("2b 00", "UNKNOWN_SOFTWARE_VERSION");
    ("2c 00", "PANEL_DEFAULT_VERSION"); ("2d 00", "PANEL_SOFTWARE_VERSION");
    ("30 00", "PARTITIONS_ENABLED"); ("31 00", "ASSIGNED_ZONE_TYPES");
    ("32 00", "ASSIGNED_ZONE_NAMES"); ("32 01", "UNKNOWN_SW_VERSION");
    ("33 00", "SOMETHING_ZONES"); ("34 00", "MAP_VALUE"); ("35 00", "MAP_VALUE_2");
    ("36 00", "SOMETHING_ZONES_2"); ("37 00", "SOMETHING_32_OF");
    ("38 00", "SOMETHING_32_OF_2"); ("39 00", "SOMETHING_8_OF");
    ("3c 00", "PANEL_HARDWARE_VERSION"); ("3d 00", "PANEL_RSU_VERSION");
    ("3e 00", "PANEL_BOOT_VERSION"); ("42 00", "CUSTOM_ZONE_NAMES");
    ("45 00", "ZONE_NAMES2"); ("46 00", "CUSTOM_ZONE_NAMES2");
    ("47 00", "H24_TIME_FORMAT"); ("48 00", "US_DATE_FORMAT"); ("4e 00", "PARTITIONS");
    ("50 01", "TROUBLES"); ("54 00", "INSTALLER_CODE"); ("54 01", "DHCP_IP");
    ("55 00", "MASTER_CODE"); ("56 00", "GUARD_CODE"); ("58 00", "EXIT_DELAY");
    ("5b 00", "BYPASS_ARM"); ("5b 01", "KIDS_COME_HOME"); ("61 00", "DURESS_CODE");
    ("70 01", "ENABLE_API"); ("71 01", "PANEL_SERIAL");
    ("73 01", "HOME_AUTOMATION_SERVICE"); ("74 01", "ENABLE_SSH");
    ("7b 01", "MAYBE_MAX_USER_CODES"); ("80 00", "COMMS_GPRS_APN");
    ("81 00", "COMMS_GPRS_USER"); ("82 00", "COMMS_GPRS_PWD");
    ("85 01", "SSL_FOR_IPMP"); ("87 01", "LOG_EMAIL_SEND_NOW");
    ("89 01", "UNKNOWN_EMAIL"); ("8a 01", "UNKNOWN_PWD");
    ("8c 00", "COMMS_CS_REC1_TELNO"); ("8d 00", "COMMS_CS_REC2_TELNO");
    ("8d 01", "DNS_NAME"); ("8e 00", "COMMS_CS_REC12_SMS"); ("8e 01", "ABORT_TIME");
    ("8f 01", "ENTRY_DELAY"); ("9d 01", "DO_NOT_USE"); ("a4 00", "EMAIL_ADDRESSES");
    ("a5 00", "PHONE_NUMBERS"); ("a6 00", "VIEW_ON_DEMAND");
    ("a7 00", "VIEW_ON_DEMAND_TIME_WINDOW"); ("a8 01", "LOG_FTP_SITE");
    ("a9 01", "LOG_FTP_UID"); ("aa 01", "LOG_FTP_PWD"); ("ae 00", "DHCP_MODE");
    ("af 00", "POWERLINK_IP"); ("b0 00", "POWERLINK_SUBNET");
    ("b1 00", "POWERLINK_GATEWAY"); ("e2 00", "USER_PARTITION_ACCESS");
    ("e5 00", "USER_CODES2"); ("e8 00", "PANEL_LANGUAGE");
    ("e9 00", "ACCEPTED_CHARS_UPPER"); ("ea 00", "ACCEPTED_CHARS_LOWER");
    ("eb 00", "INVESTIGATE_MORE")].

(** The enum local to [m35_07_00_decoder]. *)
Definition B03507IndexName_table : list (Z * string) :=
  [(0, "REPEATERS"); (1, "X10"); (2, "SIRENS"); (3, "ZONES"); (4, "KEYPADS");
   (5, "KEYFOBS"); (6, "USERCODES"); (7, "CAMERASA"); (8, "UNK8"); (9, "POWERLINK");
   (10, "TAGS"); (11, "CAMERASB"); (12, "PANEL"); (13, "UNK13"); (14, "EVENTS");
   (15, "PARTITIONS"); (16, "UNK16"); (17, "UNK17"); (18, "UKN18"); (19, "UNK19")].

Definition B03507IndexName : enum Z := assoc_Z B03507IndexName_table.

(** [m35_07_00_decoder].  [int(i / 2)] is taken on a small even number,
    where it is the quotient. *)
Definition m35_07_00_decoder (data : bytes) : result value :=
  capabilities <-
    fold_left
      (fun acc i =>
         capabilities <- acc ;;
         name <- enum_name B03507IndexName (i / 2) ;;
         Ok (dict_set key_eqb capabilities (KStr name)
               (VInt (b2i (slice data i (i + 2)) false))))
      (range 0 (len data - 1) 2) (Ok []) ;;
  Ok (VDict capabilities).

(** [m35_08_00_decoder] *)
Definition m35_08_00_decoder (data : bytes) : result value :=
  let data := hex data in
  let user_codes :=
    fold_left
      (fun user_codes p =>
         let '(idx, i) := p in
         let code := str_slice data i (i + 4) in
         if negb (String.eqb code "0000")
         then dict_set key_eqb user_codes (KInt (idx + 1)) (VStr code)
         else user_codes)
      (enumerate (range 0 (str_len data - 1) 4)) [] in
  Ok (VDict user_codes).

(** [m35_31_00_decoder] *)
Definition m35_31_00_decoder (data : bytes) : result value :=
  zone_types <-
    mapM (fun i =>
            try_except
              (name <- item ZONE_TYPES (Z.to_nat (b2i (slice data i (i + 1)) false)) ;;
               Ok (VStr name))
              IndexError
              (Ok (VStr "UNKNOWN")))
         (range 0 (len data - 1) 1) ;;
  Ok (VList zone_types).

(** [m35_32_00_decoder] *)
Definition m35_32_00_decoder (data : bytes) : result value :=
  zone_names <-
    mapM (fun i =>
            try_except
              (Ok (VInt (b2i (slice data i (i + 1)) false)))
              IndexError
              (Ok (VStr "UNKNOWN")))
         (range 0 (len data - 1) 1) ;;
  Ok (VList zone_names).

(** [m35_45_00_decoder] *)
Definition m35_45_00_decoder (data : bytes) : result value :=
  text <- decode_ascii data ;;
  Ok (VList (map (fun name => VStr (rstrip " " name))
                 (filter (fun name => negb (String.eqb name ""))
                         (split_on "010" text)))).

(** [m35_46_00_decoder] *)
Definition m35_46_00_decoder (data : bytes) : result value :=
  m35_45_00_decoder data.

Section TextWrap.

(** [textwrap.wrap(text, width)], whose text-filling rules are those of
    the standard library and are not part of this repository. *)
Variable wrap : string -> Z -> result (list string).

(** [m35_54_01_decoder] *)
Definition m35_54_01_decoder (data : bytes) : result value :=
  items <- wrap (hex data) 12 ;;
  i0 <- item items 0 ;;
  w0 <- wrap i0 3 ;;
  let ip := String.concat "." w0 in
  i1 <- item items 1 ;;
  w1 <- wrap i1 3 ;;
  let subnet := String.concat "." w1 in
  i2 <- item items 2 ;;
  w2 <- wrap i2 3 ;;
  let gateway := String.concat "." w2 in
  Ok (VDict [(KStr "IP", VStr ip); (KStr "Subnet", VStr subnet);
             (KStr "Gateway", VStr gateway)]).

(** [hasattr(d35, f"m35_{setting}_decoder")] and [getattr]. *)
Definition m35_decoder (setting : string) : option (bytes -> result value) :=
  if String.eqb setting "07_00" then Some m35_07_00_decoder
  else if String.eqb setting "08_00" then Some m35_08_00_decoder
  else if String.eqb setting "31_00" then Some m35_31_00_decoder
  else if String.eqb setting "32_00" then Some m35_32_00_decoder
  else if String.eqb setting "45_00" then Some m35_45_00_decoder
  else if String.eqb setting "46_00" then Some m35_46_00_decoder
  else if String.eqb setting "54_01" then Some m35_54_01_decoder
  else None.

(** ** decoders/b0_message.py: settings *)

(** [_get_data_type] *)
Definition _get_data_type (data_type : Z) : result string :=
  try_except (enum_name DataType data_type) ValueError
    (Ok ("UNKNOWN-" ++ str_of_int data_type)).

(** [_data_type_decoder] on [bytes], the type of a frame and of its
    slices: [isinstance(data, list | bytes)] holds. *)
Definition _data_type_decoder (data_type : Z) (data : bytes) (string_size : Z)
  : result value :=
  if data_type =? 0 then Ok (VStr (rstrip "000" (decode_ascii_ignore data)))
  else if data_type =? 1 then Ok (VStr (hex data))
  else if data_type =? 2 then Ok (VStr (remove_ff (hex data)))
  else if data_type =? 3 then
    Ok (if len data >? 2
        then VList (map (fun i => VInt (b2i (slice data i (i + 2)) false))
                        (range 0 (len data) 2))
        else VInt (b2i (slice data 0 2) false))
  else if data_type =? 4 then
    Ok (if len data >? 1 then VList (map (fun b => VInt (b2z b)) data)
        else match data with
             | b :: _ => VInt (b2z b)
             | [] => VNone
             end)
  else if data_type =? 6 then Ok (VStr (decode_ascii_ignore data))
  else if data_type =? 8 then Ok (VStr (rstrip " " (decode_ascii_ignore data)))
  else if data_type =? 10 then
    text <- decode_ascii data ;;
    names <- wrap text string_size ;;
    Ok (match names with
        | [name] => VStr (rstrip " " (remove_char "000" name))
        | _ => VList (map (fun name => VStr (rstrip " " (remove_char "000" name)))
                          (filter (fun name => negb (String.eqb name "")) names))
        end)
  else Ok (VStr (hex_sep data)).

(** [_data_type_decoder] on an element of [chunk.data].  An integer has
    no [decode] or [hex] method and no length, and [int.from_bytes]
    rejects it. *)
Definition elem_data_type_decoder (data_type : Z) (d : elem) (string_size : Z)
  : result value :=
  match d with
  | EBytes b => _data_type_decoder data_type b string_size
  | EInt _ =>
      if (data_type =? 3) || (data_type =? 4) then Raise TypeError
      else Raise AttributeError
  end.

(** [bytes.join(b"", chunk.data)] *)
Definition bytes_join (l : list elem) : result bytes :=
  parts <- mapM (fun e => match e with
                          | EBytes b => Ok b
                          | EInt _ => Raise TypeError
                          end) l ;;
  Ok (List.concat parts).

(** [if decoded: if len(decoded) == 1: decoded = decoded[0]] and
    [else: decoded = None].  The first item of a string of one character
    is the string; an integer other than 0 has no length. *)
Definition single_or_none (decoded : value) : result value :=
  match decoded with
  | VNone => Ok VNone
  | VStr EmptyString => Ok VNone
  | VStr s => Ok (VStr s)
  | VInt n => if n =? 0 then Ok VNone else Raise TypeError
  | VFloat x => if Qeq_bool x 0 then Ok VNone else Raise TypeError
  | VTime timestamp => Ok (VTime timestamp)
  | VChunk _ => Raise TypeError
  | VList [] => Ok VNone
  | VList [x] => Ok x
  | VList l => Ok (VList l)
  | VDict [] => Ok VNone
  | VDict [(k, v)] => if key_eqb k (KInt 0) then Ok v else Raise KeyError
  | VDict d => Ok (VDict d)
  end.

Inductive setting_decoded : Type :=
| B0Cmd35DecodedData (data : value) (length : Z) (config config_str data_type : string)
| B0Cmd42DecodedData (data : value) (length : Z) (config config_str data_type : string)
| InvalidSetting.

(** [Command35Settings(message.params).name], "Unknown" on [ValueError]. *)
Definition config_name (params : string) : result string :=
  try_except (enum_name Command35Settings params) ValueError (Ok "Unknown").

(** [b0_35_data_decoder].  The [except IndexError] returns the set
    holding "Invalid Data", here [InvalidSetting]. *)
Definition b0_35_data_decoder (message : Response.B0StructuredResponseMessage)
  : result setting_decoded :=
  try_except
    (chunk <- item (Response.data message) 0 ;;
     let setting := slugify (Response.params message) in
     data <- bytes_join (elems_of (Chunk.data chunk)) ;;
     decoded <-
       match m35_decoder setting with
       | Some format_decoder => format_decoder data
       | None =>
           decoded <-
             (if negb (Chunk.data_type chunk =? 4)
              then _data_type_decoder (Chunk.data_type chunk) data 16
              else
                ds <- mapM (fun d => elem_data_type_decoder (Chunk.data_type chunk) d 30)
                           (elems_of (Chunk.data chunk)) ;;
                Ok (VList ds)) ;;
           single_or_none decoded
       end ;;
     config_str <- config_name (Response.params message) ;;
     data_type <- _get_data_type (Chunk.data_type chunk) ;;
     Ok (B0Cmd35DecodedData decoded (Chunk.length chunk) (Response.params message)
           config_str data_type))
    IndexError
    (Ok InvalidSetting).

(** ** decoders/b0_42_command.py *)

(** [zero_padded_string_decoder] *)
Definition zero_padded_string_decoder (data : list elem) : result value :=
  output <-
    mapM (fun entry =>
            match entry with
            | EBytes b => Ok (VStr (rstrip "000" (decode_ascii_ignore b)))
            | EInt _ => Raise AttributeError
            end) data ;;
  Ok (match output with
      | [entry] => entry
      | _ => VList output
      end).

(** [ff_terminated_string_decoder] *)
Definition ff_terminated_string_decoder (data : list elem) : result value :=
  output <-
    mapM (fun entry =>
            match entry with
            | EBytes b => Ok (VStr (remove_ff (hex b)))
            | EInt _ => Raise AttributeError
            end) data ;;
  Ok (match output with
      | [entry] => entry
      | _ => VList output
      end).

Definition m42_80_00_decoder := zero_padded_string_decoder.
Definition m42_81_00_decoder := zero_padded_string_decoder.
Definition m42_82_00_decoder := zero_padded_string_decoder.
Definition m42_a4_00_decoder := zero_padded_string_decoder.
Definition m42_a5_00_decoder := ff_terminated_string_decoder.

(** [hasattr(d42, f"m42_{setting}_decoder")] and [getattr]. *)
Definition m42_decoder (setting : string) : option (list elem -> result value) :=
  if String.eqb setting "80_00" then Some m42_80_00_decoder
  else if String.eqb setting "81_00" then Some m42_81_00_decoder
  else if String.eqb setting "82_00" then Some m42_82_00_decoder
  else if String.eqb setting "a4_00" then Some m42_a4_00_decoder
  else if String.eqb setting "a5_00" then Some m42_a5_00_decoder
  else None.

(** [chunk.chunk_size]: only a [B042DataChunk] has the attribute. *)
Definition chunk_size_of (chunk : B0DataChunk) : result Z :=
  match Chunk.b042 chunk with
  | Some extra => Ok (Chunk.chunk_size extra)
  | None => Raise AttributeError
  end.

(** [b0_42_data_decoder] *)
Definition b0_42_data_decoder (message : Response.B0StructuredResponseMessage)
  : result setting_decoded :=
  try_except
    (chunk <- item (Response.data message) 0 ;;
     let setting := slugify (Response.params message) in
     decoded <-
       match m42_decoder setting with
       | Some format_decoder => format_decoder (elems_of (Chunk.data chunk))
       | None =>
           ds <- mapM (fun d =>
                         string_size <- chunk_size_of chunk ;;
                         elem_data_type_decoder (Chunk.data_type chunk) d string_size)
                      (elems_of (Chunk.data chunk)) ;;
           single_or_none (VList ds)
       end ;;
     config_str <- config_name (Response.params message) ;;
     data_type <- _get_data_type (Chunk.data_type chunk) ;;
     Ok (B0Cmd42DecodedData decoded (Chunk.length chunk) (Response.params message)
           config_str data_type))
    IndexError
    (Ok InvalidSetting).

End TextWrap.

(** ** manager.py: [MessageQueue] *)

(** The queue compares priorities as integers ([MessagePriority] is an
    [IntEnum]: IMMEDIATE = 0, HIGH = 1, MEDIUM = 2, LOW = 3). *)
Module Queue.

Record QueuedMessage : Type := {
  queue_id : Z;
  priority : Z;
  destination : string;
  client_id : string;
  message : bytes
}.

(** [QueueID.get]: the counter is an attribute of the class, shared by
    every queue; it is threaded as a number.  The result is the new
    counter, which is also the id handed out. *)
Definition QueueID_get (_id : Z) : Z := _id + 1.

Record MessageQueue : Type := {
  _queue : list QueuedMessage;
  _last_id : Z
}.

Definition MessageQueue_init : MessageQueue := {| _queue := []; _last_id := 0 |}.

Definition queue_length (self : MessageQueue) : Z := len (_queue self).

(** [put]: returns the counter of [QueueID] with the queue. *)
Definition put (_id : Z) (self : MessageQueue) (destination client_id : string)
  (message : bytes) (priority : Z) : Z * MessageQueue :=
  let q_id := QueueID_get _id in
  (q_id,
   {| _queue :=
        (_queue self ++
           [{| queue_id := q_id; priority := priority; destination := destination;
               client_id := client_id; message := message |}])%list;
      _last_id := _last_id self |}).

(** The order of the keys [attrgetter("priority", "queue_id")]: tuples
    compare lexicographically. *)
Definition key_leb (a b : QueuedMessage) : bool :=
  (priority a <? priority b)
  || ((priority a =? priority b) && (queue_id a <=? queue_id b)).

(** [sorted(l, key=...)], a stable sort: elements with equal keys keep
    their order. *)
Fixpoint insert_by_key (x : QueuedMessage) (l : list QueuedMessage) : list QueuedMessage :=
  match l with
  | [] => [x]
  | y :: rest => if key_leb x y then x :: l else y :: insert_by_key x rest
  end.

Fixpoint sorted_by_key (l : list QueuedMessage) : list QueuedMessage :=
  match l with
  | [] => []
  | x :: rest => insert_by_key x (sorted_by_key rest)
  end.

(** [get]: [None] on an empty queue.  The sorted list is as long as the
    queue, so that its index 0 exists. *)
Definition get (self : MessageQueue) : MessageQueue * option (string * string * bytes) :=
  if len (_queue self) >? 0 then
    match sorted_by_key (_queue self) with
    | msg :: _ =>
        ({| _queue := _queue self; _last_id := queue_id msg |},
         Some (destination msg, client_id msg, message msg))
    | [] => (self, None)
    end
  else (self, None).

(** The loop of [processed]: the first message with the id is popped. *)
Fixpoint pop_last_id (last_id : Z) (queue : list QueuedMessage) : list QueuedMessage :=
  match queue with
  | [] => []
  | msg :: rest =>
      if queue_id msg =? last_id then rest else msg :: pop_last_id last_id rest
  end.

Definition processed (self : MessageQueue) : MessageQueue :=
  {| _queue := pop_last_id (_last_id self) (_queue self); _last_id := _last_id self |}.

Definition clear (self : MessageQueue) : MessageQueue :=
  {| _queue := []; _last_id := _last_id self |}.

End Queue.

(** * Definitions used in the statements *)

(** ** Reading hex back *)

Definition unhex_digit (c : ascii) : N :=
  match c with
  | "0" => 0 | "1" => 1 | "2" => 2 | "3" => 3 | "4" => 4 | "5" => 5
  | "6" => 6 | "7" => 7 | "8" => 8 | "9" => 9 | "a" => 10 | "b" => 11
  | "c" => 12 | "d" => 13 | "e" => 14 | _ => 15
  end%char%N.

Definition unhex_byte (s : string) : N :=
  match s with
  | String h (String l _) => (16 * unhex_digit h + unhex_digit l)%N
  | _ => 0%N
  end.

(** ** Frames *)

(** The REMOVE frame quoted in [decode_b0_message_structure]. *)
Definition frame_remove_zone : bytes :=
  [x0d; xb0; x04; x25; x09; xaa; xaa; x01; xff; x08; x03; x02; x08; x00; x43; x6e; x0a].

(** The standard frame of the first example scenario. *)
Definition frame_ack : bytes := [x0d; x02; x02; x02; x43; xf9; x0a].

(** A frame whose message-type byte is 6. *)
Definition frame_type_6 : bytes := [x0d; xb0; x06; x11; x01; x00; x43; xf3; x0a].

(** A page of command 1f carrying page byte ff. *)
Definition frame_1f_page : bytes :=
  [x0d; xb0; x02; x1f; x06; xff; x08; x03; x01; xaa; x00; x43; x2e; x0a].

(** Responses of command 11, which has no decoder of its own: one with
    data type 2, one with index 21, one with known codes. *)
Definition frame_zones11_type2 : bytes :=
  [x0d; xb0; x03; x11; x06; xff; x02; x03; x01; xaa; x00; x43; x41; x0a].
Definition frame_zones11_index21 : bytes :=
  [x0d; xb0; x03; x11; x06; xff; x08; x15; x01; xaa; x00; x43; x29; x0a].
Definition zones11_body : bytes := [xb0; x03; x11; x06; xff; x08; x03; x01; xaa; x00].

(** The zone-temperature frame of the third example scenario. *)
Definition frame_zone_temps : bytes :=
  [x0d; xb0; x03; x3d; x07; xff; x08; x03; x02; x00; xff; x00; x43; xb7; x0a].

Definition frame_page_1 : bytes :=
  [x0d; xb0; x02; x18; x08; x01; x10; x03; x03; xa1; xa2; xa3; x00; x43; xea; x0a].
Definition frame_final : bytes :=
  [x0d; xb0; x03; x18; x06; xff; x10; x03; x01; xa4; x01; x43; x31; x0a].

(** Two pages in the layout taken when byte 6 is zero. *)
Definition frame_flat_page_1 : bytes :=
  [x0d; xb0; x02; x64; x0a; x01; x00; xff; x08; x00; xff; x02; x4a; x53; x00; x43; xf2; x0a].
Definition frame_flat_final : bytes :=
  [x0d; xb0; x03; x64; x0a; xff; x00; xff; x08; x00; xff; x02; x37; x30; x01; x43; x28; x0a].


(** ** Verification as the specification words it *)

(** The checksum taken over "the frame minus the trailing checksum byte
    and end marker", next to the three marker tests. *)
Definition verify_as_stated (frame : bytes) : bool :=
  String.eqb (hex (slice_to frame 1)) "0d"
  && String.eqb (hex (slice frame (-3) (-2))) "43"
  && String.eqb (hex (slice_from frame (-1))) "0a"
  && String.eqb (hex (calculate_message_checksum (slice_to frame (-2))))
                (hex (slice frame (-2) (-1))).

(** The frame of the round-trip property: start marker, the checksummed
    bytes [b], the checksum [c], end marker.  The sources build no frames. *)
Definition frame_with_checksum (b c : bytes) : bytes := (x0d :: b ++ c ++ [x0a])%list.

(** ** Reassembly as the specification words it *)

(** A chunk that carries a list of elements with a list of hex strings:
    what every response layout stores, except the single flat chunk of
    the layout taken when byte 6 is zero. *)
Definition is_list_chunk (c : B0DataChunk) : bool :=
  match Chunk.data c, Chunk.hex c with
  | Chunk.Elems _, Chunk.HexList _ => true
  | _, _ => false
  end.

Definition chunk_elems (c : B0DataChunk) : list elem :=
  match Chunk.data c with
  | Chunk.Elems l => l
  | Chunk.Flat _ => []
  end.

Definition chunk_hexes (c : B0DataChunk) : list string :=
  match Chunk.hex c with
  | Chunk.HexList l => l
  | Chunk.HexStr _ => []
  end.

Definition same_index (i : Z) (c : B0DataChunk) : bool := Chunk.index c =? i.

(** The chunks that are the first of their index, in order. *)
Fixpoint first_of_each_index (seen : list Z) (cs : list B0DataChunk) : list B0DataChunk :=
  match cs with
  | [] => []
  | c :: rest =>
      if existsb (Z.eqb (Chunk.index c)) seen
      then first_of_each_index seen rest
      else c :: first_of_each_index (Chunk.index c :: seen) rest
  end.

(** All chunks of [all] that share the index of [first], concatenated in
    order: payload and hex rendering extended, lengths summed. *)
Definition merged_chunk (all : list B0DataChunk) (first : B0DataChunk) : B0DataChunk :=
  let same := filter (same_index (Chunk.index first)) all in
  {| Chunk.data_type := Chunk.data_type first;
     Chunk.index := Chunk.index first;
     Chunk.length := fold_left Z.add (map Chunk.length same) 0;
     Chunk.data := Chunk.Elems (flat_map chunk_elems same);
     Chunk.hex := Chunk.HexList (flat_map chunk_hexes same);
     Chunk.b042 := Chunk.b042 first |}.

Definition merge_by_index (all : list B0DataChunk) : list B0DataChunk :=
  map (merged_chunk all) (first_of_each_index [] all).

(** The chunks of all pages, in the order the pages are handed over. *)
Definition all_chunks {K : Type}
  (messages : list (K * Response.B0StructuredResponseMessage)) : list B0DataChunk :=
  flat_map (fun m => Response.data (snd m)) messages.

(** ** Expected payloads *)







Definition empty_chunk : B0DataChunk :=
  {| Chunk.data_type := 0; Chunk.index := 0; Chunk.length := 0;
     Chunk.data := Chunk.Flat []; Chunk.hex := Chunk.HexStr "";
     Chunk.b042 := None |}.

(** ** Structured messages for the examples *)

Definition list_chunk (data_type index : Z) (data : list bytes) : B0DataChunk :=
  {| Chunk.data_type := data_type; Chunk.index := index;
     Chunk.length := len (List.concat data);
     Chunk.data := Chunk.Elems (map EBytes data);
     Chunk.hex := Chunk.HexList (map hex_sep data);
     Chunk.b042 := None |}.

Definition response_of (command : string) (message_type page : Z)
  (data : list B0DataChunk) : Response.B0StructuredResponseMessage :=
  {| Response.message_start_marker := "0d"; Response.b0_message := true;
     Response.message_type := message_type; Response.command := command;
     Response.length_all_data := 0; Response.has_params := false;
     Response.params := ""; Response.page := page; Response.data := data;
     Response.message_counter := 0; Response.end_data_marker := "43";
     Response.checksum := "00"; Response.message_end_marker := "0a";
     Response.message := [] |}.




(** Three pages: index 3 on pages 1 and 2 and the final page, index 5
    on page 2 only. *)
Definition paged_example : list (page_key * Response.B0StructuredResponseMessage) :=
  [(PageStr 1, response_of "18" 2 1 [list_chunk 16 3 [[xa1; xa2]]]);
   (PageStr 2, response_of "18" 2 2 [list_chunk 16 3 [[xa3; xa4]];
                                     list_chunk 8 5 [[x01]; [x02]]]);
   (PageInt 255, response_of "18" 3 255 [list_chunk 16 3 [[xa5; xa6]]])].

(** ** The sum under the checksum *)

(** The sum the checksum loop accumulates. *)
Definition byte_sum (msg : bytes) : Z :=
  fold_left (fun checksum char => checksum + b2z char) msg 0.

(** ** The page store *)

(** The pages of [command] as [get_pages] hands them on: keyed by the
    page number, in the order they were stored. *)
Definition pages_of (command : string)
  (stored : list (page_id * Response.B0StructuredResponseMessage))
  : list (page_key * Response.B0StructuredResponseMessage) :=
  map (fun p => (PageStr (snd (fst p)), snd p))
      (filter (fun p => String.eqb (fst (fst p)) command) stored).

(** Frames decoded one after the other by the same decoder. *)
Fixpoint decode_frames (self : PagedMessageManager) (frames : list bytes)
  : PagedMessageManager * list (result b0_result) :=
  match frames with
  | [] => (self, [])
  | frame :: rest =>
      let (self', r) := decode_b0_message self frame in
      let (self'', rs) := decode_frames self' rest in
      (self'', r :: rs)
  end.

(** The answer [decode_b0_message] builds for a final response: the
    payload decoded by the decoder of the command, or the generic one. *)
Definition response_answer (message : Response.B0StructuredResponseMessage)
  (verified : bool) : result b0_result :=
  decoded_data <-
    match specific_data_decoder (Response.command message) with
    | Some data_decoder => data_decoder message
    | None => b0_gen_data_decoder message
    end ;;
  Ok (IsResponse
        {| B0Response.type := get_lookup_value MessageType (Response.message_type message);
           B0Response.command := Response.command message;
           B0Response.cmd_name := get_lookup_value B0Command (Response.command message);
           B0Response.params := Response.params message;
           B0Response.length := Response.length_all_data message;
           B0Response.page := Response.page message;
           B0Response.data := B0Response.Decoded decoded_data;
           B0Response.checksum := Response.checksum message;
           B0Response.verified := verified |}).

(** Pages [j + 1], [j + 2], ... of [command] as the store keeps them. *)
Fixpoint stored_pages (command : string) (j : Z)
  (ms : list Response.B0StructuredResponseMessage)
  : list (page_id * Response.B0StructuredResponseMessage) :=
  match ms with
  | [] => []
  | p :: rest => ((command, j + 1), p) :: stored_pages command (j + 1) rest
  end.

(** The hypotheses on a run of pages of one command, numbered from
    [j + 1] on. *)
Definition pages_numbered (command : string) (j : Z)
  (ms : list Response.B0StructuredResponseMessage) : Prop :=
  forall i p, nth_error ms i = Some p ->
    Response.message_type p = 2 /\ Response.command p = command
    /\ Response.page p = j + Z.of_nat i + 1.

(** ** The default response layout, written out *)

(** A chunk as the default response layout carries it: a leading byte
    the decoder drops (before the first chunk it is the page number),
    the data type, the index, and the data behind its length byte. *)
Record wire_chunk : Type := {
  wire_lead : byte;
  wire_type : byte;
  wire_index : byte;
  wire_data : bytes
}.

Definition wire_bytes (c : wire_chunk) : bytes :=
  wire_lead c :: wire_type c :: wire_index c :: byte_of_Z (len (wire_data c))
    :: wire_data c.

(** A response frame in the default layout.  The length byte counts the
    chunks and the message counter. *)
Definition response_frame (message_type command : byte) (chunks : list wire_chunk)
  (counter checksum : byte) : bytes :=
  let body := List.concat (map wire_bytes chunks) in
  ([x0d; xb0; message_type; command; byte_of_Z (len body + 1)]
     ++ body ++ [counter; x43; checksum; x0a])%list.

(** The chunk the structural decoder is to give back: the data cut into
    elements of [max(1, data_type / 8)] bytes. *)
Definition decoded_chunk (c : wire_chunk) : B0DataChunk :=
  let data :=
    chunk_fuel (List.length (wire_data c))
      (Z.to_nat (Z.max 1 (b2z (wire_type c) / 8))) (wire_data c) in
  {| Chunk.data_type := b2z (wire_type c);
     Chunk.index := b2z (wire_index c);
     Chunk.length := len (wire_data c);
     Chunk.data := Chunk.Elems (map EBytes data);
     Chunk.hex := Chunk.HexList (map hex_sep data);
     Chunk.b042 := None |}.

(** Every chunk of [cs], laid out from offset [i] on, starts at or
    before offset [lad - 1], where the loop still goes on. *)
Fixpoint starts_before (lad i : Z) (cs : list wire_chunk) : Prop :=
  match cs with
  | [] => True
  | c :: rest => i <= lad - 1 /\ starts_before lad (i + len (wire_bytes c)) rest
  end.

(** ** Pages against a single frame *)

(** What a list layout reads from a frame for one chunk: the data type,
    the index, the length it is told, the width of an element, the
    payload it cuts, and for command 42 the header fields. *)
Record content_chunk : Type := {
  c_type : Z;
  c_index : Z;
  c_length : Z;
  c_width : Z;
  c_payload : bytes;
  c_extra : option Chunk.B042
}.

(** The chunk a list layout builds from it: the payload cut into
    elements of the width, each rendered by [render], which is
    [hex(" ")] in the default layout and [hex()] in the others. *)
Definition chunk_of (render : bytes -> string) (c : content_chunk) : B0DataChunk :=
  let data :=
    chunk_fuel (List.length (c_payload c)) (Z.to_nat (c_width c)) (c_payload c) in
  {| Chunk.data_type := c_type c;
     Chunk.index := c_index c;
     Chunk.length := c_length c;
     Chunk.data := Chunk.Elems (map EBytes data);
     Chunk.hex := Chunk.HexList (map render data);
     Chunk.b042 := c_extra c |}.











(** ** Payloads of the semantic decoders *)

(** The entry [b0_4b_data_decoder] stores for a zone: the first four
    bytes as a little-endian timestamp, the fifth as a [ZoneStatus]. *)
Definition last_event_entry (event : bytes) : value :=
  VDict [(KStr "datetime", VTime (b2i (slice_to event 4) false));
         (KStr "code", VStr (get_lookup_value ZoneStatus (b2i (slice event 4 5) true)))].

(** The [i]-th entry of the last group that has one. *)
Fixpoint latest {A : Type} (i : nat) (groups : list (list A)) : option A :=
  match groups with
  | [] => None
  | g :: rest =>
      match latest i rest with
      | Some x => Some x
      | None => nth_error g i
      end
  end.

(** The data type and the index of a chunk are members of their enums. *)
Definition known_codes (c : B0DataChunk) : bool :=
  match DataTypes (Chunk.data_type c), IndexName (Chunk.index c) with
  | Some _, Some _ => true
  | _, _ => false
  end.

(** The payload of a chunk as the structural decoder stores it: a flat
    byte string, or a list whose elements are byte strings. *)
Definition bytes_payload (c : B0DataChunk) : bool :=
  match Chunk.data c with
  | Chunk.Flat _ => true
  | Chunk.Elems l => forallb (fun e => match e with EBytes _ => true | EInt _ => false end) l
  end.

(** The brightness entries the loop of [b0_77_data_decoder] adds from
    zone number [zone] on. *)
Fixpoint brightness_from (zone : Z) (bs : bytes) : list (key * value) :=
  match bs with
  | [] => []
  | b :: rest =>
      (if Byte.byte_eq_dec b xff then []
       else [(KInt (zone + 1), VStr (get_lookup_value ZoneBrightness (b2z b)))])
      ++ brightness_from (zone + 1) rest
  end%list.

(** ** Settings payloads *)

(** The 16-bit little-endian words of a payload; an odd last byte is
    left over. *)
Fixpoint le_words (data : bytes) : list Z :=
  match data with
  | a :: b :: rest => b2i [a; b] false :: le_words rest
  | _ => []
  end.

(** The two characters [hex] writes for a byte. *)
Definition hex_chars (b : byte) : list ascii := list_ascii_of_string (hex_byte b).

(** ** Settings frames *)

(** A response to command 35: bytes 5 to 7 before the length byte of the
    setting, the two bytes of the setting, the data type, the payload. *)
Definition settings_frame (message_type length_all_data page b6 b7 p0 p1 data_type : byte)
  (payload tail : bytes) : bytes :=
  ([x0d; xb0; message_type; x35; length_all_data; page; b6; b7;
    byte_of_Z (len payload + 3); p0; p1; data_type] ++ payload ++ tail)%list.

(** A response to command 42: the length byte of the setting, the two
    bytes of the setting, the greatest number of entries, the size of an
    entry in bits, the data type, the first entry and the number of
    entries, each count on two bytes little-endian, then the payload. *)
Definition settings2_frame (message_type length_all_data page b6 b7 p0 p1 : byte)
  (max_entries entry_bits : byte * byte) (b15 b16 data_type b18 : byte)
  (start_entry entries : byte * byte) (payload tail : bytes) : bytes :=
  ([x0d; xb0; message_type; x42; length_all_data; page; b6; b7;
    byte_of_Z (len payload + 14); p0; p1;
    fst max_entries; snd max_entries; fst entry_bits; snd entry_bits;
    b15; b16; data_type; b18;
    fst start_entry; snd start_entry; fst entries; snd entries]
     ++ payload ++ tail)%list.

(** ** Responses and requests for the examples *)

(** A response that holds the chunks [chunks], each a list of elements. *)
Definition chunk_of_elements (data_type index : Z) (elements : list bytes) : B0DataChunk :=
  {| Chunk.data_type := data_type;
     Chunk.index := index;
     Chunk.length := len (List.concat elements);
     Chunk.data := Chunk.Elems (map EBytes elements);
     Chunk.hex := Chunk.HexList (map hex_sep elements);
     Chunk.b042 := None |}.

Definition response_of_chunks (command : string) (chunks : list B0DataChunk)
  : Response.B0StructuredResponseMessage :=
  {| Response.message_start_marker := "0d";
     Response.b0_message := true;
     Response.message_type := 3;
     Response.command := command;
     Response.length_all_data := 0;
     Response.has_params := false;
     Response.params := "";
     Response.page := 255;
     Response.data := chunks;
     Response.message_counter := 0;
     Response.end_data_marker := "43";
     Response.checksum := "00";
     Response.message_end_marker := "0a";
     Response.message := [] |}.

(** A REQUEST with parameters whose parameter-size byte is 0, and one
    without parameters. *)
Definition frame_request_zero_size : bytes :=
  [x0d; xb0; x01; x35; x05; x00; x01; x02; x03; x43; x00; x0a].
Definition frame_request_plain : bytes := [x0d; xb0; x01; x24; x01; x05; x43; xb6; x0a].

(** ** The message queue *)

(** The ids of the queued messages increase along the queue and none is
    above the counter of [QueueID]. *)
Definition queue_ids_increase (_id : Z) (self : Queue.MessageQueue) : Prop :=
  StronglySorted Z.lt (map Queue.queue_id (Queue._queue self))
  /\ Forall (fun msg => Queue.queue_id msg <= _id) (Queue._queue self).

(** The head of the sorted list. *)
Fixpoint least_key (l : list Queue.QueuedMessage) : option Queue.QueuedMessage :=
  match l with
  | [] => None
  | x :: rest =>
      match least_key rest with
      | Some y => Some (if Queue.key_leb x y then x else y)
      | None => Some x
      end
  end.

(** * Properties *)

(** ** Hex rendering is injective *)

Lemma unhex_hex_byte (b : byte) : unhex_byte (hex_byte b) = Byte.to_N b.
Proof. destruct b; reflexivity. Qed.

Lemma hex_byte_inj (a b : byte) : hex_byte a = hex_byte b -> a = b.
Proof.
  intros H. apply (f_equal unhex_byte) in H. rewrite !unhex_hex_byte in H.
  apply (f_equal Byte.of_N) in H. rewrite !Byte.of_to_N in H. congruence.
Qed.

Lemma hex_cons (b : byte) (rest : bytes) :
  exists h l, hex_byte b = String h (String l EmptyString)
              /\ hex (b :: rest) = String h (String l (hex rest)).
Proof.
  unfold hex_byte. do 2 eexists. split; [reflexivity|]. simpl. reflexivity.
Qed.

Lemma hex_inj (x y : bytes) : hex x = hex y -> x = y.
Proof.
  revert y. induction x as [|a x IH]; intros [|b y] H.
  - reflexivity.
  - destruct (hex_cons b y) as (h & l & _ & E). rewrite E in H. discriminate.
  - destruct (hex_cons a x) as (h & l & _ & E). rewrite E in H. discriminate.
  - destruct (hex_cons a x) as (h & l & Ea & E).
    destruct (hex_cons b y) as (h' & l' & Eb & E').
    rewrite E, E' in H. injection H as Hh Hl Hr.
    f_equal.
    + apply hex_byte_inj. rewrite Ea, Eb. congruence.
    + apply IH, Hr.
Qed.

Lemma hex_eqb (x y : bytes) : String.eqb (hex x) (hex y) = true <-> x = y.
Proof.
  rewrite String.eqb_eq. split; [apply hex_inj | intros ->; reflexivity].
Qed.

(** ** The checksum fits one byte *)

Lemma checksum_value_range (msg : bytes) : 0 <= checksum_value msg < 255.
Proof.
  unfold checksum_value.
  set (s := fold_left _ msg 0).
  pose proof (Z.mod_pos_bound s 255 ltac:(lia)).
  destruct (255 - s mod 255 =? 255) eqn:E; [lia|].
  apply Z.eqb_neq in E. lia.
Qed.

Lemma b2z_byte_of_Z (z : Z) : 0 <= z < 256 -> b2z (byte_of_Z z) = z.
Proof.
  intros H. unfold b2z, byte_of_Z.
  destruct (Byte.of_N (Z.to_N z)) eqn:E.
  - apply Byte.to_of_N in E. rewrite E. lia.
  - apply Byte.of_N_None_iff in E. lia.
Qed.

Lemma calculate_message_checksum_value (msg : bytes) :
  map b2z (calculate_message_checksum msg) = [checksum_value msg].
Proof.
  unfold calculate_message_checksum. cbn [map].
  rewrite b2z_byte_of_Z by (pose proof (checksum_value_range msg); lia).
  reflexivity.
Qed.

(** ** Slices *)

Lemma norm_neg (n i : Z) : i < 0 -> norm n i = Z.max (i + n) 0.
Proof. intros H. unfold norm. destruct (Z.ltb_spec i 0); lia. Qed.

Lemma norm_pos (n i : Z) : 0 <= i -> norm n i = Z.min i n.
Proof. intros H. unfold norm. destruct (Z.ltb_spec i 0); lia. Qed.

(** [msg[1:-1][:-1]] is [msg[1:-2]]. *)
Lemma slice_slice_message {A : Type} (msg : list A) :
  slice_to (slice msg 1 (-1)) (-1) = slice msg 1 (-2).
Proof.
  unfold slice_to, slice, len.
  rewrite firstn_firstn, length_firstn, length_skipn.
  rewrite !(norm_neg _ (-1)), !(norm_neg _ (-2)), !(norm_pos _ 1) by lia.
  f_equal. lia.
Qed.

Lemma slice_to_1_cons {A : Type} (a : A) (l : list A) : slice_to (a :: l) 1 = [a].
Proof.
  unfold slice_to, len. rewrite norm_pos by lia.
  replace (Z.to_nat _) with 1%nat by (cbn [List.length]; lia). reflexivity.
Qed.

Section Tail3.

Context {A : Type} (pre : list A) (a b c : A).

Lemma len_tail3 : len (pre ++ [a; b; c]) = Z.of_nat (List.length pre) + 3.
Proof. unfold len. rewrite length_app. cbn [List.length]. lia. Qed.

Lemma skipn_pre (k : nat) (t : list A) :
  skipn (List.length pre + k) (pre ++ t) = skipn k t.
Proof.
  rewrite skipn_app, skipn_all2 by lia.
  replace (List.length pre + k - List.length pre)%nat with k by lia. reflexivity.
Qed.

Lemma slice_end_data : slice (pre ++ [a; b; c]) (-3) (-2) = [a].
Proof.
  unfold slice. rewrite len_tail3, !norm_neg by lia.
  replace (Z.to_nat (Z.max (-3 + _) 0)) with (List.length pre + 0)%nat by lia.
  rewrite skipn_pre.
  replace (Z.to_nat _) with 1%nat by lia. reflexivity.
Qed.

Lemma slice_checksum : slice (pre ++ [a; b; c]) (-2) (-1) = [b].
Proof.
  unfold slice. rewrite len_tail3, !norm_neg by lia.
  replace (Z.to_nat (Z.max (-2 + _) 0)) with (List.length pre + 1)%nat by lia.
  rewrite skipn_pre.
  replace (Z.to_nat _) with 1%nat by lia. reflexivity.
Qed.

Lemma slice_end_marker : slice_from (pre ++ [a; b; c]) (-1) = [c].
Proof.
  unfold slice_from. rewrite len_tail3, !norm_neg by lia.
  replace (Z.to_nat _) with (List.length pre + 2)%nat by lia.
  rewrite skipn_pre. reflexivity.
Qed.

End Tail3.

Lemma slice_body {A : Type} (x : A) (p : list A) (a b c : A) :
  slice (x :: p ++ [a; b; c]) 1 (-2) = (p ++ [a])%list.
Proof.
  unfold slice, len. cbn [List.length]. rewrite length_app. cbn [List.length].
  rewrite norm_neg, norm_pos by lia.
  replace (Z.to_nat (Z.min _ _)) with 1%nat by lia.
  cbn [skipn].
  replace (Z.to_nat _) with (List.length p + 1)%nat by lia.
  change [a; b; c] with ([a] ++ [b; c])%list. rewrite app_assoc.
  rewrite firstn_app.
  rewrite firstn_all2 by (rewrite length_app; cbn [List.length]; lia).
  rewrite length_app. cbn [List.length].
  replace (_ - _)%nat with 0%nat by lia. cbn [firstn]. apply app_nil_r.
Qed.

(** ** Structural decoding *)

Lemma from_bytes_big_nonneg (data : bytes) : 0 <= from_bytes_big data.
Proof.
  unfold from_bytes_big.
  assert (H : forall acc, 0 <= acc ->
                0 <= fold_left (fun acc b => acc * 256 + b2z b) data acc).
  { induction data as [|b data IH]; intros acc Hacc; [exact Hacc|].
    cbn [fold_left]. apply IH. unfold b2z. lia. }
  apply H. lia.
Qed.

Lemma b2i_nonneg (data : bytes) (big_endian : bool) : 0 <= b2i data big_endian.
Proof. unfold b2i. destruct big_endian; apply from_bytes_big_nonneg. Qed.

(** The loop over the chunks stops: any fuel from
    [Z.to_nat (length_all_data - i)] on gives the same chunks. *)
Lemma split_chunks_enough_fuel (msg : bytes) (length_all_data : Z) (fuel fuel' : nat) (i : Z) :
  (Z.to_nat (length_all_data - i) <= fuel)%nat ->
  (Z.to_nat (length_all_data - i) <= fuel')%nat ->
  split_chunks fuel msg length_all_data i = split_chunks fuel' msg length_all_data i.
Proof.
  revert fuel' i. induction fuel as [|fuel IH]; intros fuel' i H H'.
  - destruct fuel' as [|fuel']; [reflexivity|]. cbn [split_chunks].
    destruct (Z.leb_spec i (length_all_data - 1)); [lia | reflexivity].
  - destruct fuel' as [|fuel']; cbn [split_chunks];
      destruct (Z.leb_spec i (length_all_data - 1)); try reflexivity; try lia.
    f_equal. pose proof (b2i_nonneg (slice msg (i + 3) (i + 4)) true).
    apply IH; lia.
Qed.

Lemma chunk_bytearray_ok {A : Type} (data : list A) (size : Z) :
  size <> 0 -> exists l, chunk_bytearray data size = Ok l.
Proof.
  intros H. unfold chunk_bytearray.
  destruct (Z.eqb_spec size 0); [contradiction|].
  destruct (size <? 0); eexists; reflexivity.
Qed.

Lemma default_chunk_ok (chunk : bytes) : exists c, default_chunk chunk = Ok c.
Proof.
  unfold default_chunk. cbv zeta.
  destruct (chunk_bytearray_ok (slice_from chunk 3)
              (Z.max 1 (b2i (slice_to chunk 1) true / 8))) as [l ->]; [lia|].
  eexists. reflexivity.
Qed.

Lemma mapM_default_chunk_ok (chunks : list bytes) :
  exists cs, mapM default_chunk chunks = Ok cs.
Proof.
  induction chunks as [|c chunks [cs IH]]; [eexists; reflexivity|].
  destruct (default_chunk_ok c) as [c' E]. cbn [mapM]. rewrite E, IH.
  eexists. reflexivity.
Qed.

Lemma response_chunks_ok (msg : bytes) (command : string) (length_all_data : Z) :
  exists r, response_chunks msg command length_all_data = Ok r.
Proof.
  unfold response_chunks. cbv zeta.
  destruct (_ =? 0); [eexists; reflexivity|].
  destruct (String.eqb command "0f").
  { destruct (chunk_bytearray_ok (slice msg 8 (8 + (b2i (slice msg 4 5) true - 4)))
                (Z.max 1 (b2i (slice msg 6 7) true / 8))) as [l ->]; [lia|].
    eexists. reflexivity. }
  destruct (String.eqb command "35").
  { destruct (chunk_bytearray_ok (slice msg 12 (12 + (b2i (slice msg 8 9) true - 3)))
                (Z.max 1 (b2i (slice msg 11 12) true / 8))) as [l ->]; [lia|].
    eexists. reflexivity. }
  destruct (String.eqb command "42").
  { destruct (Z.eqb_spec (b2i (slice msg 13 15) false / 8) 0) as [E|E].
    - eexists. reflexivity.
    - destruct (chunk_bytearray_ok (slice msg 23 (23 + (b2i (slice msg 8 9) true - 14)))
                  (b2i (slice msg 13 15) false / 8) E) as [l ->].
      eexists. reflexivity. }
  destruct (mapM_default_chunk_ok
              (split_chunks (Z.to_nat (length_all_data - 5)) msg length_all_data 5))
    as [cs ->].
  eexists. reflexivity.
Qed.

(** Structural decoding never raises: a slice past the end is empty and
    an absent integer reads as 0. *)
Lemma decode_b0_message_structure_total (msg : bytes) :
  exists o, decode_b0_message_structure msg = Ok o.
Proof.
  unfold decode_b0_message_structure. cbv zeta.
  destruct (_ || _).
  { destruct (list_eq_dec _ _ _); eexists; reflexivity. }
  destruct (_ =? MessageType_REQUEST).
  { destruct (_ >? 1); eexists; reflexivity. }
  destruct (_ || _); [|eexists; reflexivity].
  destruct (response_chunks_ok msg (hex (slice msg 3 4)) (b2i (slice msg 4 5) true))
    as [[[hp ps] cs] ->].
  eexists. reflexivity.
Qed.

(** What the structural decoder stores around the payload. *)
Lemma structure_envelope (msg : bytes) (s : structured) :
  decode_b0_message_structure msg = Ok (Some s) ->
  message_start_marker s = hex (slice_to msg 1)
  /\ end_data_marker s = hex (slice msg (-3) (-2))
  /\ checksum s = hex (slice msg (-2) (-1))
  /\ message_end_marker s = hex (slice_from msg (-1))
  /\ message s = slice msg 1 (-1)
  /\ message_type s = b2i (slice msg 2 3) true.
Proof.
  unfold decode_b0_message_structure. cbv zeta. intros H.
  destruct (_ || _) in H.
  { destruct (list_eq_dec _ _ _) in H; injection H as <-; repeat split. }
  destruct (_ =? MessageType_REQUEST) in H.
  { destruct (_ >? 1) in H; injection H as <-; repeat split. }
  destruct (_ || _) in H; [|discriminate].
  destruct (response_chunks _ _ _) as [[[hp ps] cs]|e] in H; [|discriminate].
  injection H as <-. repeat split.
Qed.

(** ** Frame verification *)

Lemma validate_b0_message_frame (msg : bytes) (s : structured) :
  decode_b0_message_structure msg = Ok (Some s) ->
  validate_b0_message s =
    String.eqb (hex (slice_to msg 1)) "0d"
    && String.eqb (hex (slice msg (-3) (-2))) "43"
    && String.eqb (hex (calculate_message_checksum (slice msg 1 (-2))))
                  (hex (slice msg (-2) (-1)))
    && String.eqb (hex (slice_from msg (-1))) "0a".
Proof.
  intros H. apply structure_envelope in H.
  destruct H as (H1 & H2 & H3 & H4 & H5 & _).
  unfold validate_b0_message.
  rewrite H1, H2, H3, H4, H5, slice_slice_message.
  destruct (_ && _); reflexivity.
Qed.

Lemma validate_without_end_data (s : structured) :
  end_data_marker s = "" -> validate_b0_message s = false.
Proof.
  intros H. unfold validate_b0_message. rewrite H.
  destruct (String.eqb (message_start_marker s) "0d"); reflexivity.
Qed.

(** C1, as stated, fails: on the REMOVE frame quoted in the source the
    decoder verifies the frame, while the checksum taken over the frame
    minus its last two bytes (start marker included) does not match. *)
Lemma verify_as_stated_differs :
  exists s, decode_b0_message_structure frame_remove_zone = Ok (Some s)
            /\ validate_b0_message s = true
            /\ verify_as_stated frame_remove_zone = false.
Proof. eexists. repeat split. Qed.

(** C1, amended: for a frame that decodes to a structured message,
    [validate_b0_message] is true if and only if the first byte is 0x0D,
    the third byte from the end is 0x43, the last byte is 0x0A, and the
    byte before the last is the checksum of the frame without its start
    marker, checksum byte and end marker. *)
Theorem validate_b0_message_iff (msg : bytes) (s : structured) :
  decode_b0_message_structure msg = Ok (Some s) ->
  (validate_b0_message s = true <->
   slice_to msg 1 = [x0d]
   /\ slice msg (-3) (-2) = [x43]
   /\ slice_from msg (-1) = [x0a]
   /\ slice msg (-2) (-1) = calculate_message_checksum (slice msg 1 (-2))).
Proof.
  intros H. rewrite (validate_b0_message_frame msg s H).
  rewrite !andb_true_iff.
  change "0d" with (hex [x0d]). change "43" with (hex [x43]).
  change "0a" with (hex [x0a]).
  rewrite !hex_eqb. intuition congruence.
Qed.

Lemma validate_b0_message_iff_witness :
  exists s, decode_b0_message_structure frame_remove_zone = Ok (Some s)
            /\ validate_b0_message s = true.
Proof.
  eexists. split; [reflexivity|].
  apply (validate_b0_message_iff frame_remove_zone); [reflexivity|].
  repeat split.
Defined.

(** C2, as stated, fails: the frame built around bytes that do not end
    in the end-of-data marker carries the right checksum and does not
    verify, and the frame built around bytes whose message type is 6
    decodes to no message that could be verified. *)
Lemma round_trip_for_every_b_fails :
  (exists s,
      decode_b0_message_structure
        (frame_with_checksum zones11_body (calculate_message_checksum zones11_body))
      = Ok (Some s)
      /\ hex (calculate_message_checksum
                (slice (frame_with_checksum zones11_body
                          (calculate_message_checksum zones11_body)) 1 (-2)))
         = checksum s
      /\ validate_b0_message s = false)
  /\ decode_b0_message_structure
       (frame_with_checksum [xb0; x06; x11; x01; x00; x43]
          (calculate_message_checksum [xb0; x06; x11; x01; x00; x43]))
     = Ok None.
Proof. split; [eexists; repeat split | reflexivity]. Qed.

(** C2, amended: a frame that carries [calculate_message_checksum b] over
    the bytes [b] between its start marker and its checksum byte, [b]
    ending in the end-of-data marker 0x43, verifies when it decodes to a
    message. *)
Theorem checksum_round_trip (p : bytes) (s : structured) :
  let b := (p ++ [x43])%list in
  decode_b0_message_structure (frame_with_checksum b (calculate_message_checksum b))
    = Ok (Some s) ->
  validate_b0_message s = true.
Proof.
  intros b H. rewrite (validate_b0_message_frame _ s H).
  unfold frame_with_checksum, calculate_message_checksum, b.
  set (c := byte_of_Z _).
  cbn [app]. rewrite <- app_assoc. cbn [app].
  rewrite slice_to_1_cons, slice_body.
  change (x0d :: p ++ [x43; c; x0a])%list with ((x0d :: p) ++ [x43; c; x0a])%list.
  rewrite slice_end_data, slice_checksum, slice_end_marker.
  subst c. rewrite !String.eqb_refl. reflexivity.
Qed.

Lemma checksum_round_trip_witness :
  exists s,
    decode_b0_message_structure
      (frame_with_checksum (zones11_body ++ [x43])%list
         (calculate_message_checksum (zones11_body ++ [x43])%list))
    = Ok (Some s)
    /\ validate_b0_message s = true.
Proof.
  eexists. split; [reflexivity|].
  apply (checksum_round_trip zones11_body). reflexivity.
Defined.

(** C8, as stated, fails: the frame does not verify. *)
Lemma ack_frame_checksum_fails :
  STD.verified (decode_standard_message frame_ack) = false.
Proof. reflexivity. Qed.

(** C8, amended: the frame 0d 02 02 02 43 f9 0a decodes to command "02",
    name ACK, data "02 02 43" and verified = false; the checksum of
    02 02 02 43 is b6, not the embedded f9. *)
Theorem decode_standard_ack :
  decode_standard_message frame_ack =
    {| STD.command := "02"; STD.command_str := "ACK"; STD.data := "02 02 43";
       STD.checksum := "f9"; STD.verified := false |}
  /\ hex (calculate_message_checksum (slice frame_ack 1 (-2))) = "b6".
Proof. split; reflexivity. Qed.

(** ** Message types and short buffers *)

(** C10: when the message-type byte is outside 0..5 the structural
    decoder returns [None], and [decode_b0_message] raises on it. *)
Theorem unknown_message_type_raises (self : PagedMessageManager) (msg : bytes) :
  ~ (0 <= b2i (slice msg 2 3) true <= 5) ->
  decode_b0_message_structure msg = Ok None
  /\ decode_b0_message self msg = (self, Raise AttributeError).
Proof.
  intros H.
  assert (E : decode_b0_message_structure msg = Ok None).
  { unfold decode_b0_message_structure. cbv zeta.
    unfold MessageType_ADD, MessageType_REMOVE, MessageType_REQUEST,
      MessageType_PAGED_RESPONSE, MessageType_RESPONSE, MessageType_UNKNOWN.
    repeat match goal with
           | |- context [b2i (slice msg 2 3) true =? ?k] =>
               replace (b2i (slice msg 2 3) true =? k) with false
                 by (symmetry; apply Z.eqb_neq; lia)
           end.
    reflexivity. }
  split; [exact E|]. unfold decode_b0_message. rewrite E. reflexivity.
Qed.

Lemma unknown_message_type_raises_witness :
  decode_b0_message_structure frame_type_6 = Ok None
  /\ decode_b0_message PagedMessageManager_init frame_type_6
     = (PagedMessageManager_init, Raise AttributeError).
Proof.
  apply (unknown_message_type_raises PagedMessageManager_init frame_type_6).
  vm_compute. intros [_ H]. apply H. reflexivity.
Defined.

(** C9, as stated, fails: the empty buffer is decoded, by both decoders,
    to a result with empty fields; nothing is raised. *)
Lemma empty_buffer_decodes :
  decode_b0_message PagedMessageManager_init [] =
    (PagedMessageManager_init,
     Ok (IsRequest
           {| B0Request.type := "ADD"; B0Request.command := "";
              B0Request.cmd_name := "UNKNOWN"; B0Request.length := -4;
              B0Request.data := B0Request.OneChunk empty_chunk;
              B0Request.checksum := ""; B0Request.verified := false |}))
  /\ decode_standard_message [] =
       {| STD.command := ""; STD.command_str := "UNKNOWN"; STD.data := "";
          STD.checksum := ""; STD.verified := false |}.
Proof. split; reflexivity. Qed.

(** C9, amended: a buffer of fewer than three bytes, too short to hold
    the message-type byte, is not rejected.  The fields past its end read
    as empty strings and zero, so it decodes as an ADD request with an
    empty command, length -4, an empty chunk and verified = false. *)
Theorem short_buffer_decodes (self : PagedMessageManager) (msg : bytes) :
  (List.length msg < 3)%nat ->
  decode_b0_message self msg =
    (self,
     Ok (IsRequest
           {| B0Request.type := "ADD"; B0Request.command := "";
              B0Request.cmd_name := "UNKNOWN"; B0Request.length := -4;
              B0Request.data := B0Request.OneChunk empty_chunk;
              B0Request.checksum := hex (slice msg (-2) (-1));
              B0Request.verified := false |})).
Proof.
  intros H.
  destruct msg as [|a [|b [|c l]]]; [reflexivity| | |cbn [List.length] in H; lia].
  - unfold decode_b0_message. cbn.
    rewrite validate_without_end_data by reflexivity. reflexivity.
  - unfold decode_b0_message. cbn.
    rewrite validate_without_end_data by reflexivity. reflexivity.
Qed.

Lemma short_buffer_decodes_witness :
  decode_b0_message PagedMessageManager_init [x0d; xb0] =
    (PagedMessageManager_init,
     Ok (IsRequest
           {| B0Request.type := "ADD"; B0Request.command := "";
              B0Request.cmd_name := "UNKNOWN"; B0Request.length := -4;
              B0Request.data := B0Request.OneChunk empty_chunk;
              B0Request.checksum := "0d";
              B0Request.verified := false |})).
Proof.
  apply (short_buffer_decodes PagedMessageManager_init [x0d; xb0]).
  cbn [List.length]. lia.
Defined.

(** ** Pages numbered ff *)

(** Once a page of the command is stored, the highest page cannot be
    computed: [int] is handed a list. *)
Lemma get_highest_page_with_stored_page (self : PagedMessageManager) (command : string)
  (page_no : Z) (m : Response.B0StructuredResponseMessage) :
  In ((command, page_no), m) (pages self) ->
  get_highest_page_for_command self command = Raise TypeError.
Proof.
  intros H. unfold get_highest_page_for_command.
  assert (Hin : In ((command, page_no), m)
                  (filter (fun p => String.eqb (fst (fst p)) command) (pages self))).
  { apply filter_In. split; [exact H|]. apply String.eqb_refl. }
  cbv zeta.
  match goal with
  | |- context [filter ?f ?l] => destruct (filter f l); [destruct Hin | reflexivity]
  end.
Qed.

Lemma get_highest_page_without_pages (self : PagedMessageManager) (command : string) :
  pages self = [] -> get_highest_page_for_command self command = Ok 0.
Proof. intros H. unfold get_highest_page_for_command. rewrite H. reflexivity. Qed.

(** C4 on the code: the first page of command 1f with page byte ff is
    stored under page 1 and answered; the second one raises [TypeError]
    in [get_highest_page_for_command] and is not stored. *)
Theorem page_ff_second_page_raises :
  let first := decode_b0_message PagedMessageManager_init frame_1f_page in
  map fst (pages (fst first)) = [("1f", 1)]
  /\ (exists r, snd first = Ok (IsResponse r) /\ B0Response.verified r = true)
  /\ decode_b0_message (fst first) frame_1f_page = (fst first, Raise TypeError).
Proof.
  cbv zeta. split; [reflexivity|]. split; [|reflexivity].
  eexists. split; reflexivity.
Qed.

(** ** The generic decoder *)

(** C5 on the code: command 11 has no decoder of its own, and the generic
    decoder raises [ValueError] on a data type outside [DataTypes] and on
    an index outside [IndexName]. *)
Theorem generic_decoder_raises_on_unknown_code :
  specific_data_decoder "11" = None
  /\ decode_b0_message PagedMessageManager_init frame_zones11_type2
     = (PagedMessageManager_init, Raise ValueError)
  /\ decode_b0_message PagedMessageManager_init frame_zones11_index21
     = (PagedMessageManager_init, Raise ValueError).
Proof. repeat split. Qed.

Lemma mapM_elem_hex_sep (data : list bytes) :
  mapM elem_hex_sep (map EBytes data) = Ok (map hex_sep data).
Proof.
  induction data as [|d data IH]; [reflexivity|].
  cbn [map mapM elem_hex_sep bind]. rewrite IH. reflexivity.
Qed.

(** With a data type in [DataTypes] and an index in [IndexName] the
    generic entry is produced. *)
Lemma gen_chunk_known (chunk : B0DataChunk) (data : list bytes) (type_name idx_name : string) :
  Chunk.data chunk = Chunk.Elems (map EBytes data) ->
  DataTypes (Chunk.data_type chunk) = Some type_name ->
  IndexName (Chunk.index chunk) = Some idx_name ->
  gen_chunk chunk =
    Ok (VDict [(KStr "type", VStr type_name);
               (KStr "idx", VInt (Chunk.index chunk));
               (KStr "idx_name", VStr idx_name);
               (KStr "len", VInt (Chunk.length chunk));
               (KStr "data", VList (map VStr (map hex_sep data)))]).
Proof.
  intros Hd Ht Hi. unfold gen_chunk, enum_name.
  rewrite Hd, mapM_elem_hex_sep, Ht, Hi. reflexivity.
Qed.

(** ** Zone temperatures *)

Lemma dict_get_app {V : Type} (d1 d2 : list (key * V)) (k : key) :
  dict_get key_eqb (d1 ++ d2) k =
    match dict_get key_eqb d1 k with
    | Some v => Some v
    | None => dict_get key_eqb d2 k
    end.
Proof.
  induction d1 as [|[k' v'] d1 IH]; [reflexivity|].
  cbn [app dict_get]. destruct (key_eqb k' k); [reflexivity | exact IH].
Qed.

Lemma dict_set_fresh {V : Type} (d : list (key * V)) (k : key) (v : V) :
  dict_get key_eqb d k = None -> dict_set key_eqb d k v = (d ++ [(k, v)])%list.
Proof.
  induction d as [|[k' v'] d IH]; [reflexivity|].
  cbn [dict_get dict_set app]. destruct (key_eqb k' k); [discriminate|].
  intros H. rewrite IH by exact H. reflexivity.
Qed.


Lemma elem_neq_ff_byte (b : byte) :
  elem_neq_ff (EBytes [b]) = if Byte.byte_eq_dec b xff then false else true.
Proof.
  unfold elem_neq_ff.
  destruct (list_eq_dec Byte.byte_eq_dec [b] [xff]) as [E|E];
    destruct (Byte.byte_eq_dec b xff) as [E'|E']; try reflexivity.
  - injection E as E. contradiction.
  - subst b. contradiction.
Qed.





(** The third example scenario, from the frame: byte 00 for zone 1 and
    ff for zone 2 decode to the single entry 1: -40.5. *)
Lemma zone_temperature_example :
  exists r t,
    snd (decode_b0_message PagedMessageManager_init frame_zone_temps) = Ok (IsResponse r)
    /\ B0Response.data r =
         B0Response.Decoded
           (B0DecodedData (VDict [(KStr "ZONES", VDict [(KInt 1, VFloat t)])]))
    /\ (t == - (81 # 2))%Q.
Proof. do 2 eexists. repeat split. Qed.

(** ** Lookups beyond a table *)


(** From the 22nd element on, the failed lookup in [IndexName] is a
    [ValueError], which the [KeyError] handler lets through. *)
Lemma capability_loop_beyond_table (els : list bytes) :
  (22 <= List.length els)%nat ->
  capability_loop [] 0 (map EBytes els) = Raise ValueError.
Proof.
  intros H.
  do 22 (destruct els as [|? els]; [cbn [List.length] in H; lia|]).
  reflexivity.
Qed.

Lemma b0_22_beyond_table
  (message : Response.B0StructuredResponseMessage) (chunk : B0DataChunk)
  (rest : list B0DataChunk) (els : list bytes) :
  Response.data message = chunk :: rest ->
  Chunk.data chunk = Chunk.Elems (map EBytes els) ->
  (22 <= List.length els)%nat ->
  b0_22_data_decoder message = Raise ValueError.
Proof.
  intros Hd Hc H. unfold b0_22_data_decoder. rewrite Hd. cbn [item nth_error bind].
  rewrite Hc. cbn [elems_of]. rewrite capability_loop_beyond_table by exact H.
  reflexivity.
Qed.







(** A device type outside [IndexName] is labelled "UNKNOWN". *)
Lemma get_lookup_value_unknown {V : Type} (lookup_enum : enum V) (value : V) :
  lookup_enum value = None -> get_lookup_value lookup_enum value = "UNKNOWN".
Proof. intros H. unfold get_lookup_value, enum_name. rewrite H. reflexivity. Qed.




(** ** Reassembly *)


Lemma place_chunks_app (acc a b : list B0DataChunk) :
  place_chunks acc (a ++ b) = (acc' <- place_chunks acc a ;; place_chunks acc' b).
Proof.
  revert acc. induction a as [|c a IH]; intros acc; [reflexivity|].
  cbn [app place_chunks]. destruct (place_chunk acc c) as [acc'|e].
  - cbn [bind]. apply IH.
  - reflexivity.
Qed.

Lemma rebuild_from_all {K : Type} (acc : list B0DataChunk)
  (messages : list (K * Response.B0StructuredResponseMessage)) :
  rebuild_from acc messages = place_chunks acc (all_chunks messages).
Proof.
  revert acc. induction messages as [|[k m] messages IH]; intros acc; [reflexivity|].
  cbn [rebuild_from all_chunks flat_map snd]. rewrite place_chunks_app.
  destruct (place_chunks acc (Response.data m)) as [acc'|e].
  - cbn [bind]. apply IH.
  - reflexivity.
Qed.

Lemma first_of_each_index_snoc (seen : list Z) (done : list B0DataChunk) (c : B0DataChunk) :
  first_of_each_index seen (done ++ [c]) =
    (first_of_each_index seen done
     ++ (if existsb (Z.eqb (Chunk.index c)) seen || existsb (same_index (Chunk.index c)) done
         then [] else [c]))%list.
Proof.
  revert seen. induction done as [|d done IH]; intros seen.
  - cbn. rewrite orb_false_r. destruct (existsb _ seen); reflexivity.
  - cbn [app first_of_each_index existsb].
    destruct (existsb (Z.eqb (Chunk.index d)) seen) eqn:E.
    + rewrite IH. f_equal.
      destruct (existsb (Z.eqb (Chunk.index c)) seen) eqn:E'; [reflexivity|].
      cbn [orb]. unfold same_index at 2.
      destruct (Z.eqb_spec (Chunk.index d) (Chunk.index c)) as [e|e]; [|reflexivity].
      rewrite e in E. congruence.
    + cbn [app]. rewrite IH. f_equal. f_equal. cbn [existsb].
      unfold same_index at 2. rewrite (Z.eqb_sym (Chunk.index c)).
      destruct (Chunk.index d =? Chunk.index c); cbn [orb].
      * rewrite orb_true_r. reflexivity.
      * reflexivity.
Qed.

Lemma have_partial_merged (all fs : list B0DataChunk) (c : B0DataChunk) :
  have_partial_chunk (map (merged_chunk all) fs) c = existsb (same_index (Chunk.index c)) fs.
Proof.
  unfold have_partial_chunk. induction fs as [|f fs IH]; [reflexivity|].
  cbn [map existsb]. rewrite IH. reflexivity.
Qed.

Lemma existsb_first_of_each_index (seen : list Z) (cs : list B0DataChunk) (i : Z) :
  existsb (Z.eqb i) seen || existsb (same_index i) (first_of_each_index seen cs)
  = existsb (Z.eqb i) seen || existsb (same_index i) cs.
Proof.
  revert seen. induction cs as [|c cs IH]; intros seen; [reflexivity|].
  cbn [first_of_each_index existsb].
  destruct (existsb (Z.eqb (Chunk.index c)) seen) eqn:E.
  - rewrite IH. unfold same_index at 2.
    destruct (Z.eqb_spec (Chunk.index c) i) as [e|e]; [|reflexivity].
    rewrite e in E. rewrite E. reflexivity.
  - cbn [existsb]. specialize (IH (Chunk.index c :: seen)). cbn [existsb] in IH.
    unfold same_index at 1 3. rewrite (Z.eqb_sym i) in IH.
    destruct (Chunk.index c =? i); cbn [orb] in *.
    + rewrite !orb_true_r. reflexivity.
    + exact IH.
Qed.

Lemma filter_snoc_same (i : Z) (done : list B0DataChunk) (c : B0DataChunk) :
  filter (same_index i) (done ++ [c]) =
    (filter (same_index i) done ++ (if Chunk.index c =? i then [c] else []))%list.
Proof.
  rewrite filter_app. cbn [filter]. unfold same_index at 2.
  destruct (Chunk.index c =? i); reflexivity.
Qed.

Lemma merged_chunk_other (done : list B0DataChunk) (c f : B0DataChunk) :
  (Chunk.index c =? Chunk.index f) = false ->
  merged_chunk (done ++ [c]) f = merged_chunk done f.
Proof.
  intros H. unfold merged_chunk. cbv zeta. rewrite filter_snoc_same, H, app_nil_r.
  reflexivity.
Qed.

Lemma merged_chunk_extend (done : list B0DataChunk) (c f : B0DataChunk)
  (lc : list elem) (hc : list string) :
  (Chunk.index c =? Chunk.index f) = true ->
  Chunk.data c = Chunk.Elems lc -> Chunk.hex c = Chunk.HexList hc ->
  merged_chunk (done ++ [c]) f =
    {| Chunk.data_type := Chunk.data_type (merged_chunk done f);
       Chunk.index := Chunk.index (merged_chunk done f);
       Chunk.length := Chunk.length (merged_chunk done f) + Chunk.length c;
       Chunk.data := Chunk.Elems (flat_map chunk_elems
                                    (filter (same_index (Chunk.index f)) done) ++ lc);
       Chunk.hex := Chunk.HexList (flat_map chunk_hexes
                                     (filter (same_index (Chunk.index f)) done) ++ hc);
       Chunk.b042 := Chunk.b042 (merged_chunk done f) |}.
Proof.
  intros H Hd Hh. unfold merged_chunk. cbv zeta. rewrite filter_snoc_same, H.
  rewrite map_app, fold_left_app, !flat_map_app. cbn [map fold_left flat_map].
  unfold chunk_elems at 2, chunk_hexes at 2. rewrite Hd, Hh, !app_nil_r.
  reflexivity.
Qed.

Lemma add_chunk_merged (done fs : list B0DataChunk) (c : B0DataChunk) :
  is_list_chunk c = true ->
  add_chunk_data_to_exisitng_chunk (map (merged_chunk done) fs) c
  = Ok (map (merged_chunk (done ++ [c])) fs).
Proof.
  intros Hc. unfold is_list_chunk in Hc.
  destruct (Chunk.data c) as [|lc] eqn:Hd; [discriminate|].
  destruct (Chunk.hex c) as [|hc] eqn:Hh; [discriminate|].
  induction fs as [|f fs IH]; [reflexivity|].
  cbn [map add_chunk_data_to_exisitng_chunk]. rewrite IH.
  change (Chunk.index (merged_chunk done f)) with (Chunk.index f).
  rewrite (Z.eqb_sym (Chunk.index f)).
  destruct (Chunk.index c =? Chunk.index f) eqn:E.
  - rewrite Hd, Hh. cbn [Chunk.data Chunk.hex merged_chunk data_extend hex_extend bind].
    rewrite (merged_chunk_extend done c f lc hc E Hd Hh). reflexivity.
  - cbn [bind]. rewrite (merged_chunk_other done c f E). reflexivity.
Qed.

Lemma merged_chunk_self (done : list B0DataChunk) (c : B0DataChunk) :
  is_list_chunk c = true ->
  existsb (same_index (Chunk.index c)) done = false ->
  merged_chunk (done ++ [c]) c = c.
Proof.
  intros Hc Hn. unfold merged_chunk. cbv zeta.
  rewrite filter_snoc_same, Z.eqb_refl.
  assert (E : filter (same_index (Chunk.index c)) done = []).
  { induction done as [|d done IH]; [reflexivity|].
    cbn [existsb] in Hn. apply orb_false_iff in Hn. destruct Hn as [H1 H2].
    cbn [filter]. rewrite H1. apply IH, H2. }
  rewrite E. cbn [app map fold_left flat_map].
  unfold is_list_chunk in Hc. unfold chunk_elems, chunk_hexes.
  destruct c as [dt ix ln d h x]. cbn in *.
  destruct d; [discriminate|]. destruct h; [discriminate|].
  rewrite !app_nil_r. reflexivity.
Qed.

Lemma map_merged_absent (done fs : list B0DataChunk) (c : B0DataChunk) :
  existsb (same_index (Chunk.index c)) fs = false ->
  map (merged_chunk (done ++ [c])) fs = map (merged_chunk done) fs.
Proof.
  induction fs as [|f fs IH]; intros H; [reflexivity|].
  cbn [existsb] in H. apply orb_false_iff in H. destruct H as [H1 H2].
  cbn [map]. rewrite (IH H2). f_equal. apply merged_chunk_other.
  unfold same_index in H1. rewrite Z.eqb_sym. exact H1.
Qed.

Lemma place_chunk_merged (done : list B0DataChunk) (c : B0DataChunk) :
  is_list_chunk c = true ->
  place_chunk (merge_by_index done) c = Ok (merge_by_index (done ++ [c])).
Proof.
  intros Hc. unfold place_chunk, merge_by_index.
  rewrite have_partial_merged, first_of_each_index_snoc. cbn [existsb orb].
  pose proof (existsb_first_of_each_index [] done (Chunk.index c)) as E.
  cbn [existsb orb] in E. rewrite E.
  destruct (existsb (same_index (Chunk.index c)) done) eqn:P.
  - rewrite app_nil_r. apply add_chunk_merged, Hc.
  - rewrite map_app. cbn [map]. rewrite (merged_chunk_self done c Hc P).
    rewrite map_merged_absent by (rewrite E; reflexivity). reflexivity.
Qed.

Lemma place_chunks_merged (todo done : list B0DataChunk) :
  forallb is_list_chunk todo = true ->
  place_chunks (merge_by_index done) todo = Ok (merge_by_index (done ++ todo)).
Proof.
  revert done. induction todo as [|c todo IH]; intros done H.
  - rewrite app_nil_r. reflexivity.
  - cbn [forallb] in H. apply andb_true_iff in H. destruct H as [Hc Ht].
    cbn [place_chunks]. rewrite (place_chunk_merged done c Hc). cbn [bind].
    rewrite (IH (done ++ [c])%list Ht), <- app_assoc. reflexivity.
Qed.

Lemma first_of_each_index_incl (seen : list Z) (cs : list B0DataChunk) (f : B0DataChunk) :
  In f (first_of_each_index seen cs) -> In f cs.
Proof.
  revert seen. induction cs as [|c cs IH]; intros seen H; [exact H|].
  cbn [first_of_each_index] in H.
  destruct (existsb (Z.eqb (Chunk.index c)) seen).
  - right. exact (IH _ H).
  - destruct H as [H|H]; [left; exact H | right; exact (IH _ H)].
Qed.








(** The three pages of [paged_example] merged: index 3 collects the
    words of all pages, index 5 passes through. *)
Lemma paged_example_merged :
  rebuild_paged_data_chunks paged_example =
    Ok [list_chunk 16 3 [[xa1; xa2]; [xa3; xa4]; [xa5; xa6]];
        list_chunk 8 5 [[x01]; [x02]]].
Proof. reflexivity. Qed.


(** Two pages in the layout taken when byte 6 is zero hold flat chunks
    under index 255; merging them stops at [hex.extend] on a string. *)
Lemma flat_chunks_do_not_merge :
  snd (decode_b0_message
         (fst (decode_b0_message PagedMessageManager_init frame_flat_page_1))
         frame_flat_final)
  = Raise AttributeError.
Proof. reflexivity. Qed.

(** ** The checksum as a sum modulo 255 *)

Lemma byte_sum_from (msg : bytes) (acc : Z) :
  fold_left (fun checksum char => checksum + b2z char) msg acc = acc + byte_sum msg.
Proof.
  unfold byte_sum. revert acc. induction msg as [|b msg IH]; intros acc; cbn [fold_left].
  - lia.
  - rewrite IH, (IH (0 + b2z b)). lia.
Qed.

Lemma byte_sum_cons (b : byte) (msg : bytes) : byte_sum (b :: msg) = b2z b + byte_sum msg.
Proof. unfold byte_sum at 1. cbn [fold_left]. rewrite byte_sum_from. lia. Qed.

Lemma byte_sum_app (a b : bytes) : byte_sum (a ++ b)%list = byte_sum a + byte_sum b.
Proof.
  induction a as [|x a IH]; [reflexivity|].
  cbn [app]. rewrite !byte_sum_cons, IH. lia.
Qed.

Lemma b2z_range (b : byte) : 0 <= b2z b < 256.
Proof. unfold b2z. pose proof (Byte.to_N_bounded b). lia. Qed.

Lemma byte_sum_nonneg (msg : bytes) : 0 <= byte_sum msg.
Proof.
  induction msg as [|b msg IH]; [reflexivity|].
  rewrite byte_sum_cons. pose proof (b2z_range b). lia.
Qed.

Lemma checksum_value_sum (msg : bytes) :
  checksum_value msg = (255 - byte_sum msg mod 255) mod 255.
Proof.
  unfold checksum_value. fold (byte_sum msg).
  pose proof (Z.mod_pos_bound (byte_sum msg) 255 ltac:(lia)) as B.
  destruct (Z.eqb_spec (255 - byte_sum msg mod 255) 255) as [E|E].
  - rewrite E. reflexivity.
  - rewrite (Z.mod_small (255 - byte_sum msg mod 255)) by lia. reflexivity.
Qed.

Lemma byte_of_Z_inj (x y : Z) :
  0 <= x < 256 -> 0 <= y < 256 -> byte_of_Z x = byte_of_Z y -> x = y.
Proof.
  intros Hx Hy H. apply (f_equal b2z) in H.
  rewrite !b2z_byte_of_Z in H by assumption. exact H.
Qed.

(** The checksum byte completes the sum of the bytes to a multiple of
    255, and is never 0xFF. *)
Theorem checksum_complements_sum (msg : bytes) :
  exists c, calculate_message_checksum msg = [c]
            /\ 0 <= b2z c <= 254
            /\ (byte_sum msg + b2z c) mod 255 = 0.
Proof.
  exists (byte_of_Z (checksum_value msg)).
  pose proof (checksum_value_range msg) as R.
  rewrite b2z_byte_of_Z by lia.
  split; [reflexivity|]. split; [lia|].
  rewrite checksum_value_sum.
  rewrite Z.add_mod_idemp_r by lia.
  rewrite <- Z.add_mod_idemp_l by lia.
  replace (byte_sum msg mod 255 + (255 - byte_sum msg mod 255)) with (1 * 255) by lia.
  apply Z.mod_mul. lia.
Qed.

Lemma checksum_value_equal_iff_sum (a b : bytes) :
  checksum_value a = checksum_value b
  <-> byte_sum a mod 255 = byte_sum b mod 255.
Proof.
  pose proof (Z.mod_pos_bound (byte_sum a) 255 ltac:(lia)) as Ba.
  pose proof (Z.mod_pos_bound (byte_sum b) 255 ltac:(lia)) as Bb.
  rewrite !checksum_value_sum. split.
  - intros H.
    assert (F : forall m, 0 <= m < 255 ->
                (255 - m) mod 255 = if m =? 0 then 0 else 255 - m).
    { intros m Hm. destruct (Z.eqb_spec m 0) as [->|N]; [reflexivity|].
      apply Z.mod_small. lia. }
    rewrite !F in H by assumption.
    destruct (Z.eqb_spec (byte_sum a mod 255) 0);
      destruct (Z.eqb_spec (byte_sum b mod 255) 0); lia.
  - intros H. rewrite H. reflexivity.
Qed.

(** Two byte strings have the same checksum exactly when their byte
    sums agree modulo 255. *)
Theorem checksum_collision_iff (a b : bytes) :
  calculate_message_checksum a = calculate_message_checksum b
  <-> byte_sum a mod 255 = byte_sum b mod 255.
Proof.
  unfold calculate_message_checksum.
  pose proof (checksum_value_range a) as Ra.
  pose proof (checksum_value_range b) as Rb.
  rewrite <- checksum_value_equal_iff_sum. split.
  - intros H. injection H as H. apply byte_of_Z_inj in H; [exact H | lia | lia].
  - intros H. rewrite H. reflexivity.
Qed.

Lemma byte_sum_perm (a b : bytes) : Permutation a b -> byte_sum a = byte_sum b.
Proof.
  induction 1 as [|x l l' _ IH|x y l|l l' l'' _ IH1 _ IH2].
  - reflexivity.
  - rewrite !byte_sum_cons, IH. reflexivity.
  - rewrite !byte_sum_cons. lia.
  - congruence.
Qed.

(** The checksum does not see the order of the bytes. *)
Theorem checksum_permutation (a b : bytes) :
  Permutation a b -> calculate_message_checksum a = calculate_message_checksum b.
Proof.
  intros H. unfold calculate_message_checksum. f_equal. f_equal.
  apply checksum_value_equal_iff_sum. rewrite (byte_sum_perm a b H). reflexivity.
Qed.

Lemma checksum_permutation_witness :
  calculate_message_checksum [xb0; x03; x11] = calculate_message_checksum [x11; xb0; x03].
Proof.
  apply (checksum_permutation [xb0; x03; x11] [x11; xb0; x03]).
  apply (perm_trans (l' := [xb0; x11; x03])).
  - apply perm_skip. apply perm_swap.
  - apply perm_swap.
Defined.

(** A byte 0x00 or 0xFF added anywhere leaves the checksum as it was. *)
Theorem checksum_ignores_00_and_ff (pre post : bytes) :
  calculate_message_checksum (pre ++ x00 :: post)%list
    = calculate_message_checksum (pre ++ post)%list
  /\ calculate_message_checksum (pre ++ xff :: post)%list
       = calculate_message_checksum (pre ++ post)%list.
Proof.
  unfold calculate_message_checksum.
  split; f_equal; f_equal; apply checksum_value_equal_iff_sum;
    rewrite !byte_sum_app, byte_sum_cons.
  - change (b2z x00) with 0. f_equal; lia.
  - change (b2z xff) with 255.
    replace (byte_sum pre + (255 + byte_sum post))
      with (byte_sum pre + byte_sum post + 1 * 255) by lia.
    apply Z.mod_add. lia.
Qed.

(** ** Integers and bytes *)

Lemma byte_of_Z_b2z (b : byte) : byte_of_Z (b2z b) = b.
Proof.
  unfold byte_of_Z, b2z. rewrite N2Z.id, Byte.of_to_N. reflexivity.
Qed.

Lemma from_bytes_big_from (data : bytes) (acc : Z) :
  fold_left (fun acc b => acc * 256 + b2z b) data acc
  = acc * 256 ^ len data + from_bytes_big data.
Proof.
  unfold from_bytes_big, len. revert acc.
  induction data as [|b data IH]; intros acc.
  - cbn. lia.
  - cbn [fold_left List.length]. rewrite IH, (IH (0 * 256 + b2z b)).
    rewrite Nat2Z.inj_succ, Z.pow_succ_r by lia. lia.
Qed.

Lemma from_bytes_big_cons (b : byte) (data : bytes) :
  from_bytes_big (b :: data) = b2z b * 256 ^ len data + from_bytes_big data.
Proof.
  unfold from_bytes_big at 1. cbn [fold_left]. rewrite from_bytes_big_from. lia.
Qed.

Lemma from_bytes_big_snoc (data : bytes) (b : byte) :
  from_bytes_big (data ++ [b])%list = from_bytes_big data * 256 + b2z b.
Proof. unfold from_bytes_big. rewrite fold_left_app. reflexivity. Qed.

Lemma from_bytes_big_bound (data : bytes) : 0 <= from_bytes_big data < 256 ^ len data.
Proof.
  induction data as [|b data IH].
  - cbn. lia.
  - rewrite from_bytes_big_cons. pose proof (b2z_range b).
    unfold len in *. cbn [List.length]. rewrite Nat2Z.inj_succ, Z.pow_succ_r by lia.
    nia.
Qed.

Lemma len_rev {A : Type} (l : list A) : len (rev l) = len l.
Proof. unfold len. rewrite length_rev. reflexivity. Qed.

(** Big-endian puts the first byte at the highest place, little-endian
    at the lowest; either way the value fits the number of bytes. *)
Theorem b2i_endianness (b : byte) (rest : bytes) (big_endian : bool) :
  b2i (b :: rest) true = b2z b * 256 ^ len rest + b2i rest true
  /\ b2i (b :: rest) false = b2z b + 256 * b2i rest false
  /\ b2i (rev (b :: rest)) false = b2i (b :: rest) true
  /\ 0 <= b2i (b :: rest) big_endian < 256 ^ len (b :: rest).
Proof.
  unfold b2i. repeat split.
  - apply from_bytes_big_cons.
  - cbn [rev]. rewrite from_bytes_big_snoc. lia.
  - rewrite rev_involutive. reflexivity.
  - destruct big_endian; apply from_bytes_big_bound.
  - destruct big_endian; [apply from_bytes_big_bound|].
    rewrite <- (len_rev (b :: rest)). apply from_bytes_big_bound.
Qed.

Lemma to_bytes_big_length (size : nat) (number : Z) :
  List.length (to_bytes_big size number) = size.
Proof.
  revert number. induction size as [|size IH]; intros number; [reflexivity|].
  cbn [to_bytes_big]. rewrite length_app, IH. cbn [List.length]. lia.
Qed.

Lemma from_to_bytes_big (size : nat) (number : Z) :
  0 <= number < 256 ^ Z.of_nat size ->
  from_bytes_big (to_bytes_big size number) = number.
Proof.
  revert number. induction size as [|size IH]; intros number H.
  - cbn in *. lia.
  - cbn [to_bytes_big]. rewrite from_bytes_big_snoc.
    rewrite Nat2Z.inj_succ, Z.pow_succ_r in H by lia.
    rewrite IH.
    + rewrite b2z_byte_of_Z by (apply Z.mod_pos_bound; lia).
      pose proof (Z.div_mod number 256 ltac:(lia)). lia.
    + split; [apply Z.div_pos; lia|]. apply Z.div_lt_upper_bound; lia.
Qed.

Lemma to_from_bytes_big (data : bytes) :
  to_bytes_big (List.length data) (from_bytes_big data) = data.
Proof.
  induction data as [|b data IH] using rev_ind; [reflexivity|].
  rewrite length_app. cbn [List.length].
  replace (List.length data + 1)%nat with (S (List.length data)) by lia.
  cbn [to_bytes_big]. rewrite from_bytes_big_snoc.
  pose proof (b2z_range b).
  rewrite Z.div_add_l, Z.div_small, Z.add_0_r by lia.
  rewrite Z.add_comm, Z.mod_add, Z.mod_small by lia.
  rewrite IH, byte_of_Z_b2z. reflexivity.
Qed.

(** Reading bytes big-endian and writing the number back on as many
    bytes gives the bytes. *)
Theorem i2b_b2i (data : bytes) : i2b (b2i data true) (len data) = Converted data.
Proof.
  unfold i2b, b2i. pose proof (from_bytes_big_bound data) as B.
  destruct (Z.ltb_spec (len data) 0) as [L|L]; [unfold len in L; lia|].
  destruct (Z.ltb_spec (from_bytes_big data) 0); [lia|].
  destruct (Z.leb_spec (256 ^ len data) (from_bytes_big data)); [lia|].
  cbn [orb]. unfold len. rewrite Nat2Z.id, to_from_bytes_big. reflexivity.
Qed.

(** A number that fits [size] bytes is written on exactly [size] bytes
    that read back as the number; no other number is written. *)
Theorem b2i_i2b (number size : Z) :
  0 <= size ->
  (0 <= number < 256 ^ size ->
   exists b, i2b number size = Converted b /\ len b = size /\ b2i b true = number)
  /\ (~ (0 <= number < 256 ^ size) -> i2b number size = OverflowError).
Proof.
  intros Hs. unfold i2b.
  destruct (Z.ltb_spec size 0) as [L|L]; [lia|].
  destruct (Z.ltb_spec number 0) as [N|N];
    destruct (Z.leb_spec (256 ^ size) number) as [G|G]; cbn [orb];
    (split; [intros R; try lia | intros R; try reflexivity; try lia]).
  eexists. split; [reflexivity|]. split.
  - unfold len. rewrite to_bytes_big_length. lia.
  - unfold b2i. apply from_to_bytes_big. rewrite Z2Nat.id by lia. lia.
Qed.

Lemma b2i_i2b_witness :
  (0 <= 513 < 256 ^ 2 ->
   exists b, i2b 513 2 = Converted b /\ len b = 2 /\ b2i b true = 513)
  /\ (~ (0 <= 513 < 256 ^ 2) -> i2b 513 2 = OverflowError).
Proof. apply (b2i_i2b 513 2). lia. Defined.

(** On at most four bytes, as the decoders pass them, the timestamp is
    the bytes read little-endian, a number of seconds below 2^32 that
    [datetime.fromtimestamp] accepts; with no byte at all [reduce]
    raises. *)
Theorem decode_hex_timestamp_little_endian (data : bytes) :
  len data <= 4 ->
  match data with
  | [] => decode_hex_timestamp data = Raise TypeError
  | _ => decode_hex_timestamp data = Ok (b2i data false)
         /\ 0 <= b2i data false < 2 ^ 32
  end.
Proof.
  intros Hlen. destruct data as [|b data]; [reflexivity|]. split.
  - unfold decode_hex_timestamp, b2i, from_bytes_big.
    destruct (rev (b :: data)) as [|x ts] eqn:E.
    + apply (f_equal (@List.length byte)) in E. rewrite length_rev in E. discriminate.
    + cbn [fold_left]. reflexivity.
  - unfold b2i. pose proof (from_bytes_big_bound (rev (b :: data))) as B.
    rewrite len_rev in B.
    assert (P : 256 ^ len (b :: data) <= 256 ^ 4)
      by (apply Z.pow_le_mono_r; [lia | exact Hlen]).
    change (2 ^ 32) with (256 ^ 4). lia.
Qed.

Lemma decode_hex_timestamp_little_endian_witness :
  decode_hex_timestamp [x73; xf2; x97; x66] = Ok 1721234035
  /\ 0 <= 1721234035 < 2 ^ 32.
Proof. apply (decode_hex_timestamp_little_endian [x73; xf2; x97; x66]). cbn. lia. Defined.

(** ** Chunking *)

Lemma chunk_fuel_concat {A : Type} (fuel size : nat) (data : list A) :
  (0 < size)%nat -> (List.length data <= fuel)%nat ->
  List.concat (chunk_fuel fuel size data) = data.
Proof.
  intros Hs. revert data. induction fuel as [|fuel IH]; intros data H.
  - destruct data; [reflexivity | cbn [List.length] in H; lia].
  - cbn [chunk_fuel]. destruct data as [|a data]; [reflexivity|].
    cbn [List.concat]. rewrite IH.
    + apply firstn_skipn.
    + rewrite length_skipn. cbn [List.length] in *. lia.
Qed.

Lemma chunk_fuel_sizes {A : Type} (fuel size : nat) (data : list A) :
  (0 < size)%nat -> (List.length data <= fuel)%nat ->
  Forall (fun c => (0 < List.length c <= size)%nat) (chunk_fuel fuel size data).
Proof.
  intros Hs. revert data. induction fuel as [|fuel IH]; intros data H.
  - constructor.
  - cbn [chunk_fuel]. destruct data as [|a data]; [constructor|].
    constructor.
    + rewrite length_firstn. cbn [List.length]. lia.
    + apply IH. rewrite length_skipn. cbn [List.length] in *. lia.
Qed.

(** Every chunk but the last is full. *)
Lemma chunk_fuel_full {A : Type} (fuel size : nat) (data : list A) (i : nat) :
  (0 < size)%nat -> (List.length data <= fuel)%nat ->
  (S i < List.length (chunk_fuel fuel size data))%nat ->
  List.length (nth i (chunk_fuel fuel size data) []) = size.
Proof.
  intros Hs. revert data i. induction fuel as [|fuel IH]; intros data i H Hi.
  - cbn in Hi. lia.
  - cbn [chunk_fuel] in *. destruct data as [|a data]; [cbn in Hi; lia|].
    cbn [List.length] in Hi.
    assert (Hk : (List.length (skipn size (a :: data)) <= fuel)%nat).
    { rewrite length_skipn. cbn [List.length] in *. lia. }
    destruct i as [|i].
    + cbn [nth]. rewrite length_firstn.
      destruct (Nat.le_gt_cases size (List.length (a :: data))) as [L|L]; [lia|].
      exfalso. rewrite skipn_all2 in Hi by lia.
      destruct fuel; cbn in Hi; lia.
    + cbn [nth]. apply IH; [exact Hk | lia].
Qed.

Lemma chunk_fuel_count {A : Type} (fuel size : nat) (data : list A) :
  (0 < size)%nat -> (List.length data <= fuel)%nat ->
  Z.of_nat (List.length (chunk_fuel fuel size data))
  = (Z.of_nat (List.length data) + Z.of_nat size - 1) / Z.of_nat size.
Proof.
  intros Hs. revert data. induction fuel as [|fuel IH]; intros data H.
  - destruct data; [|cbn [List.length] in H; lia]. cbn [chunk_fuel List.length].
    symmetry. apply Z.div_small. lia.
  - cbn [chunk_fuel]. destruct data as [|a data].
    + cbn [List.length]. symmetry. apply Z.div_small. lia.
    + cbn [List.length]. rewrite Nat2Z.inj_succ, IH
        by (rewrite length_skipn; cbn [List.length] in *; lia).
      rewrite length_skipn. cbn [List.length].
      destruct (Nat.le_gt_cases size (S (List.length data))) as [L|L].
      * replace (Z.of_nat (S (List.length data)) + Z.of_nat size - 1)
          with (Z.of_nat (S (List.length data) - size) + Z.of_nat size - 1
                + 1 * Z.of_nat size) by lia.
        rewrite Z.div_add by lia. lia.
      * replace (S (List.length data) - size)%nat with 0%nat by lia.
        rewrite (Z.div_small (Z.of_nat 0 + _ - 1)) by lia.
        replace (Z.of_nat (S (List.length data)) + Z.of_nat size - 1)
          with (Z.of_nat (List.length data) + 1 * Z.of_nat size) by lia.
        rewrite Z.div_add by lia. rewrite Z.div_small by lia. lia.
Qed.

(** [chunk_bytearray] with a positive size loses nothing: the chunks
    concatenate to the data, none is empty or longer than the size, all
    but the last are full, and there are ceil(len / size) of them. *)
Theorem chunk_bytearray_partition {A : Type} (data : list A) (size : Z) :
  0 < size ->
  exists chunks,
    chunk_bytearray data size = Ok chunks
    /\ List.concat chunks = data
    /\ Forall (fun c => 0 < len c <= size) chunks
    /\ (forall i, (S i < List.length chunks)%nat -> len (nth i chunks []) = size)
    /\ len chunks = (len data + size - 1) / size.
Proof.
  intros Hs. unfold chunk_bytearray.
  destruct (Z.eqb_spec size 0); [lia|].
  destruct (Z.ltb_spec size 0); [lia|].
  eexists. split; [reflexivity|].
  assert (P : (0 < Z.to_nat size)%nat) by lia.
  split; [apply chunk_fuel_concat; [exact P | lia]|].
  split.
  { eapply Forall_impl; [|apply chunk_fuel_sizes; [exact P | lia]].
    intros c Hc. cbv beta in Hc. unfold len. lia. }
  split.
  { intros i Hi. unfold len. rewrite chunk_fuel_full; [lia | exact P | lia | exact Hi]. }
  unfold len. rewrite chunk_fuel_count; [|exact P | lia].
  rewrite Z2Nat.id by lia. reflexivity.
Qed.

Lemma chunk_bytearray_partition_witness :
  exists chunks,
    chunk_bytearray [xa1; xa2; xa3] 2 = Ok chunks
    /\ List.concat chunks = [xa1; xa2; xa3]
    /\ Forall (fun c => 0 < len c <= 2) chunks
    /\ (forall i, (S i < List.length chunks)%nat -> len (nth i chunks []) = 2)
    /\ len chunks = (len [xa1; xa2; xa3] + 2 - 1) / 2.
Proof. apply (chunk_bytearray_partition [xa1; xa2; xa3] 2). lia. Defined.

(** ** Hex text read back *)

Lemma fromhex_hex_byte (b : byte) (rest : string) :
  bytearray_fromhex (hex_byte b ++ rest)
  = (bs <- bytearray_fromhex rest ;; Ok (b :: bs)).
Proof. destruct b; reflexivity. Qed.

Lemma fromhex_space (rest : string) :
  bytearray_fromhex (" " ++ rest) = bytearray_fromhex rest.
Proof. reflexivity. Qed.

Lemma hex_sep_cons2 (a b : byte) (rest : bytes) :
  hex_sep (a :: b :: rest) = hex_byte a ++ " " ++ hex_sep (b :: rest).
Proof. reflexivity. Qed.

Lemma string_app_nil_r (s : string) : s ++ "" = s.
Proof. induction s as [|c s IH]; [reflexivity|]. cbn. rewrite IH. reflexivity. Qed.

Lemma fromhex_hex_sep (data : bytes) : bytearray_fromhex (hex_sep data) = Ok data.
Proof.
  induction data as [|a [|b rest] IH].
  - reflexivity.
  - cbn [hex_sep]. rewrite <- (string_app_nil_r (hex_byte a)), fromhex_hex_byte.
    reflexivity.
  - rewrite hex_sep_cons2, fromhex_hex_byte, fromhex_space, IH. reflexivity.
Qed.

Lemma fromhex_hex (data : bytes) : bytearray_fromhex (hex data) = Ok data.
Proof.
  induction data as [|a rest IH]; [reflexivity|].
  cbn [hex]. rewrite fromhex_hex_byte, IH. reflexivity.
Qed.

Lemma string_app_assoc (a b c : string) : (a ++ b) ++ c = a ++ (b ++ c).
Proof. induction a as [|x a IH]; [reflexivity|]. cbn. rewrite IH. reflexivity. Qed.

Lemma hex_sep_app (a : bytes) (x : byte) (b : bytes) :
  a <> [] ->
  hex_sep (a ++ x :: b)%list = hex_sep a ++ " " ++ hex_sep (x :: b).
Proof.
  intros Ha. induction a as [|y [|z a] IH]; [contradiction| |].
  - reflexivity.
  - change ((y :: z :: a) ++ x :: b)%list with (y :: (z :: a) ++ x :: b)%list.
    cbn [app]. rewrite !hex_sep_cons2.
    change (z :: (a ++ x :: b)%list) with ((z :: a) ++ x :: b)%list.
    rewrite IH by discriminate.
    rewrite !string_app_assoc. reflexivity.
Qed.

Lemma concat_hex_sep (chunks : list bytes) :
  Forall (fun c => c <> []) chunks ->
  String.concat " " (map hex_sep chunks) = hex_sep (List.concat chunks).
Proof.
  induction 1 as [|c chunks Hc Hf IH]; [reflexivity|].
  cbn [map List.concat]. destruct chunks as [|d chunks].
  - cbn. rewrite app_nil_r. reflexivity.
  - cbn [String.concat map] in *. rewrite IH.
    inversion Hf as [|? ? Hd _]; subst.
    destruct d as [|x d]; [contradiction|].
    cbn [List.concat app]. rewrite hex_sep_app by exact Hc. reflexivity.
Qed.

(** ** The page store *)

Section Dict.

Context {K V : Type} (eqb : K -> K -> bool).
Hypothesis eqb_spec : forall a b, eqb a b = true <-> a = b.

Lemma eqb_refl_of (a : K) : eqb a a = true.
Proof. apply eqb_spec. reflexivity. Qed.

Lemma dict_get_set (d : list (K * V)) (k k' : K) (v : V) :
  dict_get eqb (dict_set eqb d k v) k' =
    if eqb k k' then Some v else dict_get eqb d k'.
Proof.
  induction d as [|[k0 v0] d IH].
  - cbn. destruct (eqb k k'); reflexivity.
  - cbn [dict_set]. destruct (eqb k0 k) eqn:E.
    + apply eqb_spec in E. subst k0. cbn [dict_get].
      destruct (eqb k k'); reflexivity.
    + cbn [dict_get]. destruct (eqb k0 k') eqn:E'.
      * apply eqb_spec in E'. subst k0.
        destruct (eqb k k') eqn:E''; [|reflexivity].
        apply eqb_spec in E''. subst k'. rewrite eqb_refl_of in E. discriminate.
      * exact IH.
Qed.

Lemma dict_get_none_notin (d : list (K * V)) (k : K) :
  dict_get eqb d k = None <-> ~ In k (map fst d).
Proof.
  induction d as [|[k0 v0] d IH]; cbn [dict_get map fst In].
  - tauto.
  - destruct (eqb k0 k) eqn:E.
    + apply eqb_spec in E. split; [discriminate|]. intros H. exfalso. apply H. left. exact E.
    + rewrite IH. split.
      * intros H [H'|H']; [|tauto]. apply eqb_spec in H'. congruence.
      * tauto.
Qed.

Lemma dict_set_new (d : list (K * V)) (k : K) (v : V) :
  ~ In k (map fst d) -> dict_set eqb d k v = (d ++ [(k, v)])%list.
Proof.
  induction d as [|[k0 v0] d IH]; intros H; [reflexivity|].
  cbn [dict_set app]. cbn [map fst In] in H.
  destruct (eqb k0 k) eqn:E.
  - apply eqb_spec in E. tauto.
  - rewrite IH by tauto. reflexivity.
Qed.

Lemma dict_set_keys (d : list (K * V)) (k : K) (v : V) :
  map fst (dict_set eqb d k v) =
    if existsb (fun k0 => eqb k0 k) (map fst d) then map fst d
    else (map fst d ++ [k])%list.
Proof.
  induction d as [|[k0 v0] d IH]; [reflexivity|].
  cbn [dict_set map fst existsb]. destruct (eqb k0 k) eqn:E.
  - reflexivity.
  - cbn [map fst orb]. rewrite IH. destruct (existsb _ _); reflexivity.
Qed.

Lemma dict_set_NoDup (d : list (K * V)) (k : K) (v : V) :
  NoDup (map fst d) -> NoDup (map fst (dict_set eqb d k v)).
Proof.
  intros H. rewrite dict_set_keys.
  destruct (existsb (fun k0 => eqb k0 k) (map fst d)) eqn:E; [exact H|].
  apply NoDup_app; [exact H | repeat constructor; intros [] |].
  intros x Hx [<-|[]].
  assert (existsb (fun k0 => eqb k0 k) (map fst d) = true); [|congruence].
  apply existsb_exists. exists k. split; [exact Hx | apply eqb_refl_of].
Qed.

End Dict.

Lemma page_id_eqb_spec (a b : page_id) : page_id_eqb a b = true <-> a = b.
Proof.
  destruct a as [c n], b as [c' n']. unfold page_id_eqb. cbn [fst snd].
  rewrite andb_true_iff, String.eqb_eq, Z.eqb_eq. split.
  - intros [-> ->]. reflexivity.
  - intros H. injection H as -> ->. split; reflexivity.
Qed.

Lemma page_key_eqb_spec (a b : page_key) : page_key_eqb a b = true <-> a = b.
Proof.
  destruct a, b; cbn [page_key_eqb]; rewrite ?Z.eqb_eq;
    split; intros H; try discriminate; congruence.
Qed.

(** Storing a page and looking pages up again.  Page number 1 empties
    the store first, those of other commands included; any other page
    number leaves the other pages in place. *)
Theorem add_page_lookup (self : PagedMessageManager) (command : string) (page_no : Z)
  (message : Response.B0StructuredResponseMessage) (k : page_id) :
  dict_get page_id_eqb (pages (add_page self command page_no message)) k =
    if page_id_eqb (command, page_no) k then Some message
    else if page_no =? 1 then None
    else dict_get page_id_eqb (pages self) k.
Proof.
  unfold add_page. cbn [pages].
  rewrite (dict_get_set page_id_eqb page_id_eqb_spec).
  destruct (page_id_eqb (command, page_no) k); [reflexivity|].
  destruct (page_no =? 1); reflexivity.
Qed.

(** [add_page] replaces or appends.  Where the key is present, after
    the reset on page 1, the page stored under it is replaced in its
    place and nothing else moves; where it is absent, the page is added
    at the end.  Either way the keys stay distinct. *)
Theorem add_page_replaces_or_appends (self : PagedMessageManager) (command : string)
  (page_no : Z) (message : Response.B0StructuredResponseMessage) :
  let stored := if page_no =? 1 then [] else pages self in
  let self' := add_page self command page_no message in
  (forall before old after,
      stored = (before ++ ((command, page_no), old) :: after)%list ->
      ~ In (command, page_no) (map fst before) ->
      pages self' = (before ++ ((command, page_no), message) :: after)%list)
  /\ (~ In (command, page_no) (map fst stored) ->
      pages self' = (stored ++ [((command, page_no), message)])%list)
  /\ (NoDup (map fst (pages self)) -> NoDup (map fst (pages self'))).
Proof.
  cbv zeta.
  assert (E : pages (add_page self command page_no message)
              = dict_set page_id_eqb (if page_no =? 1 then [] else pages self)
                  (command, page_no) message).
  { unfold add_page. destruct (page_no =? 1); reflexivity. }
  rewrite E. split; [|split].
  - intros before old after -> Hb.
    induction before as [|[k v] before IH].
    + cbn [app dict_set].
      rewrite (proj2 (page_id_eqb_spec (command, page_no) (command, page_no)) eq_refl).
      reflexivity.
    + cbn [app dict_set]. cbn [map fst In] in Hb.
      destruct (page_id_eqb k (command, page_no)) eqn:Ek.
      * apply page_id_eqb_spec in Ek. exfalso. apply Hb. left. exact Ek.
      * rewrite IH; [reflexivity|]. intros Hin. apply Hb. right. exact Hin.
  - intros Hn. apply (dict_set_new page_id_eqb page_id_eqb_spec). exact Hn.
  - intros Hd. apply (dict_set_NoDup page_id_eqb page_id_eqb_spec).
    destruct (page_no =? 1); [constructor | exact Hd].
Qed.

Lemma add_page_replaces_or_appends_witness :
  let first := response_of_chunks "18" [chunk_of_elements 8 3 [[xa1]]] in
  let second := response_of_chunks "18" [chunk_of_elements 8 3 [[xa2]]] in
  let again := response_of_chunks "18" [chunk_of_elements 8 3 [[xa3]]] in
  let self := add_page (add_page (add_page PagedMessageManager_init "18" 1 first)
                          "18" 2 second) "18" 3 first in
  pages (add_page self "18" 2 again)
  = [(("18", 1), first); (("18", 2), again); (("18", 3), first)]
  /\ pages (add_page self "18" 4 again)
     = [(("18", 1), first); (("18", 2), second); (("18", 3), first); (("18", 4), again)]
  /\ pages (add_page self "18" 1 again) = [(("18", 1), again)].
Proof.
  cbv zeta.
  set (first := response_of_chunks "18" [chunk_of_elements 8 3 [[xa1]]]).
  set (second := response_of_chunks "18" [chunk_of_elements 8 3 [[xa2]]]).
  set (again := response_of_chunks "18" [chunk_of_elements 8 3 [[xa3]]]).
  set (self := add_page (add_page (add_page PagedMessageManager_init "18" 1 first)
                           "18" 2 second) "18" 3 first).
  split; [|split].
  - apply (proj1 (add_page_replaces_or_appends self "18" 2 again)
             [(("18", 1), first)] second [(("18", 3), first)]).
    + reflexivity.
    + cbn. intros [H|[]]. discriminate.
  - apply (proj1 (proj2 (add_page_replaces_or_appends self "18" 4 again))).
    cbn. intros [H|[H|[H|[]]]]; discriminate.
  - apply (proj1 (proj2 (add_page_replaces_or_appends self "18" 1 again))).
    intros [].
Defined.

Lemma get_pages_fold (command : string)
  (stored : list (page_id * Response.B0StructuredResponseMessage))
  (response : list (page_key * Response.B0StructuredResponseMessage)) :
  NoDup (map fst response ++ map fst (pages_of command stored)) ->
  fold_left
    (fun response p =>
       if String.eqb (fst (fst p)) command
       then dict_set page_key_eqb response (PageStr (snd (fst p))) (snd p)
       else response)
    stored response
  = (response ++ pages_of command stored)%list.
Proof.
  revert response. induction stored as [|[[c n] m] stored IH]; intros response H.
  - cbn. rewrite app_nil_r. reflexivity.
  - cbn [fold_left fst snd]. unfold pages_of in *. cbn [filter fst snd] in *.
    destruct (String.eqb c command) eqn:E.
    + cbn [map fst snd] in H.
      rewrite (dict_set_new page_key_eqb page_key_eqb_spec).
      * rewrite IH.
        -- cbn [map fst snd]. rewrite <- app_assoc. reflexivity.
        -- rewrite map_app. cbn [map fst]. rewrite <- app_assoc. exact H.
      * apply NoDup_remove_2 in H. intros Hin. apply H. apply in_or_app. left. exact Hin.
    + apply IH. exact H.
Qed.

Lemma pages_of_keys (command : string)
  (stored : list (page_id * Response.B0StructuredResponseMessage)) :
  NoDup (map fst stored) -> NoDup (map fst (pages_of command stored)).
Proof.
  induction stored as [|[[c n] m] stored IH]; intros H; [constructor|].
  unfold pages_of in *. cbn [filter fst snd] in *.
  cbn [map fst] in H. inversion H as [|? ? Hn Hd]; subst.
  destruct (String.eqb c command) eqn:E; [|apply IH, Hd].
  cbn [map fst]. constructor; [|apply IH, Hd].
  intros Hin. apply Hn. apply String.eqb_eq in E. subst c.
  apply in_map_iff in Hin. destruct Hin as ([k' m'] & Hk & Hin). cbn [fst] in Hk.
  apply in_map_iff in Hin. destruct Hin as ([[c' n'] m''] & Hp & Hin).
  cbn [fst snd] in Hp. injection Hp as <- <-. injection Hk as Hk.
  apply filter_In in Hin. destruct Hin as [Hin Hc]. cbn [fst] in Hc.
  apply String.eqb_eq in Hc. subst c'.
  apply in_map_iff. exists ((command, n'), m''). split; [|exact Hin].
  cbn [fst]. congruence.
Qed.

(** [get_pages] returns the stored pages of the command and no other,
    each under its page number, in the order they were stored. *)
Theorem get_pages_of_command (self : PagedMessageManager) (command : string) :
  NoDup (map fst (pages self)) ->
  get_pages self command = pages_of command (pages self).
Proof.
  intros H. unfold get_pages. rewrite get_pages_fold; [reflexivity|].
  cbn [map app]. apply pages_of_keys, H.
Qed.

Lemma get_pages_of_command_witness :
  let self := add_page PagedMessageManager_init "18" 1 (response_of_chunks "18" []) in
  get_pages self "18" = pages_of "18" (pages self).
Proof.
  apply (get_pages_of_command
           (add_page PagedMessageManager_init "18" 1 (response_of_chunks "18" [])) "18").
  constructor; [intros [] | constructor].
Defined.

(** ** A paged sequence *)

Lemma decode_paged_step (self : PagedMessageManager) (frame : bytes)
  (p : Response.B0StructuredResponseMessage) :
  decode_b0_message_structure frame = Ok (Some (SResponse p)) ->
  Response.message_type p = 2 -> Response.page p <> 255 ->
  fst (decode_b0_message self frame)
  = add_page self (Response.command p) (Response.page p) p.
Proof.
  intros Hs Ht Hp. unfold decode_b0_message. rewrite Hs.
  cbn [message_type]. rewrite Ht. cbn [Z.eqb orb MessageType_ADD MessageType_REQUEST
    MessageType_REMOVE MessageType_PAGED_RESPONSE].
  destruct (Z.eqb_spec (Response.page p) 255); [contradiction|]. reflexivity.
Qed.

Lemma stored_pages_app (command : string) (j : Z)
  (a b : list Response.B0StructuredResponseMessage) :
  stored_pages command j (a ++ b)
  = (stored_pages command j a ++ stored_pages command (j + len a) b)%list.
Proof.
  revert j. induction a as [|p a IH]; intros j.
  - cbn. rewrite Z.add_0_r. reflexivity.
  - cbn [app stored_pages]. rewrite IH. unfold len. cbn [List.length].
    replace (j + 1 + Z.of_nat (List.length a)) with (j + Z.of_nat (S (List.length a))) by lia.
    reflexivity.
Qed.

Lemma stored_pages_keys (command : string) (j : Z)
  (ms : list Response.B0StructuredResponseMessage) (k : page_id) :
  In k (map fst (stored_pages command j ms)) ->
  fst k = command /\ j < snd k <= j + len ms.
Proof.
  revert j. induction ms as [|p ms IH]; intros j H; [destruct H|].
  cbn [stored_pages map fst In] in H. unfold len. cbn [List.length].
  destruct H as [<-|H].
  - cbn [fst snd]. split; [reflexivity | lia].
  - apply IH in H. unfold len in H. split; [apply H | lia].
Qed.

Lemma pages_numbered_tail (command : string) (j : Z)
  (p : Response.B0StructuredResponseMessage)
  (ms : list Response.B0StructuredResponseMessage) :
  pages_numbered command j (p :: ms) -> pages_numbered command (j + 1) ms.
Proof.
  intros H i q Hq. destruct (H (S i) q Hq) as (H1 & H2 & H3).
  split; [exact H1|]. split; [exact H2|]. lia.
Qed.

Lemma decode_frames_more (command : string)
  (frames : list bytes) (new done : list Response.B0StructuredResponseMessage)
  (self : PagedMessageManager) :
  Forall2 (fun f p => decode_b0_message_structure f = Ok (Some (SResponse p))) frames new ->
  pages_numbered command (len done) new ->
  len done + len new < 255 ->
  done <> [] ->
  pages self = stored_pages command 0 done ->
  pages (fst (decode_frames self frames)) = stored_pages command 0 (done ++ new).
Proof.
  intros HF. revert done self.
  induction HF as [|f p frames new Hf HF IH]; intros done self Hn Hl Hd Hp.
  - cbn. rewrite app_nil_r. exact Hp.
  - cbn [decode_frames].
    destruct (decode_b0_message self f) as [self' r] eqn:E.
    destruct (decode_frames self' frames) as [self'' rs] eqn:E'.
    cbn [fst].
    replace self'' with (fst (decode_frames self' frames)) by (rewrite E'; reflexivity).
    replace (done ++ p :: new)%list with ((done ++ [p]) ++ new)%list
      by (rewrite <- app_assoc; reflexivity).
    destruct (Hn 0%nat p eq_refl) as (Ht & Hc & Hpg).
    unfold len in Hl, Hpg. cbn [List.length] in Hl.
    assert (Hlen : len (done ++ [p]) = len done + 1).
    { unfold len. rewrite length_app. cbn [List.length]. lia. }
    assert (Hdone : (0 < List.length done)%nat).
    { destruct done; [contradiction | cbn [List.length]; lia]. }
    apply IH.
    + rewrite Hlen. apply (pages_numbered_tail _ _ p), Hn.
    + rewrite Hlen. unfold len. lia.
    + destruct done; discriminate.
    + replace self' with (fst (decode_b0_message self f)) by (rewrite E; reflexivity).
      rewrite (decode_paged_step self f p Hf Ht) by lia.
      unfold add_page. rewrite Hc, Hpg.
      destruct (Z.eqb_spec (Z.of_nat (List.length done) + Z.of_nat 0 + 1) 1); [lia|].
      cbn [pages]. rewrite Hp.
      rewrite (dict_set_new page_id_eqb page_id_eqb_spec).
      * rewrite stored_pages_app. cbn [stored_pages]. unfold len.
        replace (Z.of_nat (List.length done) + Z.of_nat 0 + 1)
          with (0 + Z.of_nat (List.length done) + 1) by lia.
        reflexivity.
      * intros Hin. apply stored_pages_keys in Hin. cbn [fst snd] in Hin.
        unfold len in Hin. lia.
Qed.

Lemma decode_frames_pages (command : string)
  (frames : list bytes) (ms : list Response.B0StructuredResponseMessage)
  (self : PagedMessageManager) :
  Forall2 (fun f p => decode_b0_message_structure f = Ok (Some (SResponse p))) frames ms ->
  pages_numbered command 0 ms ->
  len ms < 255 ->
  ms <> [] ->
  pages (fst (decode_frames self frames)) = stored_pages command 0 ms.
Proof.
  intros HF Hn Hl Hne.
  destruct HF as [|f p frames ms Hf HF]; [contradiction|].
  cbn [decode_frames].
  destruct (decode_b0_message self f) as [self' r] eqn:E.
  destruct (decode_frames self' frames) as [self'' rs] eqn:E'.
  cbn [fst].
  replace self'' with (fst (decode_frames self' frames)) by (rewrite E'; reflexivity).
  destruct (Hn 0%nat p eq_refl) as (Ht & Hc & Hpg). cbn in Hpg.
  unfold len in Hl. cbn [List.length] in Hl.
  apply (decode_frames_more command frames ms [p] self' HF).
  - apply (pages_numbered_tail _ _ p) in Hn. exact Hn.
  - unfold len. cbn [List.length]. lia.
  - discriminate.
  - replace self' with (fst (decode_b0_message self f)) by (rewrite E; reflexivity).
    rewrite (decode_paged_step self f p Hf Ht) by lia.
    rewrite Hc, Hpg. reflexivity.
Qed.

Lemma pages_of_stored (command : string) (j : Z)
  (ms : list Response.B0StructuredResponseMessage) :
  pages_of command (stored_pages command j ms)
  = map (fun kp => (PageStr (snd (fst kp)), snd kp)) (stored_pages command j ms).
Proof.
  unfold pages_of. f_equal. revert j.
  induction ms as [|p ms IH]; intros j; [reflexivity|].
  cbn [stored_pages filter fst snd]. rewrite String.eqb_refl, IH. reflexivity.
Qed.

Lemma stored_pages_NoDup (command : string) (j : Z)
  (ms : list Response.B0StructuredResponseMessage) :
  NoDup (map fst (stored_pages command j ms)).
Proof.
  revert j. induction ms as [|p ms IH]; intros j; [constructor|].
  cbn [stored_pages map fst]. constructor; [|apply IH].
  intros H. apply stored_pages_keys in H. cbn [snd] in H. lia.
Qed.

Lemma all_chunks_stored {K : Type} (f : page_id * Response.B0StructuredResponseMessage
                                       -> K * Response.B0StructuredResponseMessage)
  (command : string) (j : Z) (ms : list Response.B0StructuredResponseMessage) :
  (forall kp, snd (f kp) = snd kp) ->
  all_chunks (map f (stored_pages command j ms)) = flat_map Response.data ms.
Proof.
  intros Hf. unfold all_chunks. revert j.
  induction ms as [|p ms IH]; intros j; [reflexivity|].
  cbn [stored_pages map flat_map]. rewrite Hf, IH. reflexivity.
Qed.

Lemma all_chunks_app {K : Type}
  (a b : list (K * Response.B0StructuredResponseMessage)) :
  all_chunks (a ++ b) = (all_chunks a ++ all_chunks b)%list.
Proof. unfold all_chunks. apply flat_map_app. Qed.

Lemma get_pages_spec (self : PagedMessageManager) (command : string) :
  NoDup (map fst (pages self)) ->
  get_pages self command = pages_of command (pages self).
Proof.
  intros H. unfold get_pages. rewrite get_pages_fold; [reflexivity|].
  cbn [map app]. apply pages_of_keys, H.
Qed.

(** Pages 1 to N of a command followed by its final response, for every
    command but 24, 35 and 42: whatever the decoder held before, the
    final response is answered from the chunks of all pages merged by
    index, in the order the pages arrived, and the store is empty
    afterwards. *)
Theorem paged_sequence_reassembles (self : PagedMessageManager) (command : string)
  (frames : list bytes) (ms : list Response.B0StructuredResponseMessage)
  (final : bytes) (m : Response.B0StructuredResponseMessage) :
  command <> "24" -> command <> "35" -> command <> "42" ->
  Forall2 (fun f p => decode_b0_message_structure f = Ok (Some (SResponse p))) frames ms ->
  pages_numbered command 0 ms ->
  ms <> [] -> len ms < 255 ->
  decode_b0_message_structure final = Ok (Some (SResponse m)) ->
  Response.message_type m = 3 \/ Response.message_type m = 5 ->
  Response.command m = command ->
  forallb is_list_chunk (flat_map Response.data ms ++ Response.data m) = true ->
  let self' := fst (decode_frames self frames) in
  pages self' = stored_pages command 0 ms
  /\ decode_b0_message self' final =
       (reset self',
        response_answer
          (Response.with_data m
             (merge_by_index (flat_map Response.data ms ++ Response.data m)))
          (validate_b0_message (SResponse m))).
Proof.
  intros _ _ _ HF Hn Hne Hl Hs Ht Hc Hlist self'.
  assert (Hp : pages self' = stored_pages command 0 ms)
    by (apply (decode_frames_pages command frames ms self HF Hn Hl Hne)).
  split; [exact Hp|].
  unfold decode_b0_message. rewrite Hs. cbn [message_type].
  assert (Hact : has_active_paged_response self' (Response.command m) = true).
  { unfold has_active_paged_response. rewrite Hp, Hc.
    destruct ms as [|p ms]; [contradiction|].
    cbn [stored_pages dict_get].
    rewrite (proj2 (page_id_eqb_spec (command, 0 + 1) (command, 1)) eq_refl).
    reflexivity. }
  assert (Hget : get_pages self' (Response.command m)
                 = map (fun kp => (PageStr (snd (fst kp)), snd kp))
                       (stored_pages command 0 ms)).
  { rewrite get_pages_spec by (rewrite Hp; apply stored_pages_NoDup).
    rewrite Hp, Hc. apply pages_of_stored. }
  assert (Hcreate :
    create_message_from_paged_messages m (get_pages self' (Response.command m))
    = Ok (Response.with_data m
            (merge_by_index (flat_map Response.data ms ++ Response.data m)))).
  { unfold create_message_from_paged_messages. rewrite Hget.
    rewrite (dict_set_new page_key_eqb page_key_eqb_spec).
    - unfold rebuild_paged_data_chunks. rewrite rebuild_from_all, all_chunks_app.
      rewrite (all_chunks_stored _ command 0 ms) by reflexivity.
      unfold all_chunks at 1. cbn [flat_map snd]. rewrite app_nil_r.
      change (@nil B0DataChunk) with (merge_by_index []) at 1.
      rewrite place_chunks_merged by exact Hlist. reflexivity.
    - rewrite map_map. cbn [fst]. intros Hin. apply in_map_iff in Hin.
      destruct Hin as (kp & Hk & _). discriminate. }
  rewrite Hact, Hcreate. cbn [bind].
  destruct Ht as [Ht|Ht]; rewrite Ht; reflexivity.
Qed.

Lemma paged_sequence_reassembles_witness :
  exists page_1 final,
    let self' := fst (decode_frames PagedMessageManager_init [frame_page_1]) in
    pages self' = stored_pages "18" 0 [page_1]
    /\ decode_b0_message self' frame_final =
         (reset self',
          response_answer
            (Response.with_data final
               (merge_by_index (flat_map Response.data [page_1] ++ Response.data final)))
            (validate_b0_message (SResponse final))).
Proof.
  eexists. eexists.
  eapply (paged_sequence_reassembles PagedMessageManager_init "18" [frame_page_1] [_]
           frame_final _).
  - discriminate.
  - discriminate.
  - discriminate.
  - constructor; [lazy; reflexivity | constructor].
  - intros i p H. destruct i as [|i].
    + injection H as <-. repeat split.
    + destruct i; discriminate.
  - discriminate.
  - reflexivity.
  - lazy; reflexivity.
  - left. reflexivity.
  - reflexivity.
  - reflexivity.
Defined.

(** ** Message types *)

Ltac red_fields :=
  lazy beta iota delta [bind Request.message_type Response.message_type].

(** The structural decoder raises on no buffer, and the byte at offset 2
    alone decides what it returns: a request for 0, 1 and 4, a response
    for 2, 3 and 5, nothing above 5. *)
Theorem structure_by_message_type (msg : bytes) :
  let t := b2i (slice msg 2 3) true in
  match decode_b0_message_structure msg with
  | Ok (Some (SRequest m)) => (t = 0 \/ t = 1 \/ t = 4) /\ Request.message_type m = t
  | Ok (Some (SResponse m)) => (t = 2 \/ t = 3 \/ t = 5) /\ Response.message_type m = t
  | Ok None => 5 < t
  | Raise _ => False
  end.
Proof.
  cbv zeta. pose proof (b2i_nonneg (slice msg 2 3) true) as N.
  unfold decode_b0_message_structure. cbv zeta.
  unfold MessageType_ADD, MessageType_REMOVE, MessageType_REQUEST,
    MessageType_PAGED_RESPONSE, MessageType_RESPONSE, MessageType_UNKNOWN.
  destruct (Z.eqb_spec (b2i (slice msg 2 3) true) 0) as [E0|E0];
    [cbn [orb]; destruct (list_eq_dec _ _ _); red_fields; (split; [lia | reflexivity]) | idtac].
  destruct (Z.eqb_spec (b2i (slice msg 2 3) true) 4) as [E4|E4];
    [cbn [orb]; destruct (list_eq_dec _ _ _); red_fields; (split; [lia | reflexivity]) | idtac].
  cbn [orb].
  destruct (Z.eqb_spec (b2i (slice msg 2 3) true) 1) as [E1|E1];
    [destruct (_ >? 1); red_fields; (split; [lia | reflexivity]) | idtac].
  destruct (Z.eqb_spec (b2i (slice msg 2 3) true) 2) as [E2|E2];
    destruct (Z.eqb_spec (b2i (slice msg 2 3) true) 3) as [E3|E3];
    destruct (Z.eqb_spec (b2i (slice msg 2 3) true) 5) as [E5|E5];
    cbn [orb]; try lia;
    try (destruct (response_chunks_ok msg (hex (slice msg 3 4)) (b2i (slice msg 4 5) true))
           as [[[hp ps] cs] ->]; red_fields; (split; [lia | reflexivity])).
Qed.

(** ADD, REQUEST and REMOVE frames never touch the page store.  They are
    answered with a request, except that a REQUEST with parameters whose
    parameter-size byte is 0 raises: the parameters are cut with a zero
    step. *)
Theorem request_frames_decode (self : PagedMessageManager) (msg : bytes) :
  let t := b2i (slice msg 2 3) true in
  t = 0 \/ t = 1 \/ t = 4 ->
  if (t =? 1) && (b2i (slice msg 4 5) true >? 1) && (b2i (slice msg 5 6) true =? 0)
  then decode_b0_message self msg = (self, Raise ValueError)
  else exists r,
         decode_b0_message self msg = (self, Ok (IsRequest r))
         /\ B0Request.type r = get_lookup_value MessageType t
         /\ B0Request.command r = hex (slice msg 3 4)
         /\ B0Request.checksum r = hex (slice msg (-2) (-1)).
Proof.
  cbv zeta. intros Ht. unfold decode_b0_message, decode_b0_message_structure. cbv zeta.
  unfold MessageType_ADD, MessageType_REMOVE, MessageType_REQUEST,
    MessageType_PAGED_RESPONSE, MessageType_RESPONSE, MessageType_UNKNOWN.
  destruct Ht as [Ht|[Ht|Ht]]; rewrite Ht; cbn [Z.eqb Pos.eqb orb andb].
  - destruct (list_eq_dec _ _ _); cbn [message_type Request.message_type];
      cbn [Z.eqb Pos.eqb orb]; eexists; repeat split.
  - destruct (b2i (slice msg 4 5) true >? 1) eqn:G; cbn [andb].
    + cbn [message_type Request.message_type]. cbn [Z.eqb Pos.eqb orb].
      unfold request_payload. cbn [Request.data Request.has_params Request.param_size].
      unfold chunk_bytearray.
      destruct (Z.eqb_spec (b2i (slice msg 5 6) true) 0) as [E|E]; [reflexivity|].
      pose proof (b2i_nonneg (slice msg 5 6) true).
      destruct (Z.ltb_spec (b2i (slice msg 5 6) true) 0); [lia|].
      eexists. repeat split.
    + cbn [message_type Request.message_type]. cbn [Z.eqb Pos.eqb orb].
      eexists. repeat split.
  - destruct (list_eq_dec _ _ _); cbn [message_type Request.message_type];
      cbn [Z.eqb Pos.eqb orb]; eexists; repeat split.
Qed.

Lemma request_frames_decode_witness :
  decode_b0_message PagedMessageManager_init frame_request_zero_size
  = (PagedMessageManager_init, Raise ValueError)
  /\ exists r,
       decode_b0_message PagedMessageManager_init frame_request_plain
       = (PagedMessageManager_init, Ok (IsRequest r))
       /\ B0Request.type r = "REQUEST"
       /\ B0Request.command r = "24"
       /\ B0Request.checksum r = "b6".
Proof.
  split.
  - exact (request_frames_decode PagedMessageManager_init frame_request_zero_size
             (or_intror (or_introl eq_refl))).
  - exact (request_frames_decode PagedMessageManager_init frame_request_plain
             (or_intror (or_introl eq_refl))).
Defined.

(** ** The default response layout *)

Lemma len_app {A : Type} (a b : list A) : len (a ++ b) = len a + len b.
Proof. unfold len. rewrite length_app. lia. Qed.

Lemma len_cons {A : Type} (x : A) (l : list A) : len (x :: l) = len l + 1.
Proof. unfold len. cbn [List.length]. lia. Qed.

Lemma len_nonneg {A : Type} (l : list A) : 0 <= len l.
Proof. unfold len. lia. Qed.

Lemma slice_mid {A : Type} (a b c : list A) (lo hi : Z) :
  lo = len a -> hi = len a + len b -> slice (a ++ b ++ c) lo hi = b.
Proof.
  intros -> ->. unfold slice. rewrite !len_app.
  pose proof (len_nonneg a). pose proof (len_nonneg b). pose proof (len_nonneg c).
  rewrite !norm_pos by lia.
  replace (Z.to_nat (Z.min (len a) _)) with (List.length a) by (unfold len in *; lia).
  replace (Z.to_nat _) with (List.length b) by (unfold len in *; lia).
  rewrite skipn_app, skipn_all, Nat.sub_diag. cbn [skipn app].
  rewrite firstn_app, firstn_all, Nat.sub_diag. cbn [firstn]. apply app_nil_r.
Qed.

Lemma slice_from_mid {A : Type} (a b : list A) (lo : Z) :
  lo = len a -> slice_from (a ++ b) lo = b.
Proof.
  intros ->. unfold slice_from. rewrite len_app.
  pose proof (len_nonneg a). pose proof (len_nonneg b).
  rewrite norm_pos by lia.
  replace (Z.to_nat _) with (List.length a) by (unfold len in *; lia).
  rewrite skipn_app, skipn_all, Nat.sub_diag. reflexivity.
Qed.

Lemma b2i_one (b : byte) (big_endian : bool) : b2i [b] big_endian = b2z b.
Proof. destruct big_endian; reflexivity. Qed.

Lemma b2z_inj (a b : byte) : b2z a = b2z b -> a = b.
Proof.
  intros H. rewrite <- (byte_of_Z_b2z a), <- (byte_of_Z_b2z b), H. reflexivity.
Qed.

Lemma slice_one {A : Type} (l : list A) (i hi : Z) (x : A) :
  0 <= i -> hi = i + 1 -> nth_error l (Z.to_nat i) = Some x -> slice l i hi = [x].
Proof.
  intros Hi -> Hn.
  assert (Hlt : (Z.to_nat i < List.length l)%nat)
    by (apply nth_error_Some; congruence).
  unfold slice, len. rewrite !norm_pos by lia.
  replace (Z.to_nat (Z.min i _)) with (Z.to_nat i) by lia.
  replace (Z.to_nat (Z.min (i + 1) _ - Z.min i _)) with 1%nat by lia.
  destruct (nth_error_split l (Z.to_nat i) Hn) as (l1 & l2 & -> & Hl).
  rewrite skipn_app, skipn_all2 by lia.
  rewrite Hl, Nat.sub_diag. reflexivity.
Qed.

Lemma slice_from_skipn {A : Type} (l : list A) (lo : Z) :
  0 <= lo -> slice_from l lo = skipn (Z.to_nat lo) l.
Proof.
  intros H. unfold slice_from, len. rewrite norm_pos by lia.
  destruct (Z.le_gt_cases lo (Z.of_nat (List.length l))).
  - rewrite Z.min_l by lia. reflexivity.
  - rewrite Z.min_r by lia. rewrite Nat2Z.id, !skipn_all2 by lia. reflexivity.
Qed.

Lemma default_chunk_wire (c : wire_chunk) :
  len (wire_data c) < 256 ->
  default_chunk (tl (wire_bytes c)) = Ok (decoded_chunk c).
Proof.
  intros H. unfold default_chunk, wire_bytes, decoded_chunk. cbn [tl]. cbv zeta.
  rewrite slice_to_1_cons.
  rewrite (slice_one _ 1 2 (wire_index c)) by (reflexivity || lia).
  rewrite (slice_one _ 2 3 (byte_of_Z (len (wire_data c)))) by (reflexivity || lia).
  rewrite slice_from_skipn by lia.
  change (skipn (Z.to_nat 3) (wire_type c :: wire_index c :: _ :: wire_data c))
    with (wire_data c).
  rewrite !b2i_one, b2z_byte_of_Z by (pose proof (len_nonneg (wire_data c)); lia).
  unfold chunk_bytearray.
  destruct (Z.eqb_spec (Z.max 1 (b2z (wire_type c) / 8)) 0); [lia|].
  destruct (Z.ltb_spec (Z.max 1 (b2z (wire_type c) / 8)) 0); [lia|].
  reflexivity.
Qed.

Lemma len_wire_bytes (c : wire_chunk) : len (wire_bytes c) = len (wire_data c) + 4.
Proof. unfold wire_bytes. rewrite !len_cons. lia. Qed.

Lemma split_chunks_wire (cs : list wire_chunk) (pre post : bytes) (lad i : Z) (fuel : nat) :
  i = len pre ->
  Forall (fun c => len (wire_data c) < 256) cs ->
  (Z.to_nat (lad - i) <= fuel)%nat ->
  starts_before lad i cs ->
  lad - 1 < i + len (List.concat (map wire_bytes cs)) ->
  split_chunks fuel (pre ++ List.concat (map wire_bytes cs) ++ post)%list lad i
  = map (fun c => tl (wire_bytes c)) cs.
Proof.
  revert pre i fuel. induction cs as [|c cs IH]; intros pre i fuel Hi Hf Hfuel Hs Hstop.
  - cbn [map List.concat] in *. change (len (@nil byte)) with 0 in Hstop.
    destruct fuel as [|fuel]; [reflexivity|]. cbn [split_chunks].
    destruct (Z.leb_spec i (lad - 1)); [lia | reflexivity].
  - cbn [starts_before] in Hs. destruct Hs as [Hle Hs].
    inversion Hf as [|? ? Hc Hf']; subst.
    destruct fuel as [|fuel]; [lia|]. cbn [split_chunks].
    destruct (Z.leb_spec (len pre) (lad - 1)); [|lia].
    cbn [map List.concat].
    pose proof (len_nonneg (wire_data c)) as Hn.
    assert (E3 : slice (pre ++ (wire_bytes c ++ List.concat (map wire_bytes cs)) ++ post)%list
                   (len pre + 3) (len pre + 4) = [byte_of_Z (len (wire_data c))]).
    { replace (pre ++ (wire_bytes c ++ List.concat (map wire_bytes cs)) ++ post)%list
        with ((pre ++ [wire_lead c; wire_type c; wire_index c])
                ++ [byte_of_Z (len (wire_data c))]
                ++ (wire_data c ++ List.concat (map wire_bytes cs) ++ post))%list
        by (unfold wire_bytes; rewrite <- !app_assoc; reflexivity).
      apply slice_mid; rewrite len_app, !len_cons; change (len (@nil byte)) with 0; lia. }
    rewrite E3, b2i_one, b2z_byte_of_Z by lia.
    assert (E1 : slice (pre ++ (wire_bytes c ++ List.concat (map wire_bytes cs)) ++ post)%list
                   (len pre + 1) (len pre + 4 + len (wire_data c)) = tl (wire_bytes c)).
    { replace (pre ++ (wire_bytes c ++ List.concat (map wire_bytes cs)) ++ post)%list
        with ((pre ++ [wire_lead c])
                ++ tl (wire_bytes c)
                ++ (List.concat (map wire_bytes cs) ++ post))%list
        by (unfold wire_bytes; cbn [tl]; rewrite <- !app_assoc; reflexivity).
      apply slice_mid.
      - rewrite len_app, !len_cons. change (len (@nil byte)) with 0. lia.
      - unfold wire_bytes. cbn [tl]. rewrite len_app, !len_cons.
        change (len (@nil byte)) with 0. lia. }
    rewrite E1. f_equal.
    replace (pre ++ (wire_bytes c ++ List.concat (map wire_bytes cs)) ++ post)%list
      with ((pre ++ wire_bytes c) ++ List.concat (map wire_bytes cs) ++ post)%list
      by (rewrite <- !app_assoc; reflexivity).
    apply IH.
    + rewrite len_app, len_wire_bytes. lia.
    + exact Hf'.
    + lia.
    + rewrite len_wire_bytes in Hs.
      replace (len pre + 4 + len (wire_data c)) with (len pre + (len (wire_data c) + 4)) by lia.
      exact Hs.
    + cbn [map List.concat] in Hstop. rewrite len_app, len_wire_bytes in Hstop. lia.
Qed.

Lemma starts_before_last (lad : Z) (cs : list wire_chunk) (d : wire_chunk) (i : Z) :
  cs <> [] -> wire_data (last cs d) <> [] ->
  i + len (List.concat (map wire_bytes cs)) <= lad + 4 ->
  starts_before lad i cs.
Proof.
  revert i. induction cs as [|c cs IH]; intros i Hne Hl Hb; [contradiction|].
  cbn [map List.concat] in Hb. rewrite len_app, len_wire_bytes in Hb.
  pose proof (len_nonneg (wire_data c)).
  pose proof (len_nonneg (List.concat (map wire_bytes cs))).
  cbn [starts_before]. destruct cs as [|c' cs].
  - cbn [last] in Hl. split; [|exact I].
    assert (0 < len (wire_data c)).
    { destruct (wire_data c) as [|x xs]; [contradiction|].
      rewrite len_cons. pose proof (len_nonneg xs). lia. }
    lia.
  - assert (Hs : starts_before lad (i + len (wire_bytes c)) (c' :: cs)).
    { apply IH; [discriminate | exact Hl |]. rewrite len_wire_bytes. lia. }
    split; [|exact Hs]. cbn [starts_before] in Hs. rewrite len_wire_bytes in Hs. lia.
Qed.

Lemma mapM_default_chunk_wire (cs : list wire_chunk) :
  Forall (fun c => len (wire_data c) < 256) cs ->
  mapM default_chunk (map (fun c => tl (wire_bytes c)) cs) = Ok (map decoded_chunk cs).
Proof.
  induction 1 as [|c cs Hc _ IH]; [reflexivity|].
  cbn [map mapM]. rewrite (default_chunk_wire c Hc). cbn [bind]. rewrite IH. reflexivity.
Qed.

Lemma wire_data_bounds (cs : list wire_chunk) (bound : Z) :
  len (List.concat (map wire_bytes cs)) < bound ->
  Forall (fun c => len (wire_data c) < bound) cs.
Proof.
  induction cs as [|c cs IH]; intros H; [constructor|].
  cbn [map List.concat] in H. rewrite len_app, len_wire_bytes in H.
  pose proof (len_nonneg (wire_data c)).
  pose proof (len_nonneg (List.concat (map wire_bytes cs))).
  constructor; [lia | apply IH; lia].
Qed.

Lemma slice_counter {A : Type} (pre : list A) (d a b c : A) :
  slice (pre ++ [d; a; b; c])%list (-4) (-3) = [d].
Proof.
  unfold slice. rewrite len_app. change (len [d; a; b; c]) with 4.
  pose proof (len_nonneg pre). rewrite !norm_neg by lia.
  replace (Z.to_nat (Z.max (-4 + _) 0)) with (List.length pre + 0)%nat
    by (unfold len in *; lia).
  rewrite skipn_pre.
  replace (Z.to_nat _) with 1%nat by lia. reflexivity.
Qed.

Lemma hex_one_neq (a b : byte) : a <> b -> String.eqb (hex [a]) (hex [b]) = false.
Proof.
  intros H. destruct (String.eqb (hex [a]) (hex [b])) eqn:E; [|reflexivity].
  apply hex_eqb in E. congruence.
Qed.

Lemma default_layout_decodes (message_type command : byte) (first : wire_chunk)
  (rest : list wire_chunk) (counter checksum : byte) :
  let chunks := first :: rest in
  b2z message_type = 2 \/ b2z message_type = 3 \/ b2z message_type = 5 ->
  command <> x0f -> command <> x35 -> command <> x42 ->
  wire_type first <> x00 ->
  wire_data (last chunks first) <> [] ->
  len (List.concat (map wire_bytes chunks)) + 1 < 256 ->
  exists m,
    decode_b0_message_structure
      (response_frame message_type command chunks counter checksum)
    = Ok (Some (SResponse m))
    /\ Response.data m = map decoded_chunk chunks
    /\ Response.message_type m = b2z message_type
    /\ Response.command m = hex [command]
    /\ Response.page m = b2z (wire_lead first)
    /\ Response.length_all_data m = len (List.concat (map wire_bytes chunks)) + 1
    /\ Response.message_counter m = b2z counter
    /\ Response.checksum m = hex [checksum]
    /\ Response.has_params m = false.
Proof.
  intros chunks Ht H0f H35 H42 Hty Hlast Hlen.
  set (body := List.concat (map wire_bytes chunks)) in *.
  pose proof (len_nonneg body) as Hb.
  set (frame := response_frame message_type command chunks counter checksum).
  assert (Hframe : frame = ([x0d; xb0; message_type; command; byte_of_Z (len body + 1)]
                              ++ body ++ [counter; x43; checksum; x0a])%list) by reflexivity.
  assert (Hbody : body = (wire_lead first :: wire_type first :: wire_index first
                            :: byte_of_Z (len (wire_data first)) :: wire_data first
                            ++ List.concat (map wire_bytes rest))%list) by reflexivity.
  assert (E2 : slice frame 2 3 = [message_type])
    by (apply slice_one; [lia | lia | reflexivity]).
  assert (E3 : slice frame 3 4 = [command])
    by (apply slice_one; [lia | lia | reflexivity]).
  assert (E4 : slice frame 4 5 = [byte_of_Z (len body + 1)])
    by (apply slice_one; [lia | lia | reflexivity]).
  assert (E5 : slice frame 5 6 = [wire_lead first])
    by (apply slice_one; [lia | lia | rewrite Hframe, Hbody; reflexivity]).
  assert (E6 : slice frame 6 7 = [wire_type first])
    by (apply slice_one; [lia | lia | rewrite Hframe, Hbody; reflexivity]).
  assert (Hsplit : frame = (([x0d; xb0; message_type; command; byte_of_Z (len body + 1)]
                               ++ body) ++ [counter; x43; checksum; x0a])%list)
    by (rewrite Hframe, <- app_assoc; reflexivity).
  assert (Ec : slice frame (-4) (-3) = [counter])
    by (rewrite Hsplit; apply slice_counter).
  assert (Ek : slice frame (-2) (-1) = [checksum]).
  { rewrite Hsplit.
    change [counter; x43; checksum; x0a] with ([counter] ++ [x43; checksum; x0a])%list.
    rewrite app_assoc. apply slice_checksum. }
  assert (Hchunks :
    response_chunks frame (hex [command]) (len body + 1)
    = Ok (false, "", map decoded_chunk chunks)).
  { unfold response_chunks. rewrite E6, b2i_one.
    destruct (Z.eqb_spec (b2z (wire_type first)) 0) as [Z0|Z0].
    { exfalso. apply Hty. apply b2z_inj. exact Z0. }
    change "0f" with (hex [x0f]). change "35" with (hex [x35]).
    change "42" with (hex [x42]).
    rewrite !hex_one_neq by assumption. cbv zeta.
    rewrite Hframe.
    rewrite (split_chunks_wire chunks
               [x0d; xb0; message_type; command; byte_of_Z (len body + 1)]
               [counter; x43; checksum; x0a] (len body + 1) 5 _ eq_refl).
    - rewrite mapM_default_chunk_wire; [reflexivity|].
      apply wire_data_bounds. fold body. lia.
    - apply wire_data_bounds. fold body. lia.
    - lia.
    - apply (starts_before_last _ _ first); [discriminate | exact Hlast |].
      fold body. lia.
    - fold body. lia. }
  unfold decode_b0_message_structure. cbv zeta. fold frame.
  rewrite E2, E3, E4, E5, Ec, Ek, !b2i_one.
  rewrite b2z_byte_of_Z by lia. rewrite Hchunks.
  unfold MessageType_ADD, MessageType_REMOVE, MessageType_REQUEST,
    MessageType_PAGED_RESPONSE, MessageType_RESPONSE, MessageType_UNKNOWN.
  destruct Ht as [Ht|[Ht|Ht]]; rewrite Ht; cbn [Z.eqb Pos.eqb orb bind];
    eexists; (split; [reflexivity|]); cbn; rewrite ?Ht; repeat split.
Qed.

(** A response frame laid out in the default layout is decoded to the
    chunks it was laid out from. *)
Theorem default_layout_round_trip (message_type command : byte) (first : wire_chunk)
  (rest : list wire_chunk) (counter checksum : byte) :
  let chunks := first :: rest in
  b2z message_type = 2 \/ b2z message_type = 3 \/ b2z message_type = 5 ->
  command <> x0f -> command <> x35 -> command <> x42 ->
  wire_type first <> x00 ->
  wire_data (last chunks first) <> [] ->
  len (List.concat (map wire_bytes chunks)) + 1 < 256 ->
  exists m,
    decode_b0_message_structure
      (response_frame message_type command chunks counter checksum)
    = Ok (Some (SResponse m))
    /\ Response.data m = map decoded_chunk chunks
    /\ Response.message_type m = b2z message_type
    /\ Response.command m = hex [command]
    /\ Response.page m = b2z (wire_lead first)
    /\ Response.length_all_data m = len (List.concat (map wire_bytes chunks)) + 1
    /\ Response.message_counter m = b2z counter
    /\ Response.checksum m = hex [checksum]
    /\ Response.has_params m = false.
Proof.
  intros chunks Ht H0f H35 H42 Hty Hlast Hlen.
  exact (default_layout_decodes message_type command first rest counter checksum
           Ht H0f H35 H42 Hty Hlast Hlen).
Qed.

Lemma default_layout_round_trip_witness :
  let chunks :=
    [{| wire_lead := xff; wire_type := x10; wire_index := x03;
        wire_data := [xa1; xa2; xa3] |};
     {| wire_lead := x00; wire_type := x08; wire_index := x04; wire_data := [x05] |}] in
  exists m,
    decode_b0_message_structure (response_frame x03 x11 chunks x07 x00)
    = Ok (Some (SResponse m))
    /\ Response.data m = map decoded_chunk chunks
    /\ Response.message_type m = 3
    /\ Response.command m = "11"
    /\ Response.page m = 255
    /\ Response.length_all_data m = 13
    /\ Response.message_counter m = 7
    /\ Response.checksum m = "00"
    /\ Response.has_params m = false.
Proof.
  apply (default_layout_round_trip x03 x11
           {| wire_lead := xff; wire_type := x10; wire_index := x03;
              wire_data := [xa1; xa2; xa3] |}
           [{| wire_lead := x00; wire_type := x08; wire_index := x04;
               wire_data := [x05] |}] x07 x00);
    try discriminate.
  - right. left. reflexivity.
  - reflexivity.
Defined.

(** ** Pages against a single frame *)














(** The layouts of the commands 0f, 35 and 42 cut their one chunk the
    same way, rendering the elements with [hex()]. *)
Lemma own_layouts_cut_by_width (msg : bytes) (length_all_data : Z) :
  b2i (slice msg 6 7) true <> 0 ->
  response_chunks msg "0f" length_all_data =
    Ok (false, "",
        [chunk_of hex
           {| c_type := b2i (slice msg 6 7) true;
              c_index := 255;
              c_length := b2i (slice msg 4 5) true - 4;
              c_width := Z.max 1 (b2i (slice msg 6 7) true / 8);
              c_payload := slice msg 8 (8 + (b2i (slice msg 4 5) true - 4));
              c_extra := None |}])
  /\ response_chunks msg "35" length_all_data =
       Ok (true, hex_sep (slice msg 9 11),
           [chunk_of hex
              {| c_type := b2i (slice msg 11 12) true;
                 c_index := 255;
                 c_length := b2i (slice msg 8 9) true - 3;
                 c_width := Z.max 1 (b2i (slice msg 11 12) true / 8);
                 c_payload := slice msg 12 (12 + (b2i (slice msg 8 9) true - 3));
                 c_extra := None |}])
  /\ (b2i (slice msg 13 15) false / 8 <> 0 ->
      let header :=
        Chunk.Build_B042 (b2i (slice msg 11 13) false) (b2i (slice msg 21 23) false)
          (b2i (slice msg 19 21) false) (b2i (slice msg 13 15) false / 8) in
      response_chunks msg "42" length_all_data =
        Ok (true, hex_sep (slice msg 9 11),
            [chunk_of hex
               {| c_type := b2i (slice msg 17 18) true;
                  c_index := 255;
                  c_length := b2i (slice msg 8 9) true - 14;
                  c_width := b2i (slice msg 13 15) false / 8;
                  c_payload := slice msg 23 (23 + (b2i (slice msg 8 9) true - 14));
                  c_extra := Some header |}])).
Proof.
  intros H6. unfold response_chunks.
  destruct (Z.eqb_spec (b2i (slice msg 6 7) true) 0) as [E|_]; [contradiction|].
  cbn [String.eqb Ascii.eqb Bool.eqb]. cbv zeta. unfold chunk_bytearray.
  split; [|split].
  - destruct (Z.eqb_spec (Z.max 1 (b2i (slice msg 6 7) true / 8)) 0); [lia|].
    destruct (Z.ltb_spec (Z.max 1 (b2i (slice msg 6 7) true / 8)) 0); [lia|].
    reflexivity.
  - destruct (Z.eqb_spec (Z.max 1 (b2i (slice msg 11 12) true / 8)) 0); [lia|].
    destruct (Z.ltb_spec (Z.max 1 (b2i (slice msg 11 12) true / 8)) 0); [lia|].
    reflexivity.
  - intros Hw. pose proof (b2i_nonneg (slice msg 13 15) false) as N.
    assert (0 <= b2i (slice msg 13 15) false / 8) by (apply Z.div_pos; lia).
    destruct (Z.eqb_spec (b2i (slice msg 13 15) false / 8) 0); [contradiction|].
    destruct (Z.ltb_spec (b2i (slice msg 13 15) false / 8) 0); [lia|].
    reflexivity.
Qed.



(** ** Semantic decoders *)

(** With no chunk at all, the decoders guarded by [except IndexError]
    answer "Invalid Data", those that loop over the chunks answer an
    empty payload, 51 answers nothing, and 0f and 22 raise. *)
Theorem decoders_without_chunks (message : Response.B0StructuredResponseMessage) :
  Response.data message = [] ->
  b0_2a_data_decoder message = Ok (B0DecodedData (VStr "Invalid Data"))
  /\ b0_36_data_decoder message = Ok (B0DecodedData (VStr "Invalid Data"))
  /\ b0_3d_data_decoder message = Ok (B0DecodedData (VStr "Invalid Data"))
  /\ b0_52_data_decoder message = Ok (B0DecodedData (VStr "Invalid Data"))
  /\ b0_64_data_decoder message = Ok (B0DecodedData (VStr "Invalid Data"))
  /\ b0_77_data_decoder message = Ok (B0DecodedData (VStr "Invalid Data"))
  /\ b0_4b_data_decoder message = Ok (B0DecodedData (VDict []))
  /\ b0_75_data_decoder message = Ok (B0DecodedData (VList []))
  /\ b0_gen_data_decoder message
     = Ok (B0GenDecodedData (Response.length_all_data message) [])
  /\ b0_51_data_decoder message = Ok ReturnsNone
  /\ b0_0f_data_decoder message = Raise IndexError
  /\ b0_22_data_decoder message = Raise IndexError.
Proof.
  intros H.
  unfold b0_36_data_decoder, b0_2a_data_decoder, b0_3d_data_decoder, b0_52_data_decoder,
    b0_64_data_decoder, b0_77_data_decoder, b0_4b_data_decoder, b0_75_data_decoder,
    b0_gen_data_decoder, b0_51_data_decoder, b0_0f_data_decoder, b0_22_data_decoder.
  rewrite H. repeat split.
Qed.

Lemma decoders_without_chunks_witness :
  b0_77_data_decoder (response_of_chunks "77" [])
  = Ok (B0DecodedData (VStr "Invalid Data"))
  /\ b0_22_data_decoder (response_of_chunks "22" []) = Raise IndexError.
Proof.
  split.
  - apply (decoders_without_chunks (response_of_chunks "77" []) eq_refl).
  - apply (decoders_without_chunks (response_of_chunks "22" []) eq_refl).
Defined.

(** The six device counts are the first six elements of the first chunk;
    with fewer than six the payload is "Invalid Data". *)
Theorem device_counts (message : Response.B0StructuredResponseMessage)
  (chunk : B0DataChunk) (rest : list B0DataChunk) (els : list bytes) :
  Response.data message = chunk :: rest ->
  Chunk.data chunk = Chunk.Elems (map EBytes els) ->
  b0_52_data_decoder message =
    Ok (B0DecodedData
          match els with
          | c0 :: c1 :: c2 :: c3 :: c4 :: c5 :: _ =>
              VDict [(KStr "Unknown", VInt (b2i c0 true));
                     (KStr "Sensors", VInt (b2i c1 true));
                     (KStr "Keypads", VInt (b2i c2 true));
                     (KStr "Keyfobs", VInt (b2i c3 true));
                     (KStr "Sirens", VInt (b2i c4 true));
                     (KStr "PGMs", VInt (b2i c5 true))]
          | _ => VStr "Invalid Data"
          end).
Proof.
  intros Hd Hc. unfold b0_52_data_decoder. rewrite Hd. cbn [item nth_error bind].
  rewrite Hc. unfold count_at. cbn [elems_of].
  do 6 (destruct els as [|? els]; [reflexivity|]). reflexivity.
Qed.

Lemma device_counts_witness :
  b0_52_data_decoder
    (response_of_chunks "52"
       [chunk_of_elements 8 3 [[x00]; [x03]; [x01]; [x02]; [x01]; [x00]; [x09]]])
  = Ok (B0DecodedData
          (VDict [(KStr "Unknown", VInt 0); (KStr "Sensors", VInt 3);
                  (KStr "Keypads", VInt 1); (KStr "Keyfobs", VInt 2);
                  (KStr "Sirens", VInt 1); (KStr "PGMs", VInt 0)]))
  /\ b0_52_data_decoder
       (response_of_chunks "52" [chunk_of_elements 8 3 [[x00]; [x03]; [x01]; [x02]; [x01]]])
     = Ok (B0DecodedData (VStr "Invalid Data")).
Proof.
  split.
  - exact (device_counts
             (response_of_chunks "52"
                [chunk_of_elements 8 3 [[x00]; [x03]; [x01]; [x02]; [x01]; [x00]; [x09]]])
             (chunk_of_elements 8 3 [[x00]; [x03]; [x01]; [x02]; [x01]; [x00]; [x09]])
             [] [[x00]; [x03]; [x01]; [x02]; [x01]; [x00]; [x09]] eq_refl eq_refl).
  - exact (device_counts
             (response_of_chunks "52"
                [chunk_of_elements 8 3 [[x00]; [x03]; [x01]; [x02]; [x01]]])
             (chunk_of_elements 8 3 [[x00]; [x03]; [x01]; [x02]; [x01]])
             [] [[x00]; [x03]; [x01]; [x02]; [x01]] eq_refl eq_refl).
Defined.

Lemma gen_chunk_outcome (c : B0DataChunk) :
  bytes_payload c = true ->
  if known_codes c then exists entry, gen_chunk c = Ok entry
  else gen_chunk c = Raise ValueError.
Proof.
  intros Hb. unfold known_codes, gen_chunk, enum_name.
  assert (Hhex : exists h,
             match Chunk.data c with
             | Chunk.Elems l => ds <- mapM elem_hex_sep l ;; Ok (VList (map VStr ds))
             | Chunk.Flat b => Ok (VStr (hex_sep b))
             end = Ok h).
  { unfold bytes_payload in Hb. destruct (Chunk.data c) as [b|l]; [eexists; reflexivity|].
    induction l as [|e l IH]; [eexists; reflexivity|].
    cbn [forallb] in Hb. apply andb_true_iff in Hb. destruct Hb as [He Hl].
    destruct e as [b|n]; [|discriminate].
    destruct (IH Hl) as [h Hh]. cbn [mapM elem_hex_sep bind].
    destruct (mapM elem_hex_sep l) as [ds|e]; [|discriminate].
    eexists. reflexivity. }
  destruct Hhex as [h ->]. cbn [bind].
  destruct (DataTypes (Chunk.data_type c)); [|reflexivity].
  destruct (IndexName (Chunk.index c)); [|reflexivity].
  eexists. reflexivity.
Qed.

(** The generic decoder answers with one entry per chunk exactly when
    every chunk has a data type in [DataTypes] and an index in
    [IndexName]; otherwise it raises [ValueError]. *)
Theorem generic_decoder_outcome (message : Response.B0StructuredResponseMessage) :
  forallb bytes_payload (Response.data message) = true ->
  if forallb known_codes (Response.data message)
  then exists entries,
         b0_gen_data_decoder message
         = Ok (B0GenDecodedData (Response.length_all_data message) entries)
         /\ List.length entries = List.length (Response.data message)
  else b0_gen_data_decoder message = Raise ValueError.
Proof.
  intros Hb. unfold b0_gen_data_decoder.
  assert (G : if forallb known_codes (Response.data message)
              then exists entries, mapM gen_chunk (Response.data message) = Ok entries
                                   /\ List.length entries
                                      = List.length (Response.data message)
              else mapM gen_chunk (Response.data message) = Raise ValueError).
  { induction (Response.data message) as [|c cs IH].
    - exists []. split; reflexivity.
    - cbn [forallb] in *. apply andb_true_iff in Hb. destruct Hb as [Hc Hcs].
      specialize (IH Hcs). pose proof (gen_chunk_outcome c Hc) as Hg.
      cbn [mapM]. destruct (known_codes c); cbn [andb].
      + destruct Hg as [entry ->]. cbn [bind].
        destruct (forallb known_codes cs).
        * destruct IH as (entries & -> & Hl). eexists. split; [reflexivity|].
          cbn [List.length]. rewrite Hl. reflexivity.
        * rewrite IH. reflexivity.
      + rewrite Hg. reflexivity. }
  destruct (forallb known_codes (Response.data message)).
  - destruct G as (entries & -> & Hl). exists entries. split; [reflexivity | exact Hl].
  - rewrite G. reflexivity.
Qed.

Lemma generic_decoder_outcome_witness :
  (exists entries,
      b0_gen_data_decoder (response_of_chunks "11" [chunk_of_elements 8 3 [[xaa]]])
      = Ok (B0GenDecodedData 0 entries)
      /\ List.length entries = 1%nat)
  /\ b0_gen_data_decoder (response_of_chunks "11" [chunk_of_elements 8 21 [[xaa]]])
     = Raise ValueError.
Proof.
  split.
  - exact (generic_decoder_outcome
             (response_of_chunks "11" [chunk_of_elements 8 3 [[xaa]]]) eq_refl).
  - exact (generic_decoder_outcome
             (response_of_chunks "11" [chunk_of_elements 8 21 [[xaa]]]) eq_refl).
Defined.

Lemma key_eqb_spec (a b : key) : key_eqb a b = true <-> a = b.
Proof.
  destruct a, b; cbn [key_eqb]; rewrite ?String.eqb_eq, ?Z.eqb_eq;
    split; intros H; try discriminate; congruence.
Qed.

Lemma decode_hex_timestamp_value (data : bytes) :
  data <> [] -> decode_hex_timestamp data = Ok (b2i data false).
Proof.
  intros H. unfold decode_hex_timestamp, b2i, from_bytes_big.
  destruct (rev data) as [|x ts] eqn:E.
  - apply (f_equal (@List.length byte)) in E. rewrite length_rev in E.
    destruct data; [contradiction | discriminate].
  - reflexivity.
Qed.

Lemma slice_to_nonempty {A : Type} (l : list A) (n : Z) :
  l <> [] -> 0 < n -> slice_to l n <> [].
Proof.
  intros Hl Hn. destruct l as [|a l]; [contradiction|].
  unfold slice_to, len. rewrite norm_pos by lia. cbn [List.length].
  replace (Z.to_nat _) with (S (Z.to_nat (Z.min (n - 1) (Z.of_nat (List.length l))))) by lia.
  discriminate.
Qed.

Lemma last_event_loop_spec (l : list bytes) (acc : list (key * value)) (idx : Z) :
  Forall (fun e => e <> []) l ->
  exists acc',
    last_event_loop acc idx (map EBytes l) = Ok acc'
    /\ forall k,
         dict_get key_eqb acc' (KInt k) =
           if (idx <? k) && (k <=? idx + len l)
           then option_map last_event_entry (nth_error l (Z.to_nat (k - idx - 1)))
           else dict_get key_eqb acc (KInt k).
Proof.
  intros H. revert acc idx. induction H as [|e l He _ IH]; intros acc idx.
  - exists acc. split; [reflexivity|]. intros k.
    unfold len. cbn [List.length Z.of_nat]. rewrite Z.add_0_r.
    destruct (Z.ltb_spec idx k); destruct (Z.leb_spec k idx); cbn [andb];
      try reflexivity; lia.
  - cbn [map last_event_loop elem_slice_to elem_slice bind].
    rewrite decode_hex_timestamp_value by (apply slice_to_nonempty; [exact He | lia]).
    cbn [bind]. fold (last_event_entry e).
    destruct (IH (dict_set key_eqb acc (KInt (idx + 1)) (last_event_entry e)) (idx + 1))
      as (acc' & -> & Hget).
    exists acc'. split; [reflexivity|]. intros k. rewrite Hget, len_cons.
    rewrite (dict_get_set key_eqb key_eqb_spec). cbn [key_eqb].
    pose proof (len_nonneg l).
    destruct (Z.ltb_spec (idx + 1) k); destruct (Z.ltb_spec idx k);
      destruct (Z.eqb_spec (idx + 1) k); cbn [andb];
      repeat match goal with
             | |- context [k <=? ?x] => destruct (Z.leb_spec k x)
             end; try (unfold len in *; lia); try reflexivity.
    + replace (Z.to_nat (k - idx - 1)) with (S (Z.to_nat (k - (idx + 1) - 1))) by lia.
      reflexivity.
    + subst k. replace (Z.to_nat _) with 0%nat by lia. reflexivity.
Qed.

Lemma last_event_chunks_spec (groups : list (list bytes)) (chunks : list B0DataChunk)
  (acc : list (key * value)) :
  Forall2 (fun c g => Chunk.data c = Chunk.Elems (map EBytes g)) chunks groups ->
  Forall (Forall (fun e => e <> [])) groups ->
  exists acc',
    last_event_chunks acc chunks = Ok acc'
    /\ forall i,
         dict_get key_eqb acc' (KInt (Z.of_nat i + 1)) =
           match latest i groups with
           | Some e => Some (last_event_entry e)
           | None => dict_get key_eqb acc (KInt (Z.of_nat i + 1))
           end.
Proof.
  intros HF. revert acc. induction HF as [|c g chunks groups Hc HF IH]; intros acc Hne.
  - exists acc. split; reflexivity.
  - inversion Hne as [|? ? Hg Hne']; subst.
    cbn [last_event_chunks]. rewrite Hc. cbn [elems_of].
    destruct (last_event_loop_spec g acc 0 Hg) as (acc1 & -> & H1). cbn [bind].
    destruct (IH acc1 Hne') as (acc' & -> & H2).
    exists acc'. split; [reflexivity|]. intros i. rewrite H2. cbn [latest].
    destruct (latest i groups); [reflexivity|].
    rewrite H1.
    destruct (Z.ltb_spec 0 (Z.of_nat i + 1)); [|lia]. cbn [andb].
    replace (Z.to_nat (Z.of_nat i + 1 - 0 - 1)) with i by lia.
    destruct (Z.leb_spec (Z.of_nat i + 1) (0 + len g)) as [L|L].
    + destruct (nth_error g i) eqn:E; [reflexivity|].
      apply nth_error_None in E. unfold len in L. lia.
    + destruct (nth_error g i) eqn:E; [|reflexivity].
      assert (nth_error g i <> None) as N by congruence.
      apply nth_error_Some in N. unfold len in L. lia.
Qed.

(** The last-event map is keyed by the position inside a chunk, counted
    from 1 in every chunk: position [i] of the answer holds the entry of
    the last chunk that has an [i]-th element, and is absent when no
    chunk has one. *)
Theorem last_event_latest_chunk_wins (message : Response.B0StructuredResponseMessage)
  (groups : list (list bytes)) :
  Forall2 (fun c g => Chunk.data c = Chunk.Elems (map EBytes g))
          (Response.data message) groups ->
  Forall (Forall (fun e => e <> [])) groups ->
  exists events,
    b0_4b_data_decoder message = Ok (B0DecodedData (VDict events))
    /\ forall i,
         dict_get key_eqb events (KInt (Z.of_nat i + 1))
         = option_map last_event_entry (latest i groups).
Proof.
  intros HF Hne. unfold b0_4b_data_decoder.
  destruct (last_event_chunks_spec groups (Response.data message) [] HF Hne)
    as (events & -> & H).
  exists events. split; [reflexivity|]. intros i. rewrite H.
  destruct (latest i groups); reflexivity.
Qed.

Lemma last_event_latest_chunk_wins_witness :
  let first := [[x73; xf2; x97; x66; x01]; [x74; xf2; x97; x66; x02]] in
  let second := [[x75; xf2; x97; x66; x03]] in
  exists events,
    b0_4b_data_decoder
      (response_of_chunks "4b" [chunk_of_elements 40 3 first; chunk_of_elements 40 3 second])
    = Ok (B0DecodedData (VDict events))
    /\ forall i,
         dict_get key_eqb events (KInt (Z.of_nat i + 1))
         = option_map last_event_entry (latest i [first; second]).
Proof.
  apply (last_event_latest_chunk_wins
           (response_of_chunks "4b"
              [chunk_of_elements 40 3 [[x73; xf2; x97; x66; x01]; [x74; xf2; x97; x66; x02]];
               chunk_of_elements 40 3 [[x75; xf2; x97; x66; x03]]])
           [[[x73; xf2; x97; x66; x01]; [x74; xf2; x97; x66; x02]];
            [[x75; xf2; x97; x66; x03]]]).
  - constructor; [reflexivity|]. constructor; [reflexivity|]. constructor.
  - repeat constructor; discriminate.
Defined.

(** ** Zone brightness *)

Lemma brightness_from_above (zone k : Z) (bs : bytes) :
  k <= zone -> dict_get key_eqb (brightness_from zone bs) (KInt k) = None.
Proof.
  revert zone. induction bs as [|b bs IH]; intros zone H; [reflexivity|].
  cbn [brightness_from]. rewrite dict_get_app.
  rewrite (IH (zone + 1)) by lia.
  destruct (Byte.byte_eq_dec b xff); [reflexivity|].
  cbn [dict_get key_eqb]. destruct (Z.eqb_spec (zone + 1) k); [lia | reflexivity].
Qed.

Lemma zone_brightness_loop_bytes (bs : bytes) (zone : Z) (acc : list (key * value)) :
  (forall k, zone < k -> dict_get key_eqb acc (KInt k) = None) ->
  zone_brightness_loop acc zone (map (fun b => EBytes [b]) bs)
  = Ok (acc ++ brightness_from zone bs)%list.
Proof.
  revert zone acc. induction bs as [|b bs IH]; intros zone acc Hacc.
  - cbn. rewrite app_nil_r. reflexivity.
  - cbn [map zone_brightness_loop brightness_from]. rewrite elem_neq_ff_byte.
    destruct (Byte.byte_eq_dec b xff) as [E|E].
    + cbn [bind app]. apply IH. intros k Hk. apply Hacc. lia.
    + cbn [elem_b2i bind]. rewrite dict_set_fresh by (apply Hacc; lia).
      rewrite IH.
      * rewrite <- app_assoc. reflexivity.
      * intros k Hk. rewrite dict_get_app, Hacc by lia.
        cbn [dict_get key_eqb]. destruct (Z.eqb_spec (zone + 1) k); [lia|reflexivity].
Qed.

Lemma brightness_from_lookup (bs : bytes) (zone : Z) (i : nat) (v : byte) :
  nth_error bs i = Some v ->
  dict_get key_eqb (brightness_from zone bs) (KInt (zone + Z.of_nat i + 1)) =
    if Byte.byte_eq_dec v xff then None
    else Some (VStr (get_lookup_value ZoneBrightness (b2z v))).
Proof.
  revert zone i. induction bs as [|b bs IH]; intros zone i H.
  - destruct i; discriminate.
  - cbn [brightness_from]. rewrite dict_get_app. destruct i as [|i].
    + injection H as ->. replace (zone + Z.of_nat 0 + 1) with (zone + 1) by lia.
      destruct (Byte.byte_eq_dec v xff).
      * cbn [dict_get]. apply brightness_from_above. lia.
      * cbn [dict_get key_eqb]. rewrite Z.eqb_refl. reflexivity.
    + cbn [nth_error] in H.
      replace (zone + Z.of_nat (S i) + 1) with (zone + 1 + Z.of_nat i + 1) by lia.
      rewrite (IH (zone + 1) i H).
      destruct (Byte.byte_eq_dec b xff); [reflexivity|].
      cbn [dict_get key_eqb].
      destruct (Z.eqb_spec (zone + 1) (zone + 1 + Z.of_nat i + 1)); [lia|reflexivity].
Qed.

(** Zone brightness (command 77): the byte [v] at 0-based position [i]
    is reported under zone [i + 1] as the [ZoneBrightness] name of [v],
    as "UNKNOWN" when [v] is above 2, and is left out when [v] is 0xFF. *)
Theorem zone_brightness_decode
  (message : Response.B0StructuredResponseMessage) (chunk : B0DataChunk)
  (rest : list B0DataChunk) (bs : bytes) (i : nat) (v : byte) :
  Response.data message = chunk :: rest ->
  Chunk.data chunk = Chunk.Elems (map (fun b => EBytes [b]) bs) ->
  nth_error bs i = Some v ->
  exists zone_brightness,
    b0_77_data_decoder message =
      Ok (B0DecodedData
            (VDict [(KStr (get_lookup_value IndexName (Chunk.index chunk)),
                     VDict zone_brightness)]))
    /\ dict_get key_eqb zone_brightness (KInt (Z.of_nat i + 1)) =
         (if Byte.byte_eq_dec v xff then None
          else Some (VStr (match b2z v with
                           | 0 => "DARKNESS"
                           | 1 => "PARTIAL_LIGHT"
                           | 2 => "DAYLIGHT"
                           | _ => "UNKNOWN"
                           end))).
Proof.
  intros Hd Hc Hn. exists (brightness_from 0 bs). split.
  - unfold b0_77_data_decoder. rewrite Hd. cbn [item nth_error bind].
    rewrite Hc. cbn [elems_of]. rewrite zone_brightness_loop_bytes by reflexivity.
    reflexivity.
  - pose proof (brightness_from_lookup bs 0 i v Hn) as L.
    change (0 + Z.of_nat i + 1) with (Z.of_nat i + 1) in L. rewrite L.
    destruct (Byte.byte_eq_dec v xff); [reflexivity|].
    do 2 f_equal. pose proof (b2z_range v).
    destruct (b2z v) as [|p|p]; [reflexivity| |lia].
    destruct p as [[|[]|]|[|[]|]|]; reflexivity.
Qed.

Lemma zone_brightness_decode_witness :
  let message := response_of_chunks "77" [chunk_of_elements 8 3 [[x02]; [xff]; [x07]]] in
  (exists zone_brightness,
      b0_77_data_decoder message
      = Ok (B0DecodedData (VDict [(KStr "ZONES", VDict zone_brightness)]))
      /\ dict_get key_eqb zone_brightness (KInt 1) = Some (VStr "DAYLIGHT"))
  /\ (exists zone_brightness,
      b0_77_data_decoder message
      = Ok (B0DecodedData (VDict [(KStr "ZONES", VDict zone_brightness)]))
      /\ dict_get key_eqb zone_brightness (KInt 2) = None)
  /\ (exists zone_brightness,
      b0_77_data_decoder message
      = Ok (B0DecodedData (VDict [(KStr "ZONES", VDict zone_brightness)]))
      /\ dict_get key_eqb zone_brightness (KInt 3) = Some (VStr "UNKNOWN")).
Proof.
  split; [|split].
  - exact (zone_brightness_decode
             (response_of_chunks "77" [chunk_of_elements 8 3 [[x02]; [xff]; [x07]]])
             (chunk_of_elements 8 3 [[x02]; [xff]; [x07]]) [] [x02; xff; x07] 0 x02
             eq_refl eq_refl eq_refl).
  - exact (zone_brightness_decode
             (response_of_chunks "77" [chunk_of_elements 8 3 [[x02]; [xff]; [x07]]])
             (chunk_of_elements 8 3 [[x02]; [xff]; [x07]]) [] [x02; xff; x07] 1 xff
             eq_refl eq_refl eq_refl).
  - exact (zone_brightness_decode
             (response_of_chunks "77" [chunk_of_elements 8 3 [[x02]; [xff]; [x07]]])
             (chunk_of_elements 8 3 [[x02]; [xff]; [x07]]) [] [x02; xff; x07] 2 x07
             eq_refl eq_refl eq_refl).
Defined.

(** ** Settings of command 35 *)

Lemma mapM_app {A B : Type} (f : A -> result B) (a b : list A) :
  mapM f (a ++ b) = (xs <- mapM f a ;; ys <- mapM f b ;; Ok (xs ++ ys)%list).
Proof.
  induction a as [|x a IH].
  - cbn. destruct (mapM f b); reflexivity.
  - cbn [app mapM]. destruct (f x) as [y|e]; [|reflexivity]. cbn [bind].
    rewrite IH. destruct (mapM f a) as [xs|e]; [|reflexivity]. cbn [bind].
    destruct (mapM f b); reflexivity.
Qed.

Lemma range_step_1 (n : Z) :
  range 0 n 1 = map (fun k => 0 + Z.of_nat k * 1) (seq 0 (Z.to_nat n)).
Proof.
  unfold range. do 2 f_equal. rewrite Z.div_1_r. lia.
Qed.

Lemma firstn_snoc {A : Type} (l : list A) (n : nat) (x : A) :
  nth_error l n = Some x -> firstn (S n) l = (firstn n l ++ [x])%list.
Proof.
  revert n. induction l as [|a l IH]; intros n H.
  - destruct n; discriminate.
  - destruct n as [|n].
    + injection H as ->. reflexivity.
    + cbn [nth_error] in H. cbn [firstn app]. f_equal. cbn [firstn] in IH.
      apply IH, H.
Qed.

Lemma mapM_positions {A B : Type} (data : list A) (f : Z -> result B) (g : A -> B)
  (n : nat) :
  (n <= List.length data)%nat ->
  (forall k x, nth_error data k = Some x -> f (0 + Z.of_nat k * 1) = Ok (g x)) ->
  mapM f (map (fun k => 0 + Z.of_nat k * 1) (seq 0 n)) = Ok (map g (firstn n data)).
Proof.
  intros Hn Hf. induction n as [|n IH]; [reflexivity|].
  rewrite seq_S, map_app, mapM_app, IH by lia. cbn [bind plus map mapM].
  destruct (nth_error data n) as [x|] eqn:E.
  - rewrite (Hf n x E). cbn [bind]. rewrite (firstn_snoc data n x E), map_app.
    reflexivity.
  - apply nth_error_None in E. lia.
Qed.

Lemma b2i_single (x : byte) (e : bool) : b2i [x] e = b2z x.
Proof. destruct e; reflexivity. Qed.

Lemma slice_at {A : Type} (data : list A) (k : nat) (x : A) :
  nth_error data k = Some x ->
  slice data (0 + Z.of_nat k * 1) (0 + Z.of_nat k * 1 + 1) = [x].
Proof.
  intros H. apply slice_one; [lia | lia |].
  replace (Z.to_nat (0 + Z.of_nat k * 1)) with k by lia. exact H.
Qed.

(** The settings 31 00 (zone types) and 32 00 (zone names) report every
    byte of the payload except the last one: a zone type by its name in
    [ZONE_TYPES], "UNKNOWN" from 17 on, a zone name by its number. *)
Theorem zone_settings_leave_last_byte_out (data : bytes) :
  m35_31_00_decoder data
  = Ok (VList (map (fun b => VStr (nth (Z.to_nat (b2z b)) ZONE_TYPES "UNKNOWN"))
                   (removelast data)))
  /\ m35_32_00_decoder data
     = Ok (VList (map (fun b => VInt (b2z b)) (removelast data))).
Proof.
  assert (Hn : (Z.to_nat (len data - 1) <= List.length data)%nat)
    by (unfold len; lia).
  assert (Hr : removelast data = firstn (Z.to_nat (len data - 1)) data).
  { rewrite removelast_firstn_len. f_equal. unfold len. lia. }
  unfold m35_31_00_decoder, m35_32_00_decoder. rewrite range_step_1, Hr. split.
  - rewrite (mapM_positions data _
               (fun b => VStr (nth (Z.to_nat (b2z b)) ZONE_TYPES "UNKNOWN")) _ Hn);
      [reflexivity|].
    intros k x Hk. rewrite (slice_at data k x Hk), b2i_single. unfold item.
    destruct (nth_error ZONE_TYPES (Z.to_nat (b2z x))) as [name|] eqn:E.
    + cbn [bind try_except]. rewrite (nth_error_nth _ _ "UNKNOWN" E). reflexivity.
    + cbn [bind try_except]. apply nth_error_None in E.
      rewrite nth_overflow by exact E. reflexivity.
  - rewrite (mapM_positions data _ (fun b => VInt (b2z b)) _ Hn); [reflexivity|].
    intros k x Hk. rewrite (slice_at data k x Hk), b2i_single. reflexivity.
Qed.

Lemma fold_left_raise {A B : Type} (f : result A -> B -> result A) (l : list B) (e : exn) :
  (forall b, f (Raise e) b = Raise e) -> fold_left f l (Raise e) = Raise e.
Proof.
  intros H. induction l as [|b l IH]; [reflexivity|].
  cbn [fold_left]. rewrite H. exact IH.
Qed.

(** The setting 07 00 (capabilities) keys the 16-bit little-endian words
    of the payload by the names of its own index enum, for up to 41
    bytes; with 42 bytes or more the 21st word has no name and the
    decoder raises. *)
Theorem capabilities_setting (data : bytes) :
  if len data <=? 41
  then m35_07_00_decoder data
       = Ok (VDict (combine (map (fun p => KStr (snd p)) B03507IndexName_table)
                            (map VInt (le_words data))))
  else m35_07_00_decoder data = Raise ValueError.
Proof.
  destruct (Z.leb_spec (len data) 41) as [H|H].
  - unfold len in H.
    do 42 (destruct data as [|? data]; [reflexivity|]).
    cbn [List.length] in H. lia.
  - unfold m35_07_00_decoder, range.
    replace (Z.to_nat ((len data - 1 - 0 + 2 - 1) / 2))
      with (21 + (Z.to_nat ((len data - 1 - 0 + 2 - 1) / 2) - 21))%nat.
    2:{ assert (21 <= (len data - 1 - 0 + 2 - 1) / 2)
          by (apply Z.div_le_lower_bound; lia).
        lia. }
    rewrite seq_app, map_app, fold_left_app.
    match goal with
    | |- context [fold_left ?f (map ?g (seq 0 21)) (Ok [])] =>
        replace (fold_left f (map g (seq 0 21)) (Ok [])) with (@Raise (list (key * value)) ValueError)
          by (symmetry; vm_compute; reflexivity)
    end.
    rewrite fold_left_raise by reflexivity. reflexivity.
Qed.

Lemma list_ascii_app (a b : string) :
  list_ascii_of_string (a ++ b) = (list_ascii_of_string a ++ list_ascii_of_string b)%list.
Proof. induction a as [|c a IH]; [reflexivity|]. cbn. rewrite IH. reflexivity. Qed.

Lemma string_of_list_app (a b : list ascii) :
  string_of_list_ascii (a ++ b) = string_of_list_ascii a ++ string_of_list_ascii b.
Proof. induction a as [|c a IH]; [reflexivity|]. cbn. rewrite IH. reflexivity. Qed.

Lemma hex_as_chars (data : bytes) :
  list_ascii_of_string (hex data) = flat_map hex_chars data.
Proof.
  induction data as [|b data IH]; [reflexivity|].
  cbn [hex flat_map]. rewrite list_ascii_app, IH. reflexivity.
Qed.

Lemma chars_as_hex (data : bytes) :
  string_of_list_ascii (flat_map hex_chars data) = hex data.
Proof.
  rewrite <- hex_as_chars. apply string_of_list_ascii_of_string.
Qed.

Section Pairs.

Context {A B : Type} (f : A -> list B).
Hypothesis two : forall a, List.length (f a) = 2%nat.

Lemma length_flat2 (l : list A) : List.length (flat_map f l) = (2 * List.length l)%nat.
Proof.
  induction l as [|a l IH]; [reflexivity|].
  cbn [flat_map List.length]. rewrite length_app, two, IH. lia.
Qed.

Lemma skipn_flat2 (l : list A) (n : nat) :
  skipn (2 * n) (flat_map f l) = flat_map f (skipn n l).
Proof.
  revert l. induction n as [|n IH]; intros l; [reflexivity|].
  destruct l as [|a l]; [reflexivity|].
  cbn [flat_map skipn]. rewrite skipn_app, two.
  replace (2 * S n - 2)%nat with (2 * n)%nat by lia.
  rewrite skipn_all2 by (rewrite two; lia). cbn [app]. apply IH.
Qed.

Lemma firstn_flat2 (l : list A) (n : nat) :
  firstn (2 * n) (flat_map f l) = flat_map f (firstn n l).
Proof.
  revert l. induction n as [|n IH]; intros l; [reflexivity|].
  destruct l as [|a l]; [reflexivity|].
  cbn [flat_map firstn]. rewrite firstn_app, two.
  replace (2 * S n - 2)%nat with (2 * n)%nat by lia.
  rewrite firstn_all2 by (rewrite two; lia). f_equal. apply IH.
Qed.

Lemma slice_flat2 (l : list A) (a b : Z) :
  0 <= a -> 0 <= b ->
  slice (flat_map f l) (2 * a) (2 * b) = flat_map f (slice l a b).
Proof.
  intros Ha Hb. unfold slice, len. rewrite length_flat2, !norm_pos by lia.
  replace (Z.to_nat (Z.min (2 * a) (Z.of_nat (2 * List.length l))))
    with (2 * Z.to_nat (Z.min a (Z.of_nat (List.length l))))%nat by lia.
  replace (Z.to_nat (Z.min (2 * b) (Z.of_nat (2 * List.length l))
                     - Z.min (2 * a) (Z.of_nat (2 * List.length l))))
    with (2 * Z.to_nat (Z.min b (Z.of_nat (List.length l))
                        - Z.min a (Z.of_nat (List.length l))))%nat by lia.
  rewrite skipn_flat2, firstn_flat2. reflexivity.
Qed.

End Pairs.

Lemma hex_chars_two (b : byte) : List.length (hex_chars b) = 2%nat.
Proof. reflexivity. Qed.

Lemma str_slice_hex (data : bytes) (a b : Z) :
  0 <= a -> 0 <= b -> str_slice (hex data) (2 * a) (2 * b) = hex (slice data a b).
Proof.
  intros Ha Hb. unfold str_slice.
  rewrite hex_as_chars, (slice_flat2 hex_chars hex_chars_two) by assumption.
  apply chars_as_hex.
Qed.

Lemma length_list_ascii (s : string) :
  List.length (list_ascii_of_string s) = String.length s.
Proof. induction s as [|c s IH]; [reflexivity|]. cbn. rewrite IH. reflexivity. Qed.

Lemma str_len_hex (data : bytes) : str_len (hex data) = 2 * len data.
Proof.
  unfold str_len, len. rewrite <- (length_list_ascii (hex data)).
  rewrite hex_as_chars, (length_flat2 hex_chars hex_chars_two). lia.
Qed.

Lemma combine_map_seq {B C : Type} (g : nat -> B) (h : nat -> C) (l : list nat) :
  combine (map g l) (map h l) = map (fun k => (g k, h k)) l.
Proof. induction l as [|k l IH]; [reflexivity|]. cbn. rewrite IH. reflexivity. Qed.

Lemma enumerate_range (stop step : Z) :
  enumerate (range 0 stop step)
  = map (fun k => (Z.of_nat k, 0 + Z.of_nat k * step))
        (seq 0 (Z.to_nat ((stop - 0 + step - 1) / step))).
Proof.
  unfold enumerate, range. rewrite length_map, length_seq. apply combine_map_seq.
Qed.

Lemma hex_empty_iff (l : bytes) : hex l = "" <-> l = [].
Proof.
  split; [|intros ->; reflexivity].
  destruct l as [|b l]; [reflexivity|].
  destruct (hex_cons b l) as (h & c & _ & E). rewrite E. discriminate.
Qed.

Lemma slice_empty_iff {A : Type} (l : list A) (a b : Z) :
  0 <= a < b -> (slice l a b = [] <-> len l <= a).
Proof.
  intros H. unfold slice, len. rewrite !norm_pos by lia. split.
  - intros E. apply (f_equal (@List.length A)) in E.
    rewrite length_firstn, length_skipn in E. cbn [List.length] in E. lia.
  - intros L. rewrite skipn_all2 by lia. apply firstn_nil.
Qed.

(** The setting 08 00 (user codes): the code of user [k + 1] is the hex
    text of bytes [2k] and [2k + 1] of the payload; a user whose two
    bytes are 00 00, or lie past the payload, has no entry. *)
Theorem user_codes_setting (data : bytes) :
  exists user_codes,
    m35_08_00_decoder data = Ok (VDict user_codes)
    /\ forall k : nat,
         dict_get key_eqb user_codes (KInt (Z.of_nat k + 1)) =
           let code := hex (slice data (2 * Z.of_nat k) (2 * Z.of_nat k + 2)) in
           if String.eqb code "" || String.eqb code "0000" then None
           else Some (VStr code).
Proof.
  unfold m35_08_00_decoder. cbv zeta. eexists. split; [reflexivity|].
  rewrite enumerate_range, str_len_hex.
  set (m := Z.to_nat ((2 * len data - 1 - 0 + 4 - 1) / 4)).
  set (step := fun (user_codes : list (key * value)) (p : Z * Z) =>
                 let '(idx, i) := p in
                 if negb (String.eqb (str_slice (hex data) i (i + 4)) "0000")
                 then dict_set key_eqb user_codes (KInt (idx + 1))
                        (VStr (str_slice (hex data) i (i + 4)))
                 else user_codes).
  assert (Inv : forall j q,
    dict_get key_eqb
      (fold_left step (map (fun k => (Z.of_nat k, 0 + Z.of_nat k * 4)) (seq 0 j)) [])
      (KInt q)
    = if (1 <=? q) && (q <=? Z.of_nat j)
      then (let code := hex (slice data (2 * (q - 1)) (2 * (q - 1) + 2)) in
            if String.eqb code "0000" then None else Some (VStr code))
      else None).
  { induction j as [|j IH]; intros q.
    - cbn. destruct (1 <=? q) eqn:E1; destruct (q <=? 0) eqn:E2; try reflexivity.
      apply Z.leb_le in E1, E2. lia.
    - rewrite seq_S, map_app, fold_left_app. cbn [plus map fold_left].
      unfold step at 1.
      replace (0 + Z.of_nat j * 4) with (2 * (2 * Z.of_nat j)) by lia.
      replace (2 * (2 * Z.of_nat j) + 4) with (2 * (2 * Z.of_nat j + 2)) by lia.
      rewrite str_slice_hex by lia.
      destruct (String.eqb (hex (slice data (2 * Z.of_nat j) (2 * Z.of_nat j + 2))) "0000")
        eqn:E0; cbn [negb].
      + rewrite IH. cbv zeta.
        destruct (Z.leb_spec 1 q); destruct (Z.leb_spec q (Z.of_nat j));
          destruct (Z.leb_spec q (Z.of_nat (S j))); cbn [andb]; try reflexivity; try lia.
        replace (q - 1) with (Z.of_nat j) by lia. rewrite E0. reflexivity.
      + rewrite (dict_get_set key_eqb key_eqb_spec). cbn [key_eqb]. rewrite IH. cbv zeta.
        destruct (Z.eqb_spec (Z.of_nat j + 1) q) as [Eq|Eq].
        * destruct (Z.leb_spec 1 q); destruct (Z.leb_spec q (Z.of_nat (S j)));
            cbn [andb]; try lia.
          replace (q - 1) with (Z.of_nat j) by lia. rewrite E0. reflexivity.
        * destruct (Z.leb_spec 1 q); destruct (Z.leb_spec q (Z.of_nat j));
            destruct (Z.leb_spec q (Z.of_nat (S j))); cbn [andb]; try reflexivity; lia. }
  intros k. rewrite (Inv m (Z.of_nat k + 1)). cbv zeta.
  replace (Z.of_nat k + 1 - 1) with (Z.of_nat k) by lia.
  pose proof (len_nonneg data) as Hl.
  assert (Hm : Z.of_nat m = (2 * len data + 2) / 4).
  { subst m. rewrite Z2Nat.id by (apply Z.div_pos; lia). f_equal. lia. }
  destruct (String.eqb (hex (slice data (2 * Z.of_nat k) (2 * Z.of_nat k + 2))) "") eqn:Ee.
  - apply String.eqb_eq, hex_empty_iff, slice_empty_iff in Ee; [|lia]. cbn [orb].
    destruct (Z.leb_spec 1 (Z.of_nat k + 1)); [|lia].
    destruct (Z.leb_spec (Z.of_nat k + 1) (Z.of_nat m)); [|reflexivity].
    exfalso. rewrite Hm in *.
    assert (4 * (Z.of_nat k + 1) <= 2 * len data + 2); [|lia].
    pose proof (Z.mul_div_le (2 * len data + 2) 4 ltac:(lia)). lia.
  - cbn [orb].
    assert (Hlt : 2 * Z.of_nat k < len data).
    { destruct (Z.lt_ge_cases (2 * Z.of_nat k) (len data)) as [L|L]; [exact L|].
      exfalso. apply (proj2 (slice_empty_iff data (2 * Z.of_nat k) (2 * Z.of_nat k + 2)
                                ltac:(lia))) in L.
      rewrite L in Ee. discriminate. }
    destruct (Z.leb_spec 1 (Z.of_nat k + 1)); [|lia].
    destruct (Z.leb_spec (Z.of_nat k + 1) (Z.of_nat m)) as [L|L]; [reflexivity|].
    exfalso. rewrite Hm in L.
    assert ((2 * len data + 2) / 4 >= Z.of_nat k + 1); [|lia].
    apply Z.le_ge, Z.div_le_lower_bound; lia.
Qed.

(** ** Settings frames *)

Lemma bytes_join_elems (l : list bytes) : bytes_join (map EBytes l) = Ok (List.concat l).
Proof.
  unfold bytes_join.
  assert (E : mapM (fun e => match e with
                             | EBytes b => Ok b
                             | EInt _ => Raise TypeError
                             end) (map EBytes l) = Ok l).
  { induction l as [|b l IH]; [reflexivity|]. cbn [map mapM bind]. rewrite IH. reflexivity. }
  rewrite E. reflexivity.
Qed.

(** A response to command 35 whose setting has a decoder of its own:
    whatever width the data type gives the elements, that decoder is
    handed the payload as it was sent, and its result is returned with
    the names of the setting and of the data type. *)
Theorem settings_frame_decodes
  (wrap : string -> Z -> result (list string))
  (message_type length_all_data page b6 b7 p0 p1 data_type : byte)
  (payload tail : bytes) (format_decoder : bytes -> result value) (decoded : value) :
  b2z message_type = 2 \/ b2z message_type = 3 \/ b2z message_type = 5 ->
  b6 <> x00 ->
  len payload + 3 < 256 ->
  m35_decoder wrap (slugify (hex_sep [p0; p1])) = Some format_decoder ->
  format_decoder payload = Ok decoded ->
  exists m,
    decode_b0_message_structure
      (settings_frame message_type length_all_data page b6 b7 p0 p1 data_type payload tail)
    = Ok (Some (SResponse m))
    /\ b0_35_data_decoder wrap m =
         Ok (B0Cmd35DecodedData decoded (len payload) (hex_sep [p0; p1])
               match Command35Settings (hex_sep [p0; p1]) with
               | Some name => name
               | None => "Unknown"
               end
               match DataType (b2z data_type) with
               | Some name => name
               | None => "UNKNOWN-" ++ str_of_int (b2z data_type)
               end).
Proof.
  intros Ht H6 Hlen Hdec Hres.
  set (frame := settings_frame message_type length_all_data page b6 b7 p0 p1 data_type
                  payload tail).
  pose proof (len_nonneg payload) as Hp.
  assert (E2 : slice frame 2 3 = [message_type])
    by (apply slice_one; [lia | lia | reflexivity]).
  assert (E3 : slice frame 3 4 = [x35])
    by (apply slice_one; [lia | lia | reflexivity]).
  assert (E6 : slice frame 6 7 = [b6])
    by (apply slice_one; [lia | lia | reflexivity]).
  assert (E8 : slice frame 8 9 = [byte_of_Z (len payload + 3)])
    by (apply slice_one; [lia | lia | reflexivity]).
  assert (E11 : slice frame 11 12 = [data_type])
    by (apply slice_one; [lia | lia | reflexivity]).
  assert (E9 : slice frame 9 11 = [p0; p1]).
  { change frame with ([x0d; xb0; message_type; x35; length_all_data; page; b6; b7;
                        byte_of_Z (len payload + 3)] ++ [p0; p1]
                         ++ (data_type :: payload ++ tail))%list.
    apply slice_mid; reflexivity. }
  assert (Ed : slice frame 12 (12 + len payload) = payload).
  { change frame with ([x0d; xb0; message_type; x35; length_all_data; page; b6; b7;
                        byte_of_Z (len payload + 3); p0; p1; data_type]
                         ++ payload ++ tail)%list.
    apply slice_mid; [reflexivity|]. reflexivity. }
  set (size := Z.max 1 (b2z data_type / 8)).
  assert (Hchunks :
    response_chunks frame "35" (b2i (slice frame 4 5) true)
    = Ok (true, hex_sep [p0; p1],
          [ {| Chunk.data_type := b2z data_type;
               Chunk.index := 255;
               Chunk.length := len payload;
               Chunk.data := Chunk.Elems
                               (map EBytes (chunk_fuel (List.length payload)
                                              (Z.to_nat size) payload));
               Chunk.hex := Chunk.HexList
                              (map hex (chunk_fuel (List.length payload)
                                          (Z.to_nat size) payload));
               Chunk.b042 := None |} ])).
  { unfold response_chunks. rewrite E6, E8, E9, E11, !b2i_one.
    destruct (Z.eqb_spec (b2z b6) 0) as [Z0|Z0].
    { exfalso. apply H6. apply b2z_inj. exact Z0. }
    cbn [String.eqb Ascii.eqb Bool.eqb]. cbv zeta.
    rewrite b2z_byte_of_Z by lia.
    replace (len payload + 3 - 3) with (len payload) by lia.
    rewrite Ed. fold size. unfold chunk_bytearray.
    destruct (Z.eqb_spec size 0); [subst size; lia|].
    destruct (Z.ltb_spec size 0); [subst size; lia|].
    reflexivity. }
  eexists. split.
  - unfold decode_b0_message_structure. cbv zeta. fold frame.
    rewrite E2, E3, !b2i_one.
    change (hex [x35]) with "35". rewrite Hchunks.
    unfold MessageType_ADD, MessageType_REMOVE, MessageType_REQUEST,
      MessageType_PAGED_RESPONSE, MessageType_RESPONSE, MessageType_UNKNOWN.
    replace ((b2z message_type =? 0) || (b2z message_type =? 4)) with false
      by (destruct Ht as [Ht|[Ht|Ht]]; rewrite Ht; reflexivity).
    replace (b2z message_type =? 1) with false
      by (destruct Ht as [Ht|[Ht|Ht]]; rewrite Ht; reflexivity).
    replace ((b2z message_type =? 2) || (b2z message_type =? 3) || (b2z message_type =? 5))
      with true by (destruct Ht as [Ht|[Ht|Ht]]; rewrite Ht; reflexivity).
    cbn [bind]. reflexivity.
  - unfold b0_35_data_decoder.
    cbn [Response.data Response.params item nth_error bind Chunk.data elems_of
         Chunk.data_type Chunk.length].
    rewrite bytes_join_elems, chunk_fuel_concat by (subst size; lia).
    cbn [bind]. rewrite Hdec, Hres. cbn [bind].
    unfold config_name, _get_data_type, enum_name.
    destruct (Command35Settings (hex_sep [p0; p1]));
      destruct (DataType (b2z data_type)); reflexivity.
Qed.

Lemma settings_frame_decodes_witness :
  exists m,
    decode_b0_message_structure
      (settings_frame x03 x09 xff x01 x00 x32 x00 x01 [x05; x07; x00] [x00; x43; x00; x0a])
    = Ok (Some (SResponse m))
    /\ b0_35_data_decoder (fun _ _ => Ok []) m =
         Ok (B0Cmd35DecodedData (VList [VInt 5; VInt 7]) 3 "32 00" "ASSIGNED_ZONE_NAMES" "DIRECT_MAP_STRING").
Proof.
  exact (settings_frame_decodes (fun _ _ => Ok []) x03 x09 xff x01 x00 x32 x00 x01
           [x05; x07; x00] [x00; x43; x00; x0a] m35_32_00_decoder (VList [VInt 5; VInt 7])
           (or_intror (or_introl eq_refl)) ltac:(discriminate) eq_refl eq_refl eq_refl).
Defined.

(** A response to command 42 whose setting has a decoder of its own:
    that decoder is handed the payload cut into entries of the size the
    frame announces, in bytes, and no entry at all when that size is
    below one byte. *)
Theorem settings2_frame_decodes
  (wrap : string -> Z -> result (list string))
  (message_type length_all_data page b6 b7 p0 p1 : byte)
  (max_entries entry_bits : byte * byte) (b15 b16 data_type b18 : byte)
  (start_entry entries : byte * byte) (payload tail : bytes)
  (format_decoder : list elem -> result value) (decoded : value) :
  let size := b2i [fst entry_bits; snd entry_bits] false / 8 in
  let elements :=
    if size =? 0 then []
    else chunk_fuel (List.length payload) (Z.to_nat size) payload in
  b2z message_type = 2 \/ b2z message_type = 3 \/ b2z message_type = 5 ->
  b6 <> x00 ->
  len payload + 14 < 256 ->
  m42_decoder (slugify (hex_sep [p0; p1])) = Some format_decoder ->
  format_decoder (map EBytes elements) = Ok decoded ->
  exists m,
    decode_b0_message_structure
      (settings2_frame message_type length_all_data page b6 b7 p0 p1 max_entries
         entry_bits b15 b16 data_type b18 start_entry entries payload tail)
    = Ok (Some (SResponse m))
    /\ b0_42_data_decoder wrap m =
         Ok (B0Cmd42DecodedData decoded (len payload) (hex_sep [p0; p1])
               match Command35Settings (hex_sep [p0; p1]) with
               | Some name => name
               | None => "Unknown"
               end
               match DataType (b2z data_type) with
               | Some name => name
               | None => "UNKNOWN-" ++ str_of_int (b2z data_type)
               end).
Proof.
  intros size elements Ht H6 Hlen Hdec Hres.
  set (frame := settings2_frame message_type length_all_data page b6 b7 p0 p1 max_entries
                  entry_bits b15 b16 data_type b18 start_entry entries payload tail).
  pose proof (len_nonneg payload) as Hp.
  assert (E2 : slice frame 2 3 = [message_type])
    by (apply slice_one; [lia | lia | reflexivity]).
  assert (E3 : slice frame 3 4 = [x42])
    by (apply slice_one; [lia | lia | reflexivity]).
  assert (E6 : slice frame 6 7 = [b6])
    by (apply slice_one; [lia | lia | reflexivity]).
  assert (E8 : slice frame 8 9 = [byte_of_Z (len payload + 14)])
    by (apply slice_one; [lia | lia | reflexivity]).
  assert (E17 : slice frame 17 18 = [data_type])
    by (apply slice_one; [lia | lia | reflexivity]).
  assert (E13 : slice frame 13 15 = [fst entry_bits; snd entry_bits]).
  { change frame with ([x0d; xb0; message_type; x42; length_all_data; page; b6; b7;
                        byte_of_Z (len payload + 14); p0; p1;
                        fst max_entries; snd max_entries]
                         ++ [fst entry_bits; snd entry_bits]
                         ++ ([b15; b16; data_type; b18;
                              fst start_entry; snd start_entry; fst entries; snd entries]
                               ++ payload ++ tail))%list.
    apply slice_mid; reflexivity. }
  assert (E9 : slice frame 9 11 = [p0; p1]).
  { change frame with ([x0d; xb0; message_type; x42; length_all_data; page; b6; b7;
                        byte_of_Z (len payload + 14)] ++ [p0; p1]
                         ++ ([fst max_entries; snd max_entries; fst entry_bits;
                              snd entry_bits; b15; b16; data_type; b18;
                              fst start_entry; snd start_entry; fst entries; snd entries]
                               ++ payload ++ tail))%list.
    apply slice_mid; reflexivity. }
  assert (Ed : slice frame 23 (23 + len payload) = payload).
  { change frame with ([x0d; xb0; message_type; x42; length_all_data; page; b6; b7;
                        byte_of_Z (len payload + 14); p0; p1;
                        fst max_entries; snd max_entries; fst entry_bits; snd entry_bits;
                        b15; b16; data_type; b18;
                        fst start_entry; snd start_entry; fst entries; snd entries]
                         ++ payload ++ tail)%list.
    apply slice_mid; reflexivity. }
  assert (Hsize : 0 <= size).
  { subst size. apply Z.div_pos; [apply b2i_nonneg | lia]. }
  assert (Hchunks : exists c,
    response_chunks frame "42" (b2i (slice frame 4 5) true)
    = Ok (true, hex_sep [p0; p1], [c])
    /\ Chunk.data c = Chunk.Elems (map EBytes elements)
    /\ Chunk.length c = len payload
    /\ Chunk.data_type c = b2z data_type).
  { unfold response_chunks. rewrite E6, E8, E9, E13, E17, !b2i_one.
    destruct (Z.eqb_spec (b2z b6) 0) as [Z0|Z0].
    { exfalso. apply H6. apply b2z_inj. exact Z0. }
    cbn [String.eqb Ascii.eqb Bool.eqb]. cbv zeta.
    rewrite b2z_byte_of_Z by lia.
    replace (len payload + 14 - 14) with (len payload) by lia.
    rewrite Ed. fold size. subst elements. unfold chunk_bytearray.
    destruct (Z.eqb_spec size 0) as [S0|S0].
    - cbn [bind]. eexists. split; [reflexivity|]. repeat split.
    - destruct (Z.ltb_spec size 0); [lia|].
      cbn [bind]. eexists. split; [reflexivity|]. repeat split. }
  destruct Hchunks as (c & Hchunks & Hcd & Hcl & Hct).
  eexists. split.
  - unfold decode_b0_message_structure. cbv zeta. fold frame.
    rewrite E2, E3, !b2i_one.
    change (hex [x42]) with "42". rewrite Hchunks.
    unfold MessageType_ADD, MessageType_REMOVE, MessageType_REQUEST,
      MessageType_PAGED_RESPONSE, MessageType_RESPONSE, MessageType_UNKNOWN.
    replace ((b2z message_type =? 0) || (b2z message_type =? 4)) with false
      by (destruct Ht as [Ht|[Ht|Ht]]; rewrite Ht; reflexivity).
    replace (b2z message_type =? 1) with false
      by (destruct Ht as [Ht|[Ht|Ht]]; rewrite Ht; reflexivity).
    replace ((b2z message_type =? 2) || (b2z message_type =? 3) || (b2z message_type =? 5))
      with true by (destruct Ht as [Ht|[Ht|Ht]]; rewrite Ht; reflexivity).
    cbn [bind]. reflexivity.
  - unfold b0_42_data_decoder.
    cbn [Response.data Response.params item nth_error bind].
    rewrite Hdec, Hcd. cbn [elems_of]. rewrite Hres. cbn [bind].
    rewrite Hcl, Hct.
    unfold config_name, _get_data_type, enum_name.
    destruct (Command35Settings (hex_sep [p0; p1]));
      destruct (DataType (b2z data_type)); reflexivity.
Qed.

Lemma settings2_frame_decodes_witness :
  exists m,
    decode_b0_message_structure
      (settings2_frame x03 x1b xff x01 x00 xa4 x00 (x04, x00) (x20, x00) x00 x00 x06 x00
         (x00, x00) (x02, x00) [x61; x40; x62; x00; x63; x40; x64; x00] [x00; x43; x00; x0a])
    = Ok (Some (SResponse m))
    /\ b0_42_data_decoder (fun _ _ => Ok []) m =
         Ok (B0Cmd42DecodedData (VList [VStr "a@b"; VStr "c@d"]) 8 "a4 00"
               "EMAIL_ADDRESSES" "STRING").
Proof.
  exact (settings2_frame_decodes (fun _ _ => Ok []) x03 x1b xff x01 x00 xa4 x00
           (x04, x00) (x20, x00) x00 x00 x06 x00 (x00, x00) (x02, x00)
           [x61; x40; x62; x00; x63; x40; x64; x00] [x00; x43; x00; x0a]
           m42_a4_00_decoder (VList [VStr "a@b"; VStr "c@d"])
           (or_intror (or_introl eq_refl)) ltac:(discriminate) eq_refl eq_refl eq_refl).
Defined.

(** ** Standard frames and hex chunks *)

Lemma slice_mid_to_end {A : Type} (a b c : list A) (lo hi : Z) :
  lo = len a -> hi = - len c -> c <> [] -> slice (a ++ b ++ c) lo hi = b.
Proof.
  intros -> -> Hc. unfold slice. rewrite !len_app.
  pose proof (len_nonneg a). pose proof (len_nonneg b).
  assert (0 < len c) by (destruct c; [contradiction | rewrite len_cons; pose proof (len_nonneg c); lia]).
  rewrite (norm_pos _ (len a)), (norm_neg _ (- len c)) by lia.
  replace (Z.to_nat (Z.min (len a) (len a + (len b + len c)))) with (List.length a)
    by (unfold len in *; lia).
  replace (Z.to_nat (Z.max (- len c + (len a + (len b + len c))) 0
                     - Z.min (len a) (len a + (len b + len c))))
    with (List.length b) by (unfold len in *; lia).
  rewrite skipn_app, skipn_all, Nat.sub_diag. cbn [skipn app].
  rewrite firstn_app, firstn_all, Nat.sub_diag. cbn [firstn]. apply app_nil_r.
Qed.

Lemma slice_end_to_end {A : Type} (a b c : list A) (lo hi : Z) :
  lo = - (len b + len c) -> hi = - len c -> c <> [] -> slice (a ++ b ++ c) lo hi = b.
Proof.
  intros -> -> Hc. unfold slice. rewrite !len_app.
  pose proof (len_nonneg a). pose proof (len_nonneg b).
  assert (0 < len c) by (destruct c; [contradiction | rewrite len_cons; pose proof (len_nonneg c); lia]).
  rewrite !norm_neg by lia.
  replace (Z.to_nat (Z.max (- (len b + len c) + (len a + (len b + len c))) 0))
    with (List.length a) by (unfold len in *; lia).
  replace (Z.to_nat (Z.max (- len c + (len a + (len b + len c))) 0
                     - Z.max (- (len b + len c) + (len a + (len b + len c))) 0))
    with (List.length b) by (unfold len in *; lia).
  rewrite skipn_app, skipn_all, Nat.sub_diag. cbn [skipn app].
  rewrite firstn_app, firstn_all, Nat.sub_diag. cbn [firstn]. apply app_nil_r.
Qed.

(** A standard frame is read by position: the command is the second
    byte, the checksum the last but one, the data what lies between.
    The frame verifies exactly when the checksum byte is the checksum of
    the command and the data; the first and the last byte are never
    looked at. *)
Theorem standard_frame_fields (start command checksum stop : byte) (data : bytes) :
  let m := decode_standard_message (start :: command :: data ++ [checksum; stop]) in
  STD.command m = hex [command]
  /\ STD.command_str m = get_lookup_value StandardCommand (hex [command])
  /\ STD.data m = hex_sep data
  /\ STD.checksum m = hex [checksum]
  /\ (STD.verified m = true
      <-> [checksum] = calculate_message_checksum (command :: data)).
Proof.
  cbv zeta. unfold decode_standard_message. cbv zeta.
  cbn [STD.command STD.command_str STD.data STD.checksum STD.verified].
  set (msg := start :: command :: (data ++ [checksum; stop])%list).
  assert (E1 : slice msg 1 2 = [command]).
  { apply slice_one; [lia | lia | reflexivity]. }
  assert (E2 : slice msg 2 (-2) = data).
  { change msg with ([start; command] ++ data ++ [checksum; stop])%list.
    apply slice_mid_to_end; [reflexivity | reflexivity | discriminate]. }
  assert (E3 : slice msg (-2) (-1) = [checksum]).
  { change msg with ((start :: command :: data) ++ [checksum] ++ [stop])%list.
    change (start :: command :: (data ++ [checksum; stop])%list)
      with ((start :: command :: data) ++ [checksum] ++ [stop])%list.
    apply slice_end_to_end; [reflexivity | reflexivity | discriminate]. }
  assert (E4 : slice msg 1 (-2) = command :: data).
  { change msg with ([start] ++ (command :: data) ++ [checksum; stop])%list.
    apply slice_mid_to_end; [reflexivity | reflexivity | discriminate]. }
  rewrite E1, E2, E3, E4.
  repeat split.
  - intros H.
    destruct (String.eqb (hex [checksum])
                (hex (calculate_message_checksum (command :: data)))) eqn:E;
      [|discriminate].
    apply hex_eqb in E. exact E.
  - intros H. rewrite <- H. rewrite String.eqb_refl. reflexivity.
Qed.

(** [chunk_hex_string] on text written by [hex(" ")], with a positive
    size, cuts the text at byte boundaries: the pieces joined by spaces
    are the text, and there are ceil(bytes / size) of them. *)
Theorem chunk_hex_string_joins (data : bytes) (size : Z) :
  0 < size ->
  exists pieces,
    chunk_hex_string (hex_sep data) size = Ok pieces
    /\ String.concat " " pieces = hex_sep data
    /\ len pieces = (len data + size - 1) / size.
Proof.
  intros Hs. unfold chunk_hex_string. rewrite fromhex_hex_sep. cbn [bind].
  unfold chunk_bytearray.
  destruct (Z.eqb_spec size 0); [lia|].
  destruct (Z.ltb_spec size 0); [lia|].
  cbn [bind]. eexists. split; [reflexivity|].
  assert (P : (0 < Z.to_nat size)%nat) by lia.
  split.
  - rewrite concat_hex_sep.
    + rewrite chunk_fuel_concat; [reflexivity | exact P | lia].
    + eapply Forall_impl; [|apply chunk_fuel_sizes; [exact P | apply Nat.le_refl]].
      intros c Hc. cbv beta in Hc. destruct c; [cbn in Hc; lia | discriminate].
  - unfold len. rewrite length_map.
    pose proof (chunk_fuel_count (List.length data) (Z.to_nat size) data P
                  (Nat.le_refl _)) as C.
    rewrite Z2Nat.id in C by lia. exact C.
Qed.

Lemma chunk_hex_string_joins_witness :
  exists pieces,
    chunk_hex_string (hex_sep [xa1; xa2; xa3]) 2 = Ok pieces
    /\ String.concat " " pieces = hex_sep [xa1; xa2; xa3]
    /\ len pieces = (len [xa1; xa2; xa3] + 2 - 1) / 2.
Proof. apply (chunk_hex_string_joins [xa1; xa2; xa3] 2). lia. Defined.

(** ** The message queue *)

Import Queue.

Lemma insert_by_key_head (x : QueuedMessage) (l : list QueuedMessage) :
  hd_error (insert_by_key x l)
  = Some match hd_error l with
         | Some y => if key_leb x y then x else y
         | None => x
         end.
Proof. destruct l as [|y l]; [reflexivity|]. cbn. destruct (key_leb x y); reflexivity. Qed.

Lemma sorted_by_key_head (l : list QueuedMessage) :
  hd_error (sorted_by_key l) = least_key l.
Proof.
  induction l as [|x l IH]; [reflexivity|].
  cbn [sorted_by_key least_key]. rewrite insert_by_key_head, IH.
  destruct (least_key l); reflexivity.
Qed.

Lemma least_key_some (l : list QueuedMessage) : l <> [] -> exists m, least_key l = Some m.
Proof.
  destruct l as [|x l]; [contradiction|]. intros _. cbn.
  destruct (least_key l); eexists; reflexivity.
Qed.

Lemma sorted_ids_tail (x : QueuedMessage) (l : list QueuedMessage) :
  StronglySorted Z.lt (map queue_id (x :: l)) ->
  StronglySorted Z.lt (map queue_id l)
  /\ Forall (fun y => queue_id x < queue_id y) l.
Proof.
  intros H. cbn [map] in H. apply StronglySorted_inv in H. destruct H as [H1 H2].
  split; [exact H1|]. rewrite Forall_map in H2. exact H2.
Qed.

(** Under increasing ids, the least key is held by the first message of
    the least priority value. *)
Lemma least_key_first (l : list QueuedMessage) (m : QueuedMessage) :
  StronglySorted Z.lt (map queue_id l) ->
  least_key l = Some m ->
  exists before after,
    l = (before ++ m :: after)%list
    /\ Forall (fun other => priority m < priority other) before
    /\ Forall (fun other => priority m <= priority other) after.
Proof.
  revert m. induction l as [|x l IH]; intros m Hs Hm; [discriminate|].
  apply sorted_ids_tail in Hs. destruct Hs as [Hs Hx].
  cbn [least_key] in Hm. destruct (least_key l) as [y|] eqn:Ey.
  - destruct (IH y Hs eq_refl) as (before & after & -> & Hb & Ha).
    assert (Hxy : queue_id x < queue_id y).
    { rewrite Forall_forall in Hx. apply Hx. apply in_or_app. right. left. reflexivity. }
    injection Hm as <-. unfold key_leb.
    destruct (Z.ltb_spec (priority x) (priority y)) as [L|L]; cbn [orb].
    + exists [], (before ++ y :: after)%list. split; [reflexivity|]. split; [constructor|].
      apply Forall_app. split.
      * eapply Forall_impl; [|exact Hb]. cbv beta. intros; lia.
      * constructor; [lia|]. eapply Forall_impl; [|exact Ha]. cbv beta. intros; lia.
    + destruct (Z.eqb_spec (priority x) (priority y)) as [E|E]; cbn [andb].
      * destruct (Z.leb_spec (queue_id x) (queue_id y)); [|lia].
        exists [], (before ++ y :: after)%list. split; [reflexivity|]. split; [constructor|].
        apply Forall_app. split.
        -- eapply Forall_impl; [|exact Hb]. cbv beta. intros; lia.
        -- constructor; [lia|]. eapply Forall_impl; [|exact Ha]. cbv beta. intros; lia.
      * exists (x :: before), after. split; [reflexivity|]. split; [|exact Ha].
        constructor; [lia | exact Hb].
  - injection Hm as <-. destruct l as [|z l].
    + exists [], []. repeat split; constructor.
    + cbn in Ey. destruct (least_key l); discriminate.
Qed.

Lemma pop_last_id_middle (before after : list QueuedMessage) (m : QueuedMessage) :
  Forall (fun other => queue_id other <> queue_id m) before ->
  pop_last_id (queue_id m) (before ++ m :: after) = (before ++ after)%list.
Proof.
  induction 1 as [|x before Hx _ IH].
  - cbn. rewrite Z.eqb_refl. reflexivity.
  - cbn [app pop_last_id]. destruct (Z.eqb_spec (queue_id x) (queue_id m)); [contradiction|].
    rewrite IH. reflexivity.
Qed.

Lemma sorted_ids_before (before after : list QueuedMessage) (m : QueuedMessage) :
  StronglySorted Z.lt (map queue_id (before ++ m :: after)) ->
  Forall (fun other => queue_id other <> queue_id m) before.
Proof.
  induction before as [|x before IH]; intros H; [constructor|].
  change ((x :: before) ++ m :: after)%list with (x :: (before ++ m :: after))%list in H.
  apply sorted_ids_tail in H. destruct H as [Hs Hx].
  constructor; [|apply IH, Hs].
  rewrite Forall_forall in Hx.
  assert (Hin : In m (before ++ m :: after)) by (apply in_or_app; right; left; reflexivity).
  specialize (Hx m Hin). lia.
Qed.

Lemma sorted_pop (last_id : Z) (l : list QueuedMessage) :
  StronglySorted Z.lt (map queue_id l) ->
  StronglySorted Z.lt (map queue_id (pop_last_id last_id l)).
Proof.
  induction l as [|x l IH]; intros H; [constructor|].
  apply sorted_ids_tail in H. destruct H as [Hs Hx].
  cbn [pop_last_id]. destruct (queue_id x =? last_id); [exact Hs|].
  cbn [map]. constructor; [apply IH, Hs|].
  rewrite Forall_map. rewrite Forall_forall in *. intros y Hy. apply Hx.
  clear - Hy. induction l as [|z l IH]; [contradiction|].
  cbn [pop_last_id] in Hy. destruct (queue_id z =? last_id).
  - right. exact Hy.
  - destruct Hy as [->|Hy]; [left; reflexivity | right; apply IH, Hy].
Qed.

Lemma pop_last_id_incl (last_id : Z) (l : list QueuedMessage) (P : QueuedMessage -> Prop) :
  Forall P l -> Forall P (pop_last_id last_id l).
Proof.
  induction 1 as [|x l Hx Hl IH]; [constructor|].
  cbn [pop_last_id]. destruct (queue_id x =? last_id); [exact Hl|].
  constructor; assumption.
Qed.

(** [put] hands out the next number of [QueueID] and appends the message
    under it, leaving the queued messages and the remembered id as they
    were; [get] leaves the queue as it is; [clear] empties it.  All of
    them, and [processed], keep the ids increasing along the queue and
    bounded by the counter. *)
Theorem queue_ids_increase_kept (_id : Z) (self : MessageQueue)
  (destination client_id : string) (message : bytes) (priority : Z) :
  queue_ids_increase _id self ->
  let (_id', self') := put _id self destination client_id message priority in
  _id' = _id + 1
  /\ _queue self' =
       (_queue self ++
          [{| queue_id := _id + 1; priority := priority; destination := destination;
              client_id := client_id; Queue.message := message |}])%list
  /\ _last_id self' = _last_id self
  /\ queue_ids_increase _id' self'
  /\ _queue (fst (get self)) = _queue self
  /\ queue_ids_increase _id (fst (get self))
  /\ queue_ids_increase _id (processed self)
  /\ _queue (clear self) = []
  /\ queue_ids_increase _id (clear self).
Proof.
  intros [Hs Hb]. cbn [put]. unfold QueueID_get, queue_ids_increase.
  split; [reflexivity|]. split; [reflexivity|]. split; [reflexivity|].
  assert (Hget : _queue (fst (get self)) = _queue self).
  { unfold get. destruct (len (_queue self) >? 0); [|reflexivity].
    destruct (sorted_by_key (_queue self)); reflexivity. }
  split; [|split; [exact Hget|split; [|split; [|split]]]].
  - cbn [_queue]. split.
    + rewrite map_app. cbn [map].
      assert (G : forall l, StronglySorted Z.lt (map queue_id l) ->
                            Forall (fun msg => queue_id msg <= _id) l ->
                            StronglySorted Z.lt (map queue_id l ++ [_id + 1])).
      { induction l as [|x l IH]; intros H1 H2.
        - cbn. constructor; constructor.
        - apply sorted_ids_tail in H1. destruct H1 as [H1 Hx].
          inversion H2 as [|? ? Hx2 Hl2]; subst.
          cbn [map app]. constructor; [apply IH; assumption|].
          apply Forall_app. split.
          + rewrite Forall_map. exact Hx.
          + constructor; [lia | constructor]. }
      cbn [queue_id]. apply G; assumption.
    + apply Forall_app. split.
      * eapply Forall_impl; [|exact Hb]. cbv beta. intros; lia.
      * constructor; [cbn; lia | constructor].
  - rewrite Hget. split; assumption.
  - cbn [processed _queue]. split; [apply sorted_pop, Hs | apply pop_last_id_incl, Hb].
  - reflexivity.
  - cbn. split; constructor.
Qed.

Lemma queue_ids_increase_kept_witness :
  let low := {| queue_id := 5; priority := 3; destination := "Alarm"; client_id := "c1";
                Queue.message := [x0d; x02; x43; x0a] |} in
  let high := {| queue_id := 7; priority := 1; destination := "Alarm"; client_id := "c2";
                 Queue.message := [x0d; x06; x43; x0a] |} in
  let self := {| _queue := [low; high]; _last_id := 5 |} in
  let (_id', self') := put 7 self "Visonic" "c3" [x0d; x08; x43; x0a] 0 in
  _id' = 7 + 1
  /\ _queue self' =
       [low; high;
        {| queue_id := 7 + 1; priority := 0; destination := "Visonic"; client_id := "c3";
           Queue.message := [x0d; x08; x43; x0a] |}]
  /\ _last_id self' = 5
  /\ queue_ids_increase _id' self'
  /\ _queue (fst (get self)) = [low; high]
  /\ queue_ids_increase 7 (fst (get self))
  /\ queue_ids_increase 7 (processed self)
  /\ _queue (clear self) = []
  /\ queue_ids_increase 7 (clear self).
Proof.
  apply (queue_ids_increase_kept 7
           {| _queue :=
                [{| queue_id := 5; priority := 3; destination := "Alarm"; client_id := "c1";
                    Queue.message := [x0d; x02; x43; x0a] |};
                 {| queue_id := 7; priority := 1; destination := "Alarm"; client_id := "c2";
                    Queue.message := [x0d; x06; x43; x0a] |}];
              _last_id := 5 |}
           "Visonic" "c3" [x0d; x08; x43; x0a] 0).
  split.
  - cbn. repeat constructor.
  - cbn. repeat (apply Forall_cons; [cbn; lia|]). apply Forall_nil.
Defined.

(** Messages leave the queue by priority value, lowest first, and in the
    order they were put among equal priorities.  On a queue whose ids
    increase, [get] answers with the first message of the least priority
    value and changes nothing but the id it remembers; [processed] then
    removes that message and no other, and a second [processed] removes
    nothing.  On an empty queue [get] answers [None]. *)
Theorem queue_serves_priority_then_arrival (self : MessageQueue) :
  StronglySorted Z.lt (map queue_id (_queue self)) ->
  match _queue self with
  | [] => get self = (self, None)
  | _ :: _ =>
      exists before msg after,
        _queue self = (before ++ msg :: after)%list
        /\ Forall (fun other => priority msg < priority other) before
        /\ Forall (fun other => priority msg <= priority other) after
        /\ get self =
             ({| _queue := _queue self; _last_id := queue_id msg |},
              Some (destination msg, client_id msg, message msg))
        /\ _queue (processed (fst (get self))) = (before ++ after)%list
        /\ processed (processed (fst (get self))) = processed (fst (get self))
  end.
Proof.
  intros Hs. destruct (_queue self) as [|x l] eqn:Eq.
  - unfold get. rewrite Eq. reflexivity.
  - destruct (least_key_some (x :: l)) as [m Hm]; [discriminate|].
    destruct (least_key_first (x :: l) m Hs Hm) as (before & after & Hl & Hb & Ha).
    exists before, m, after.
    assert (Hget : get self =
                   ({| _queue := _queue self; _last_id := queue_id m |},
                    Some (destination m, client_id m, message m))).
    { unfold get. rewrite Eq.
      replace (len (x :: l) >? 0) with true
        by (unfold len; cbn [List.length]; symmetry; apply Z.gtb_lt; lia).
      pose proof (sorted_by_key_head (x :: l)) as Hh. rewrite Hm in Hh.
      destruct (sorted_by_key (x :: l)) as [|y s]; [discriminate|].
      injection Hh as ->. reflexivity. }
    rewrite Hl in Hs.
    pose proof (sorted_ids_before before after m Hs) as Hne.
    rewrite Eq in Hget.
    split; [exact Hl|]. split; [exact Hb|]. split; [exact Ha|]. split; [exact Hget|].
    rewrite Hget. unfold processed. cbn [fst _queue _last_id]. rewrite Hl.
    rewrite pop_last_id_middle by exact Hne.
    split; [reflexivity|]. f_equal.
    assert (Hall : Forall (fun other => queue_id other <> queue_id m) (before ++ after)).
    { apply Forall_app. split; [exact Hne|].
      rewrite map_app in Hs. cbn [map] in Hs.
      clear - Hs. induction before as [|b before IH].
      - cbn [app] in Hs. apply StronglySorted_inv in Hs. destruct Hs as [_ H].
        rewrite Forall_map in H. eapply Forall_impl; [|exact H]. cbv beta. intros; lia.
      - cbn [map app] in Hs. apply StronglySorted_inv in Hs. apply IH, Hs. }
    clear - Hall. induction Hall as [|y r Hy _ IH]; [reflexivity|].
    cbn [pop_last_id]. destruct (Z.eqb_spec (queue_id y) (queue_id m)); [contradiction|].
    rewrite IH. reflexivity.
Qed.

Lemma queue_serves_priority_then_arrival_witness :
  let low := {| queue_id := 1; priority := 3; destination := "Alarm"; client_id := "c1";
                message := [x0d; x02; x43; x0a] |} in
  let high := {| queue_id := 2; priority := 1; destination := "Alarm"; client_id := "c2";
                 message := [x0d; x06; x43; x0a] |} in
  let also_high := {| queue_id := 3; priority := 1; destination := "Visonic";
                      client_id := "c3"; message := [x0d; x08; x43; x0a] |} in
  let self := {| _queue := [low; high; also_high]; _last_id := 0 |} in
  exists before msg after,
    _queue self = (before ++ msg :: after)%list
    /\ Forall (fun other => priority msg < priority other) before
    /\ Forall (fun other => priority msg <= priority other) after
    /\ get self =
         ({| _queue := _queue self; _last_id := queue_id msg |},
          Some (destination msg, client_id msg, message msg))
    /\ _queue (processed (fst (get self))) = (before ++ after)%list
    /\ processed (processed (fst (get self))) = processed (fst (get self)).
Proof.
  apply (queue_serves_priority_then_arrival
           {| _queue :=
                [{| queue_id := 1; priority := 3; destination := "Alarm"; client_id := "c1";
                    message := [x0d; x02; x43; x0a] |};
                 {| queue_id := 2; priority := 1; destination := "Alarm"; client_id := "c2";
                    message := [x0d; x06; x43; x0a] |};
                 {| queue_id := 3; priority := 1; destination := "Visonic";
                    client_id := "c3"; message := [x0d; x08; x43; x0a] |}];
              _last_id := 0 |}).
  cbn. repeat constructor.
Defined.
